(** * robust_speech: adversarial ASR brains and result writers

    A shallow embedding of [robust_speech/brain.py] and
    [robust_speech/adversarial/write_result.py], and the properties of
    the specification checked against it.

    Conventions of the embedding.
    - A Python call either returns a value or raises: [result].
    - Code that writes to a stream or mutates objects is a function on an
      explicit state, in the state-and-exception monad [M].
    - A Python [str] is a [string]; one [ascii] stands for one character,
      so [String.length] is Python's [len].
    - A Python [int] is a [Z]; a Python [float] is an element of an
      abstract type [F] with the operations of [FloatOps]. *)

From stdpp Require Import gmap strings list fin_maps pretty.
From Stdlib Require Import ZArith String Ascii Lia.

Open Scope string_scope.
Open Scope Z_scope.

(* ===================================================================== *)
(** * Part I: the embedding *)
(* ===================================================================== *)

(** ** Python exceptions and results *)

Inductive exn : Type :=
| KeyError (key : string)
| IndexError
| ZeroDivisionError
| TypeError
| OverflowError
| AssertionError
| AttributeError (name : string)
| UnboundLocalError (var : string)
| RuntimeError.

Inductive result (A : Type) : Type :=
| Ok (a : A)
| Raise (e : exn).
Arguments Ok {A} a.
Arguments Raise {A} e.

Definition is_ok {A} (r : result A) : bool :=
  match r with Ok _ => true | Raise _ => false end.

Definition rbind {A B} (r : result A) (k : A -> result B) : result B :=
  match r with
  | Ok a => k a
  | Raise e => Raise e
  end.

(** ** State and exceptions

    [M S A] is a computation over a mutable state [S]; a raise keeps the state
    reached so far (what was already written stays written). *)

Definition M (S A : Type) : Type := S -> S * result A.

Definition ret {S A} (a : A) : M S A := fun s => (s, Ok a).

Definition raise {S A} (e : exn) : M S A := fun s => (s, Raise e).

Definition bind {S A B} (c : M S A) (k : A -> M S B) : M S B :=
  fun s => match c s with
           | (s', Ok a) => k a s'
           | (s', Raise e) => (s', Raise e)
           end.

Definition lift {S A} (r : result A) : M S A := fun s => (s, r).

Definition get {S} : M S S := fun s => (s, Ok s).

Definition modify {S} (f : S -> S) : M S unit := fun s => (f s, Ok tt).

Declare Scope py_scope.
Delimit Scope py_scope with py.
Notation "x <~ c ;; k" := (bind c (fun x => k))
  (at level 100, c at next level, right associativity) : py_scope.
Notation "c ;;; k" := (bind c (fun _ => k))
  (at level 100, right associativity) : py_scope.
Open Scope py_scope.

(** ** Sequences

    [py_index l i] is [l[i]]: a negative index counts from the end, an index
    out of range raises [IndexError]. *)

Definition py_index {A} (l : list A) (i : Z) : result A :=
  let n := Z.of_nat (List.length l) in
  let k := if i <? 0 then i + n else i in
  if (0 <=? k) && (k <? n)
  then match l !! Z.to_nat k with
       | Some x => Ok x
       | None => Raise IndexError
       end
  else Raise IndexError.

(** ** Floats

    The float operations the code relies on, left abstract. *)

Class FloatOps (F : Type) : Type := {
  format_2f : F -> string;          (* "{:.2f}".format(x) *)
  str_float : F -> string;          (* "{}".format(x) *)
  float_of_int : Z -> option F;     (* float(n); None is OverflowError *)
  float_ltb : F -> F -> bool;       (* x < y *)
  int_float_ltb : Z -> F -> bool;   (* n < x *)
  float_int_ltb : F -> Z -> bool;   (* x < n *)
  float_mul100 : F -> F             (* x * 100 *)
}.

(* ===================================================================== *)
(** ** write_result.py *)
(* ===================================================================== *)

Module WriteResult.

(** The stream [file] is modelled by the text it holds; it is open for
    reading and writing, and every write lands at its end. *)
Definition stream : Type := string.

Definition nl : string := String (ascii_of_nat 10) "".

(** [print(s, file=file, end=e)] *)
Definition print_end (s e : string) : M stream unit :=
  modify (fun f => f ++ s ++ e).

(** [print(s, file=file)] *)
Definition print (s : string) : M stream unit := print_end s nl.

(** [s * n] *)
Fixpoint str_repeat (s : string) (n : nat) : string :=
  match n with
  | O => ""
  | S n' => s ++ str_repeat s n'
  end.

(** [s.center(width)], as CPython pads: when the padding is odd, the extra
    blank goes to the left exactly when the width is odd too. *)
Definition center (s : string) (width : nat) : string :=
  let n := String.length s in
  if (width <=? n)%nat then s
  else
    let marg := (width - n)%nat in
    let left := (marg / 2 + (if Nat.odd marg && Nat.odd width then 1 else 0))%nat in
    str_repeat " " left ++ s ++ str_repeat " " (marg - left).

(** [sep.join(l)] *)
Definition join (sep : string) (l : list string) : string := String.concat sep l.

(** *** Values of the WER summary dict *)

Inductive pyval (F : Type) : Type :=
| VInt (n : Z)
| VFloat (x : F).
Arguments VInt {F} n.
Arguments VFloat {F} x.

Section Formatting.
Context {F : Type} {fops : FloatOps F}.

(** ["{}".format(v)] *)
Definition fmt (v : pyval F) : string :=
  match v with
  | VInt n => pretty n
  | VFloat x => str_float x
  end.

(** ["{:.2f}".format(v)] *)
Definition fmt_2f (v : pyval F) : result string :=
  match v with
  | VInt n => match float_of_int n with
              | Some x => Ok (format_2f x)
              | None => Raise OverflowError
              end
  | VFloat x => Ok (format_2f x)
  end.

(** [v < w] *)
Definition py_lt (v w : pyval F) : bool :=
  match v, w with
  | VInt a, VInt b => a <? b
  | VInt a, VFloat y => int_float_ltb a y
  | VFloat x, VInt b => float_int_ltb x b
  | VFloat x, VFloat y => float_ltb x y
  end.

(** [d[k]] *)
Definition getitem (d : gmap string (pyval F)) (k : string) : result (pyval F) :=
  match d !! k with
  | Some v => Ok v
  | None => Raise (KeyError k)
  end.

(** The replacement field [{k}] of [str.format] called with the entries of
    [d] as keyword arguments. *)
Definition field (d : gmap string (pyval F)) (k : string) : result string :=
  rbind (getitem d k) (fun v => Ok (fmt v)).

(** The replacement field [{k:.2f}]. *)
Definition field_2f (d : gmap string (pyval F)) (k : string) : result string :=
  rbind (getitem d k) fmt_2f.

(** [print_wer_summary(wer_details, file)] *)
Definition print_wer_summary (wer_details : gmap string (pyval F)) : M stream unit :=
  line <~ lift (
    rbind (field_2f wer_details "WER") (fun wer =>
    rbind (field wer_details "num_edits") (fun num_edits =>
    rbind (field wer_details "num_scored_tokens") (fun num_scored_tokens =>
    rbind (field wer_details "insertions") (fun insertions =>
    rbind (field wer_details "deletions") (fun deletions =>
    rbind (field wer_details "substitutions") (fun substitutions =>
    Ok ("%WER " ++ wer ++ " [ " ++ num_edits ++ " / " ++ num_scored_tokens
        ++ ", " ++ insertions ++ " ins, " ++ deletions ++ " del, "
        ++ substitutions ++ " sub ]")))))))) ;;
  print_end line "" ;;;
  num_scored_sents <~ lift (getitem wer_details "num_scored_sents") ;;
  num_ref_sents <~ lift (getitem wer_details "num_ref_sents") ;;
  print (if py_lt num_scored_sents num_ref_sents then " [PARTIAL]" else "") ;;;
  line <~ lift (
    rbind (field_2f wer_details "SER") (fun ser =>
    rbind (field wer_details "num_erraneous_sents") (fun num_erraneous_sents =>
    rbind (field wer_details "num_scored_sents") (fun num_scored_sents =>
    Ok ("%SER " ++ ser ++ " [ " ++ num_erraneous_sents ++ " / "
        ++ num_scored_sents ++ " ]"))))) ;;
  print line ;;;
  line <~ lift (
    rbind (field wer_details "num_scored_sents") (fun num_scored_sents =>
    rbind (field wer_details "num_absent_sents") (fun num_absent_sents =>
    Ok ("Scored " ++ num_scored_sents ++ " sentences, " ++ num_absent_sents
        ++ " not present in hyp.")))) ;;
  print line.

End Formatting.

(** *** Details of one utterance

    An entry of [details_by_utterance], in the format of
    [speechbrain.utils.edit_distance.wer_details_by_utterance] with
    alignments included: the fields are the keys of the dict. An alignment
    entry is [(op, i, j)], where [i] indexes the reference tokens, [j] the
    hypothesis tokens, and [None] aligns to nothing. *)

Definition align_entry : Type := (string * option Z * option Z)%type.

Record utt_details (F : Type) : Type := {
  key : string;
  scored : bool;
  WER : F;
  num_edits : Z;
  num_ref_tokens : Z;
  insertions : Z;
  deletions : Z;
  substitutions : Z;
  alignment : list align_entry;
  ref_tokens : list string;
  hyp_tokens : list string
}.
Arguments key {F} _.
Arguments scored {F} _.
Arguments WER {F} _.
Arguments num_edits {F} _.
Arguments num_ref_tokens {F} _.
Arguments insertions {F} _.
Arguments deletions {F} _.
Arguments substitutions {F} _.
Arguments alignment {F} _.
Arguments ref_tokens {F} _.
Arguments hyp_tokens {F} _.

(** The body of the loop of [_print_alignment]: the three padded strings of
    one alignment entry, in the order reference, hypothesis, operation. *)
Definition pad_entry (a b : list string) (empty_symbol : string)
           (e : align_entry) : result (string * string * string) :=
  let '(op, i, j) := e in
  let op_string := op in
  rbind (match i with Some i => py_index a i | None => Ok empty_symbol end)
        (fun a_string =>
  rbind (match j with Some j => py_index b j | None => Ok empty_symbol end)
        (fun b_string =>
  let pad_length :=
    Nat.max (String.length op_string)
            (Nat.max (String.length a_string) (String.length b_string)) in
  Ok (center a_string pad_length,
      center b_string pad_length,
      center op_string pad_length))).

(** The loop of [_print_alignment], appending to the three lists. *)
Fixpoint pad_loop (alignment : list align_entry) (a b : list string)
         (empty_symbol : string) (a_padded b_padded ops_padded : list string)
  : result (list string * list string * list string) :=
  match alignment with
  | [] => Ok (a_padded, b_padded, ops_padded)
  | e :: rest =>
      rbind (pad_entry a b empty_symbol e) (fun '(a_s, b_s, op_s) =>
      pad_loop rest a b empty_symbol
               (a_padded ++ [a_s]) (b_padded ++ [b_s]) (ops_padded ++ [op_s]))
  end.

(** [_print_alignment(alignment, a, b, empty_symbol, separator, file)] *)
Definition _print_alignment (alignment : list align_entry) (a b : list string)
           (empty_symbol separator : string) : M stream unit :=
  rows <~ lift (pad_loop alignment a b empty_symbol [] [] []) ;;
  let '(a_padded, b_padded, ops_padded) := rows in
  print (join separator a_padded) ;;;
  print (join separator ops_padded) ;;;
  print (join separator b_padded).

(** *** The header of the alignments

    [edit_distance.EDIT_SYMBOLS] is a table of the framework: its four
    entries are a parameter. *)

Record edit_symbols : Type := {
  sym_eq : string;
  sym_ins : string;
  sym_del : string;
  sym_sub : string
}.

Definition example_ref : list string :=
  ["reference"; "on"; "the"; "first"; "line"].

Definition example_hyp : list string :=
  ["and"; "hypothesis"; "on"; "the"; "third"].

Definition example_alignment (symbols : edit_symbols) : list align_entry :=
  [(sym_ins symbols, None, Some 0);
   (sym_sub symbols, Some 0, Some 1);
   (sym_eq symbols, Some 1, Some 2);
   (sym_eq symbols, Some 2, Some 3);
   (sym_sub symbols, Some 3, Some 4);
   (sym_del symbols, Some 4, None)].

(** [_print_alignments_global_header(empty_symbol, separator, file)] *)
Definition _print_alignments_global_header (symbols : edit_symbols)
           (empty_symbol separator : string) : M stream unit :=
  print (str_repeat "=" 80) ;;;
  print "ALIGNMENTS" ;;;
  print "" ;;;
  print "Format:" ;;;
  print "<utterance-id>, WER DETAILS" ;;;
  _print_alignment (example_alignment symbols) example_ref example_hyp
                   empty_symbol separator.

(** *** The alignment block as the specification words it

    A column of the block belongs to one alignment entry. Its three entries
    are the reference token, the edit operation and the hypothesis token,
    where a token whose index is [None] is rendered as [empty_symbol]; the
    column is as wide as the widest of the three, and each entry is centered
    in that width. *)

Definition cell_text (tokens : list string) (empty_symbol : string)
           (i : option Z) : string :=
  match i with
  | None => empty_symbol
  | Some i => match py_index tokens i with Ok s => s | Raise _ => "" end
  end.

Definition column_width (a b : list string) (empty_symbol : string)
           (e : align_entry) : nat :=
  let '(op, i, j) := e in
  Nat.max (String.length op)
          (Nat.max (String.length (cell_text a empty_symbol i))
                   (String.length (cell_text b empty_symbol j))).

Definition ref_cell (a b : list string) (empty_symbol : string) (e : align_entry) : string :=
  center (cell_text a empty_symbol (snd (fst e))) (column_width a b empty_symbol e).

Definition op_cell (a b : list string) (empty_symbol : string) (e : align_entry) : string :=
  center (fst (fst e)) (column_width a b empty_symbol e).

Definition hyp_cell (a b : list string) (empty_symbol : string) (e : align_entry) : string :=
  center (cell_text b empty_symbol (snd e)) (column_width a b empty_symbol e).

(** The three lines: reference, operations, hypothesis, one field per
    alignment entry in each. *)
Definition spec_alignment_lines (alignment : list align_entry) (a b : list string)
           (empty_symbol separator : string) : string :=
  join separator (List.map (ref_cell a b empty_symbol) alignment) ++ nl
  ++ join separator (List.map (op_cell a b empty_symbol) alignment) ++ nl
  ++ join separator (List.map (hyp_cell a b empty_symbol) alignment) ++ nl.

(** An optional index that selects a token of the list. *)
Definition in_range (tokens : list string) (i : option Z) : bool :=
  match i with
  | None => true
  | Some i => is_ok (py_index tokens i)
  end.

(** [index] is a multiple of [total_iters]: see [is_multiple_divide]. *)
Definition is_multiple (index total_iters : Z) : bool :=
  (index =? 0) || negb (total_iters =? 0) && (index mod total_iters =? 0).

Section Printing.
Context {F : Type} {fops : FloatOps F}.

(** [_print_alignment_header(wer_details, file)] *)
Definition _print_alignment_header (wer_details : utt_details F) : M stream unit :=
  print (str_repeat "=" 80) ;;;
  print (key wer_details ++ ", %WER " ++ format_2f (WER wer_details)
         ++ " [ " ++ pretty (num_edits wer_details)
         ++ " / " ++ pretty (num_ref_tokens wer_details)
         ++ ", " ++ pretty (insertions wer_details) ++ " ins, "
         ++ pretty (deletions wer_details) ++ " del, "
         ++ pretty (substitutions wer_details) ++ " sub ]").

(** What [print_alignments] does for one utterance that passed both
    tests; [sample_separator] is [None] or a string, printed when it is
    true, that is, not empty. *)
Definition print_block (dets : utt_details F) (empty_symbol separator : string)
           (print_header : bool) (sample_separator : option string)
  : M stream unit :=
  (if print_header then _print_alignment_header dets else ret tt) ;;;
  _print_alignment (alignment dets) (ref_tokens dets) (hyp_tokens dets)
                   empty_symbol separator ;;;
  match sample_separator with
  | Some s => if String.eqb s "" then ret tt else print s
  | None => ret tt
  end.

(** [print_alignments]: the loop over [enumerate(details_by_utterance)],
    [index] being the index of the head of the list. *)
Fixpoint print_alignments_from (index : Z) (details_by_utterance : list (utt_details F))
         (empty_symbol separator : string) (print_header : bool)
         (sample_separator : option string) (total_iters : Z)
  : M stream unit :=
  match details_by_utterance with
  | [] => ret tt
  | dets :: rest =>
      (if total_iters =? 0 then raise ZeroDivisionError
       else if index mod total_iters =? 0
            then if scored dets
                 then print_block dets empty_symbol separator
                                  print_header sample_separator
                 else ret tt
            else ret tt) ;;;
      print_alignments_from (index + 1) rest empty_symbol separator
                            print_header sample_separator total_iters
  end.

Definition print_alignments (details_by_utterance : list (utt_details F))
           (empty_symbol separator : string) (print_header : bool)
           (sample_separator : option string) (total_iters : Z)
  : M stream unit :=
  print_alignments_from 0 details_by_utterance empty_symbol separator
                        print_header sample_separator total_iters.

(** *** print_log_csv

    The local dict [results] only ever holds the keys ['ground_truth'],
    ['target'] (strings) and ['prediction'] (a list of strings): one
    optional field per key, [None] when the key is absent. *)

Record results_dict : Type := {
  ground_truth : option string;
  target : option string;
  prediction : option (list string)
}.

Definition results_empty : results_dict :=
  {| ground_truth := None; target := None; prediction := None |}.

(** [results['prediction'].append(x)] *)
Definition prediction_append (results : results_dict) (x : string)
  : result results_dict :=
  match prediction results with
  | Some l => Ok {| ground_truth := ground_truth results;
                    target := target results;
                    prediction := Some (l ++ [x])%list |}
  | None => Raise (KeyError "prediction")
  end.

(** The body of the first loop for an entry whose key is [id]. *)
Definition collect_match (det : utt_details F) (results : results_dict)
           (first : bool) : result (results_dict * bool) :=
  if first then
    let results :=
      match ground_truth results with
      | None => {| ground_truth := Some (join " " (ref_tokens det));
                   target := target results;
                   prediction := prediction results |}
      | Some _ => results
      end in
    rbind (match prediction results with
           | None =>
               prediction_append
                 {| ground_truth := ground_truth results;
                    target := target results;
                    prediction := Some [] |}
                 (join " " (hyp_tokens det))
           | Some _ => Ok results
           end) (fun results =>
    Ok (results, false))
  else
    let results :=
      match target results with
      | None => {| ground_truth := ground_truth results;
                   target := Some (join " " (ref_tokens det));
                   prediction := prediction results |}
      | Some _ => results
      end in
    let results :=
      match prediction results with
      | None => {| ground_truth := ground_truth results;
                   target := target results;
                   prediction := Some [] |}
      | Some _ => results
      end in
    rbind (prediction_append results (join " " (hyp_tokens det))) (fun results =>
    Ok (results, first)).

(** The first loop of [print_log_csv]. *)
Fixpoint collect (details_by_utterance : list (utt_details F)) (id : string)
         (results : results_dict) (first : bool)
  : result (results_dict * bool) :=
  match details_by_utterance with
  | [] => Ok (results, first)
  | det :: rest =>
      if String.eqb (key det) id
      then rbind (collect_match det results first) (fun '(results, first) =>
           collect rest id results first)
      else collect rest id results first
  end.

(** [jiwer.wer], an external function. *)
Context (wer : string -> string -> result F).

Definition log_header : string :=
  join "," ["id"; "iter"; "ground_truth"; "target"; "prediction"; "gt_wer"; "tg_wer"].

(** One row: the arguments of [format] are evaluated from left to
    right. *)
Definition log_row (results : results_dict) (id : string) (it : Z) (pre : string)
  : result string :=
  rbind (match ground_truth results with
         | Some s => Ok s | None => Raise (KeyError "ground_truth") end)
        (fun gt =>
  rbind (match target results with
         | Some s => Ok s | None => Raise (KeyError "target") end)
        (fun tg =>
  rbind (wer gt pre) (fun gt_wer =>
  rbind (wer tg pre) (fun tg_wer =>
  Ok (id ++ "," ++ pretty it ++ "," ++ gt ++ "," ++ tg ++ "," ++ pre ++ ","
      ++ str_float (float_mul100 gt_wer) ++ ","
      ++ str_float (float_mul100 tg_wer)))))).

(** The second loop, over [enumerate(results['prediction'])]. *)
Fixpoint write_rows (results : results_dict) (id : string) (it : Z)
         (preds : list string) : M stream unit :=
  match preds with
  | [] => ret tt
  | pre :: rest =>
      row <~ lift (log_row results id it pre) ;;
      print row ;;;
      write_rows results id (it + 1) rest
  end.

(** [file.seek(0); len(file.read()) == 0; file.seek(0, 2)] *)
Definition is_file_empty : M stream bool :=
  f <~ get ;; ret (Nat.eqb (String.length f) 0).

(** [print_log_csv(details_by_utterance, id, file)] *)
Definition print_log_csv (details_by_utterance : list (utt_details F)) (id : string)
  : M stream unit :=
  collected <~ lift (collect details_by_utterance id results_empty true) ;;
  let results := fst collected in
  empty <~ is_file_empty ;;
  (if empty then print log_header else ret tt) ;;;
  preds <~ lift (match prediction results with
                 | Some l => Ok l
                 | None => Raise (KeyError "prediction")
                 end) ;;
  write_rows results id 0 preds.

(** *** print_snr_csv

    An entry of [metrics_detail] is [(score, (id, iter_idx))]. *)

Definition snr_entry : Type := (F * (string * Z))%type.

Definition snr_header : string := join "," ["id"; "iter"; "snr"].

Definition snr_row (e : snr_entry) : string :=
  let '(score, (id, iter_idx)) := e in
  id ++ "," ++ pretty iter_idx ++ "," ++ str_float score.

Fixpoint snr_rows (metrics_detail : list snr_entry) : M stream unit :=
  match metrics_detail with
  | [] => ret tt
  | e :: rest => print (snr_row e) ;;; snr_rows rest
  end.

(** [print_snr_csv(metrics_detail, file)] *)
Definition print_snr_csv (metrics_detail : list snr_entry) : M stream unit :=
  empty <~ is_file_empty ;;
  (if empty then print snr_header else ret tt) ;;;
  snr_rows metrics_detail.

(** *** The outputs as the specification words them *)

(** The alignment of [dets] indexes its own token lists. *)
Definition well_aligned (dets : utt_details F) : bool :=
  forallb (fun e : align_entry =>
             in_range (ref_tokens dets) (snd (fst e))
             && in_range (hyp_tokens dets) (snd e))
          (alignment dets).

(** The utterances that get a block: those whose index is a multiple of
    [total_iters] and whose [scored] flag is true; [index] is the index of
    the head of the list. *)
Fixpoint spec_selected_from (index : Z) (total_iters : Z)
         (details_by_utterance : list (utt_details F)) : list (utt_details F) :=
  match details_by_utterance with
  | [] => []
  | dets :: rest =>
      (if is_multiple index total_iters && scored dets then [dets] else [])
      ++ spec_selected_from (index + 1) total_iters rest
  end.

Definition spec_selected (total_iters : Z)
           (details_by_utterance : list (utt_details F)) : list (utt_details F) :=
  spec_selected_from 0 total_iters details_by_utterance.

Definition spec_header (dets : utt_details F) : string :=
  str_repeat "=" 80 ++ nl
  ++ (key dets ++ ", %WER " ++ format_2f (WER dets)
      ++ " [ " ++ pretty (num_edits dets)
      ++ " / " ++ pretty (num_ref_tokens dets)
      ++ ", " ++ pretty (insertions dets) ++ " ins, "
      ++ pretty (deletions dets) ++ " del, "
      ++ pretty (substitutions dets) ++ " sub ]") ++ nl.

(** The block of one utterance: the header when asked for, the three lines,
    and the sample separator when there is one. *)
Definition spec_block (empty_symbol separator : string) (print_header : bool)
           (sample_separator : option string) (dets : utt_details F) : string :=
  (if print_header then spec_header dets else "")
  ++ spec_alignment_lines (alignment dets) (ref_tokens dets) (hyp_tokens dets)
                          empty_symbol separator
  ++ match sample_separator with
     | Some s => if String.eqb s "" then "" else s ++ nl
     | None => ""
     end.

(** The entries of [details_by_utterance] whose key is [id]. *)
Definition matching (details_by_utterance : list (utt_details F)) (id : string)
  : list (utt_details F) :=
  List.filter (fun det => String.eqb (key det) id) details_by_utterance.

(** The header that a CSV writer puts into an empty file. *)
Definition header_if_empty (file : stream) (header : string) : string :=
  if Nat.eqb (String.length file) 0 then header ++ nl else "".

(** The rows of [print_log_csv] when [jiwer.wer] returns [rate r h] on
    [r] and [h]: one per prediction, numbered from [it]. *)
Fixpoint spec_log_rows (rate : string -> string -> F) (id gt tg : string)
         (it : Z) (preds : list string) : string :=
  match preds with
  | [] => ""
  | pre :: rest =>
      (id ++ "," ++ pretty it ++ "," ++ gt ++ "," ++ tg ++ "," ++ pre ++ ","
       ++ str_float (float_mul100 (rate gt pre)) ++ ","
       ++ str_float (float_mul100 (rate tg pre))) ++ nl
      ++ spec_log_rows rate id gt tg (it + 1) rest
  end.

(** The rows of [print_snr_csv]: one per entry, in the order of the
    input. *)
Fixpoint spec_snr_rows (metrics_detail : list snr_entry) : string :=
  match metrics_detail with
  | [] => ""
  | e :: rest => snr_row e ++ nl ++ spec_snr_rows rest
  end.

End Printing.

End WriteResult.

(* ===================================================================== *)
(** ** brain.py: stages *)
(* ===================================================================== *)

(** [sb.Stage.TRAIN], [sb.Stage.VALID], [sb.Stage.TEST] and
    [rs.Stage.ATTACK]. *)
Inductive Stage : Type := TRAIN | VALID | TEST | ATTACK.

Definition Stage_eqb (s t : Stage) : bool :=
  match s, t with
  | TRAIN, TRAIN | VALID, VALID | TEST, TEST | ATTACK, ATTACK => true
  | _, _ => false
  end.

(* ===================================================================== *)
(** ** brain.py: ASRBrain *)
(* ===================================================================== *)

(** [ASRBrain.get_tokens(predictions)]: [predictions[-1]], on the outputs
    of a forward pass taken as a sequence. *)
Definition ASRBrain_get_tokens {A} (predictions : list A) : result A :=
  py_index predictions (-1).

(* ===================================================================== *)
(** ** brain.py: EnsembleASRBrain *)
(* ===================================================================== *)

Module Ensemble.

(** The tensor operations used on losses. *)
Class TorchOps (Loss : Type) : Type := {
  torch_stack : list Loss -> result Loss;   (* torch.stack(losses, dim=0) *)
  torch_mean : Loss -> result Loss          (* torch.mean(loss, dim=0) *)
}.

Section Ensemble.
Context {Batch Pred Loss Tokens : Type} {tops : TorchOps Loss}.

(** A wrapped brain, through the methods the ensemble calls. *)
Record asr_brain : Type := {
  brain_compute_forward : Batch -> Stage -> result Pred;
  brain_compute_objectives : Pred -> Batch -> Stage -> result Loss;
  brain_get_tokens : Pred -> result Tokens
}.

(** The argument [predictions] is a [PredictionEnsemble] or the
    prediction of a single model. *)
Inductive predictions_arg : Type :=
| PredictionEnsemble (predictions : list Pred)
| Prediction (p : Pred).

(** [len(p)] of a single prediction is left to the framework. *)
Context (pred_len : Pred -> result Z).

(** [len(predictions)]: [PredictionEnsemble.__len__] for an ensemble. *)
Definition len (predictions : predictions_arg) : result Z :=
  match predictions with
  | PredictionEnsemble ps => Ok (Z.of_nat (List.length ps))
  | Prediction p => pred_len p
  end.

(** [predictions[i]] on a [PredictionEnsemble]: the class defines
    [__init__], [__iter__] and [__len__], but no [__getitem__], so
    subscripting raises [TypeError]. *)
Definition PredictionEnsemble_getitem (ps : list Pred) (i : Z) : result Pred :=
  Raise TypeError.

Record EnsembleASRBrain : Type := {
  nmodels : Z;
  asr_brains : list asr_brain;
  ref_tokens : Z
}.

(** [EnsembleASRBrain.__init__(asr_brains, ref_tokens)] *)
Definition init (brains : list asr_brain) (ref : Z) : EnsembleASRBrain :=
  {| nmodels := Z.of_nat (List.length brains);
     asr_brains := brains;
     ref_tokens := ref |}.

(** The loop of [compute_forward], appending to [predictions]. *)
Fixpoint forward_all (brains : list asr_brain) (batch : Batch) (stage : Stage)
         (predictions : list Pred) : result (list Pred) :=
  match brains with
  | [] => Ok predictions
  | ab :: rest =>
      rbind (brain_compute_forward ab batch stage) (fun pred =>
      forward_all rest batch stage (predictions ++ [pred]))
  end.

(** [EnsembleASRBrain.compute_forward(batch, stage, model_idx)] *)
Definition compute_forward (self : EnsembleASRBrain) (batch : Batch)
           (stage : Stage) (model_idx : option Z) : result predictions_arg :=
  match model_idx with
  | Some m =>
      rbind (py_index (asr_brains self) m) (fun ab =>
      rbind (brain_compute_forward ab batch stage) (fun pred =>
      Ok (Prediction pred)))
  | None =>
      rbind (forward_all (asr_brains self) batch stage []) (fun predictions =>
      Ok (PredictionEnsemble predictions))
  end.

(** The loop [for i in range(self.nmodels)] of [compute_objectives], over
    the indices [indices]; [loss] is the local variable of that name,
    [None] while it is unbound. *)
Fixpoint objectives_loop (self : EnsembleASRBrain) (predictions : predictions_arg)
         (batch : Batch) (stage : Stage) (model_idx : option Z)
         (indices : list Z) (losses : list Loss) (loss : option Loss)
  : result (list Loss * option Loss) :=
  match indices with
  | [] => Ok (losses, loss)
  | i :: rest =>
      rbind (match model_idx with
             | None => py_index (asr_brains self) i
             | Some m => py_index (asr_brains self) m
             end) (fun ab =>
      rbind (match predictions with
             | PredictionEnsemble ps => PredictionEnsemble_getitem ps i
             | Prediction p => Ok p
             end) (fun pred =>
      rbind (brain_compute_objectives ab pred batch stage) (fun l =>
      objectives_loop self predictions batch stage model_idx rest
                      (losses ++ [l]) (Some l))))
  end.

(** [range(n)] *)
Definition range (n : Z) : list Z :=
  List.map Z.of_nat (List.seq 0 (Z.to_nat n)).

(** [EnsembleASRBrain.compute_objectives(predictions, batch, stage,
    average, model_idx)] *)
Definition compute_objectives (self : EnsembleASRBrain)
           (predictions : predictions_arg) (batch : Batch) (stage : Stage)
           (average : bool) (model_idx : option Z) : result Loss :=
  match predictions, model_idx with
  | Prediction p, Some m =>
      rbind (py_index (asr_brains self) m) (fun ab =>
      brain_compute_objectives ab p batch stage)
  | _, _ =>
      rbind (len predictions) (fun n =>
      if negb (n =? nmodels self) then Raise AssertionError else
      rbind (objectives_loop self predictions batch stage model_idx
                             (range (nmodels self)) [] None)
            (fun '(losses, loss) =>
      rbind (torch_stack losses) (fun losses =>
      if average
      then match loss with
           | Some l => torch_mean l
           | None => Raise (UnboundLocalError "loss")
           end
      else Ok losses)))
  end.

(** [iter(predictions)] on a [PredictionEnsemble]: [__iter__] takes an
    argument [i] that [iter] does not pass, so iterating raises
    [TypeError]. *)
Definition PredictionEnsemble_iter (ps : list Pred) : result (list Pred) :=
  Raise TypeError.

(** The list comprehension of [get_tokens] over the items of
    [enumerate(predictions)], numbered from [i]. *)
Fixpoint tokens_of_all (self : EnsembleASRBrain) (i : Z) (items : list Pred)
  : result (list Tokens) :=
  match items with
  | [] => Ok []
  | pred :: rest =>
      rbind (py_index (asr_brains self) i) (fun ab =>
      rbind (brain_get_tokens ab pred) (fun t =>
      rbind (tokens_of_all self (i + 1) rest) (fun ts =>
      Ok (t :: ts))))
  end.

(** What [get_tokens] returns: the tokens of one model, or the list of the
    tokens of all models. *)
Inductive tokens_value : Type :=
| TokensOf (t : Tokens)
| TokensOfAll (ts : list Tokens).

(** [EnsembleASRBrain.get_tokens(predictions, all, model_idx)] *)
Definition get_tokens (self : EnsembleASRBrain) (predictions : predictions_arg)
           (all : bool) (model_idx : option Z) : result tokens_value :=
  match predictions with
  | PredictionEnsemble ps =>
      rbind (len predictions) (fun n =>
      if negb (n =? nmodels self) then Raise AssertionError else
      if all
      then rbind (PredictionEnsemble_iter ps) (fun items =>
           rbind (tokens_of_all self 0 items) (fun ts =>
           Ok (TokensOfAll ts)))
      else match model_idx with
           | Some m =>
               rbind (py_index (asr_brains self) m) (fun ab =>
               rbind (PredictionEnsemble_getitem ps m) (fun pred =>
               rbind (brain_get_tokens ab pred) (fun t =>
               Ok (TokensOf t))))
           | None =>
               rbind (py_index (asr_brains self) (ref_tokens self)) (fun ab =>
               rbind (PredictionEnsemble_getitem ps (ref_tokens self)) (fun pred =>
               rbind (brain_get_tokens ab pred) (fun t =>
               Ok (TokensOf t))))
           end)
  | Prediction p =>
      rbind (py_index (asr_brains self) (ref_tokens self)) (fun ab =>
      rbind (brain_get_tokens ab p) (fun t =>
      Ok (TokensOf t)))
  end.

(** What the specification asks of [average=True] on an ensemble of
    predictions: the mean over the models of the losses each wrapped brain
    computes on its own prediction. *)
Fixpoint individual_losses (brains : list asr_brain) (ps : list Pred)
         (batch : Batch) (stage : Stage) : result (list Loss) :=
  match brains, ps with
  | ab :: brains', p :: ps' =>
      rbind (brain_compute_objectives ab p batch stage) (fun l =>
      rbind (individual_losses brains' ps' batch stage) (fun ls =>
      Ok (l :: ls)))
  | _, _ => Ok []
  end.

Definition spec_mean_of_losses (self : EnsembleASRBrain) (ps : list Pred)
           (batch : Batch) (stage : Stage) : result Loss :=
  rbind (individual_losses (asr_brains self) ps batch stage) (fun ls =>
  rbind (torch_stack ls) torch_mean).

End Ensemble.

End Ensemble.

(* ===================================================================== *)
(** ** brain.py: AdvASRBrain.__setattr__ *)
(* ===================================================================== *)

(** Attribute assignment acts on objects that are shared by reference (the
    attacker holds the brain it attacks), so objects live in a heap and
    values refer to them by address. *)

Module Attr.

Abbreviation addr := positive (only parsing).

Inductive value : Type :=
| VNone
| VInt (n : Z)
| VStr (s : string)
| VRef (a : addr).

(** An object: whether it is an instance of [AdvASRBrain] (or of a subclass
    of it), and its instance attributes. *)
Record object : Type := {
  is_AdvASRBrain : bool;
  attrs : gmap string value
}.

Abbreviation heap := (gmap positive object) (only parsing).

(** [getattr(v, name)], on instance attributes. A reference outside the heap
    does not occur in a Python state; it is reported as [RuntimeError]. *)
Definition getattr (v : value) (name : string) : M heap value :=
  fun h =>
    match v with
    | VRef a =>
        match h !! a with
        | Some o =>
            match attrs o !! name with
            | Some x => (h, Ok x)
            | None => (h, Raise (AttributeError name))
            end
        | None => (h, Raise RuntimeError)
        end
    | _ => (h, Raise (AttributeError name))
    end.

(** [hasattr(v, name)]: false when the lookup raises [AttributeError]. *)
Definition hasattr (v : value) (name : string) : M heap bool :=
  fun h =>
    match getattr v name h with
    | (h', Ok _) => (h', Ok true)
    | (h', Raise (AttributeError _)) => (h', Ok false)
    | (h', Raise e) => (h', Raise e)
    end.

(** [super(AdvASRBrain, obj).__setattr__(name, value)]: [super] raises
    [TypeError] unless [obj] is an instance of [AdvASRBrain]; no class above
    [AdvASRBrain] overrides [__setattr__], so the attribute is stored in the
    object. *)
Definition super_setattr (obj : value) (name : string) (v : value) : M heap unit :=
  fun h =>
    match obj with
    | VRef a =>
        match h !! a with
        | Some o =>
            if is_AdvASRBrain o
            then (<[a := {| is_AdvASRBrain := is_AdvASRBrain o;
                            attrs := <[name := v]> (attrs o) |}]> h, Ok tt)
            else (h, Raise TypeError)
        | None => (h, Raise RuntimeError)
        end
    | _ => (h, Raise TypeError)
    end.

(** [AdvASRBrain.__setattr__(self, name, value, attacker_brain)] *)
Definition __setattr__ (self : value) (name : string) (v : value)
           (attacker_brain : bool) : M heap unit :=
  has_attacker <~ hasattr self "attacker" ;;
  (if has_attacker && negb (String.eqb name "attacker") && attacker_brain
   then attacker <~ getattr self "attacker" ;;
        asr_brain <~ getattr attacker "asr_brain" ;;
        super_setattr asr_brain name v
   else ret tt) ;;;
  super_setattr self name v.

(** The statement [self.name = v]: [attacker_brain] has its default. *)
Definition assign (self : value) (name : string) (v : value) : M heap unit :=
  __setattr__ self name v true.

(** The attribute [name] of the object at [a], if both exist. *)
Definition attr_of (h : heap) (a : addr) (name : string) : option value :=
  match h !! a with
  | Some o => attrs o !! name
  | None => None
  end.

(** A sequence of assignments [self.name = v], in order. *)
Fixpoint assign_all (self : value) (assignments : list (string * value))
  : M heap unit :=
  match assignments with
  | [] => ret tt
  | (name, v) :: rest => assign self name v ;;; assign_all self rest
  end.

(** The objects as [init_attacker] wires them: the brain at [self] has the
    attacker at [attacker] as its attribute of that name, whose attribute
    [asr_brain] is the brain at [inner]; the three are different objects. *)
Definition wired (h : heap) (self attacker inner : addr) : Prop :=
  self <> attacker /\ inner <> attacker /\ self <> inner
  /\ exists o o_attacker o_inner : object,
       h !! self = Some o /\ is_AdvASRBrain o = true
       /\ attrs o !! "attacker" = Some (VRef attacker)
       /\ h !! attacker = Some o_attacker
       /\ attrs o_attacker !! "asr_brain" = Some (VRef inner)
       /\ h !! inner = Some o_inner /\ is_AdvASRBrain o_inner = true.

End Attr.

(* ===================================================================== *)
(** ** brain.py: AdvASRBrain *)
(* ===================================================================== *)

Module Brain.

(** The data of the framework: its own state ([World]: parameters,
    gradients, optimizer and scaler state, metrics, the memory of the
    tensors and the objects an attacker holds), waveforms, the second
    component of [batch.sig], the rest of a batch, predictions, losses,
    running averages (Python floats) and attacker objects. A waveform is a
    tensor object: [Wav] is the object, so that two names of one tensor are
    equal, and what the tensor holds is part of the world. *)
Class Types : Type := {
  World : Type;
  Wav : Type;
  Lens : Type;
  Other : Type;
  Pred : Type;
  Loss : Type;
  Avg : Type;
  Attacker : Type
}.

Section Brain.
Context {T : Types}.

(** A batch: the attribute [sig] is the pair of the waveforms and their
    relative lengths. A call that takes the batch can assign to its
    attributes: it returns the batch as it leaves it. A call can also change
    a tensor in place: the tensor stays the same object, and the change is
    one of the world (see [wav_data] below). *)
Record Batch : Type := {
  sig : Wav * Lens;
  other : Other
}.

(** [batch.sig = s] *)
Definition set_sig (b : Batch) (s : Wav * Lens) : Batch :=
  {| sig := s; other := other b |}.

(** The calls into the framework and into the attacker. A call that takes
    the batch may mutate it: it returns the batch as it leaves it. *)
Inductive call : Type -> Type :=
| Perturb (a : Attacker) (b : Batch) : call (Batch * Wav)
| ComputeForward (b : Batch) (stage : Stage) : call (Batch * Pred)
| ComputeObjectives (predictions : Pred) (b : Batch) (stage : Stage) (adv : bool)
  : call (Batch * Loss)
| EvaluateBatch (b : Batch) (stage : Stage) : call (Batch * Loss)
| UpdateAverage (step : Z) (loss : Loss) (avg : Avg) : call Avg
| ZeroGrad : call unit                      (* self.optimizer.zero_grad() *)
| AutocastEnter : call unit                 (* with torch.cuda.amp.autocast(): *)
| AutocastExit : call unit
| ScalerScale (loss : Loss) : call Loss     (* self.scaler.scale(loss) *)
| Backward (loss : Loss) : call unit        (* loss.backward() *)
| ScalerUnscale : call unit                 (* self.scaler.unscale_(self.optimizer) *)
| CheckGradients (loss : Loss) : call bool  (* self.check_gradients(loss) *)
| ScalerStep : call unit                    (* self.scaler.step(self.optimizer) *)
| ScalerUpdate : call unit                  (* self.scaler.update() *)
| OptimizerStep : call unit                 (* self.optimizer.step() *)
| OnEvaluateStart (max_key min_key : option string) : call unit
| OnStageStart (stage : Stage) (epoch : option Z) : call unit
| ModulesEval : call unit                   (* self.modules.eval() *)
| RunOnMainOnStageEnd (stage : Stage) (stage_loss : Avg) (epoch : option Z)
                      (stage_adv_loss : Avg) : call unit
| SetattrAttacked (a : Attacker) (name : string) (value : Z) : call unit.
                  (* super(AdvASRBrain, a.asr_brain).__setattr__(name, value) *)

(** The framework: how each call acts on the world and what it returns or
    raises, the float [0.0], and [loss.detach().cpu()]. *)
Class Framework : Type := {
  handle : forall X, call X -> World -> World * result X;
  zero : Avg;
  detach_cpu : Loss -> Loss
}.
Context {fw : Framework}.

(** What a tensor holds: [wav_data w t] is the data of the tensor [t] in the
    world [w], and [None] when the world has no such tensor.
    [wavs = batch.sig[0]] makes [wavs] a second name of the tensor of the
    batch, not a copy of its data: a call that changes the tensor in place
    changes what both names show. *)
Class Tensors : Type := {
  Data : Type;
  wav_data : World -> Wav -> option Data
}.
Context {ts : Tensors}.

(** Neither [attacker.perturb] nor [compute_forward] changes the tensor [t]
    in place: what it holds before the call, it holds after it. *)
Definition not_changed_in_place (t : Wav) : Prop :=
  (forall (a : Attacker) (b : Batch) (w : World) (d : Data),
      wav_data w t = Some d ->
      wav_data (fst (handle _ (Perturb a b) w)) t = Some d)
  /\ (forall (b : Batch) (stage : Stage) (w : World) (d : Data),
        wav_data w t = Some d ->
        wav_data (fst (handle _ (ComputeForward b stage) w)) t = Some d).

(** An entry of the log: a call and its outcome. *)
Inductive event : Type :=
| Ev {X : Type} (c : call X) (r : result X).

(** The attributes of the brain that the code under study reads or
    writes. [attacker] is [None] when the attribute does not exist,
    [Some None] when it is Python's [None]. *)
Record brain : Type := {
  step : Z;
  debug : bool;
  debug_batches : Z;
  auto_mix_prec : bool;
  attacker : option (option Attacker)
}.

(** [self.step = n] *)
Definition set_step (self : brain) (n : Z) : brain :=
  {| step := n; debug := debug self; debug_batches := debug_batches self;
     auto_mix_prec := auto_mix_prec self; attacker := attacker self |}.

Record state : Type := {
  self : brain;
  world : World;
  log : list event
}.

(** Make the call [c]: the framework acts on the world, the call and its
    outcome are logged. *)
Definition do {X} (c : call X) : M state X :=
  fun st =>
    let '(w, r) := handle X c (world st) in
    ({| self := self st; world := w; log := log st ++ [Ev c r] |}, r).

Definition get_self : M state brain := fun st => (st, Ok (self st)).

Definition put_self (b : brain) : M state unit :=
  fun st => ({| self := b; world := world st; log := log st |}, Ok tt).

(** [self.attacker] *)
Definition self_attacker : M state (option Attacker) :=
  me <~ get_self ;;
  match attacker me with
  | Some a => ret a
  | None => raise (AttributeError "attacker")
  end.

(** [AdvASRBrain.compute_forward_adversarial(batch, stage)]. The local
    variable [adv_wavs] is [None] while it is unbound. The local variable
    [wavs] is the tensor of the batch itself, there is no [clone]: the last
    assignment puts that object back, with whatever data it holds by then.
    The result is the batch as the call leaves it, and the value
    returned. *)
Definition compute_forward_adversarial (batch : Batch) (stage : Stage)
  : M state (Batch * Pred) :=
  (if Stage_eqb stage ATTACK then raise AssertionError else ret tt) ;;;
  let wavs := fst (sig batch) in
  the_attacker <~ self_attacker ;;
  perturbed <~
    match the_attacker with
    | Some a =>
        r <~ do (Perturb a batch) ;;
        let '(batch, adv_wavs) := r in
        ret (set_sig batch (adv_wavs, snd (sig batch)), Some adv_wavs)
    | None => ret (batch, None)
    end ;;
  let '(batch, adv_wavs) := perturbed in
  r <~ do (ComputeForward batch stage) ;;
  let '(batch, res) := r in
  let batch := set_sig batch (wavs, snd (sig batch)) in
  match adv_wavs with
  | Some _ => ret (batch, res)
  | None => raise (UnboundLocalError "adv_wavs")
  end.

(** [with torch.cuda.amp.autocast(): body]: the context is left when the
    body returns and when it raises. *)
Definition with_autocast {A} (body : M state A) : M state A :=
  do AutocastEnter ;;;
  fun st =>
    match body st with
    | (st', Ok v) => (do AutocastExit ;;; ret v) st'
    | (st', Raise e) => (do AutocastExit ;;; raise e) st'
    end.

(** [AdvASRBrain.fit_batch_adversarial(batch)] *)
Definition fit_batch_adversarial (batch : Batch) : M state (Batch * Loss) :=
  me <~ get_self ;;
  if auto_mix_prec me then
    do ZeroGrad ;;;
    body <~ with_autocast (
      r <~ compute_forward_adversarial batch TRAIN ;;
      let '(batch, outputs) := r in
      do (ComputeObjectives outputs batch TRAIN false)) ;;
    let '(batch, loss) := body in
    scaled <~ do (ScalerScale loss) ;;
    do (Backward scaled) ;;;
    do ScalerUnscale ;;;
    ok <~ do (CheckGradients loss) ;;
    (if ok then do ScalerStep else ret tt) ;;;
    do ScalerUpdate ;;;
    ret (batch, detach_cpu loss)
  else
    r <~ compute_forward_adversarial batch TRAIN ;;
    let '(batch, outputs) := r in
    r <~ do (ComputeObjectives outputs batch TRAIN false) ;;
    let '(batch, loss) := r in
    do (Backward loss) ;;;
    ok <~ do (CheckGradients loss) ;;
    (if ok then do OptimizerStep else ret tt) ;;;
    do ZeroGrad ;;;
    ret (batch, detach_cpu loss).

(** [AdvASRBrain.evaluate_batch_adversarial(batch, stage)] *)
Definition evaluate_batch_adversarial (batch : Batch) (stage : Stage)
  : M state (Batch * Loss) :=
  r <~ compute_forward_adversarial batch stage ;;
  let '(batch, out) := r in
  r <~ do (ComputeObjectives out batch stage true) ;;
  let '(batch, loss) := r in
  ret (batch, detach_cpu loss).

(** [self.step = n]. The assignment runs [AdvASRBrain.__setattr__] with the
    name ["step"] and [attacker_brain] at its default. When the brain has
    the attribute [attacker], the value is first stored, by the
    [__setattr__] of the base class, in [self.attacker.asr_brain]: reading
    [asr_brain] off [None] raises, and for an attacker object the store is
    a call on an object of the world, which raises when the attacker holds
    no [AdvASRBrain]. Then the value is stored in the brain itself. *)
Definition setattr_step (n : Z) : M state unit :=
  me <~ get_self ;;
  match attacker me with
  | Some (Some a) => do (SetattrAttacked a "step" n)
  | Some None => raise (AttributeError "asr_brain")
  | None => ret tt
  end ;;;
  put_self (set_step me n).

(** [self.update_average(loss, avg)], a method of the base class that
    reads [self.step]. *)
Definition update_average (loss : Loss) (avg : Avg) : M state Avg :=
  me <~ get_self ;;
  do (UpdateAverage (step me) loss avg).

(** The loop over the batches of the validation stage of [fit]
    ([stage = VALID]) and of [evaluate] ([stage = TEST]); the two loops
    differ in the stage and in the names of the two averages only. It
    returns the two averages, clean first. *)
Fixpoint eval_loop (stage : Stage) (batches : list Batch)
         (avg_loss avg_adv_loss : Avg) : M state (Avg * Avg) :=
  match batches with
  | [] => ret (avg_loss, avg_adv_loss)
  | batch :: rest =>
      me <~ get_self ;;
      setattr_step (step me + 1) ;;;
      r <~ do (EvaluateBatch batch stage) ;;
      let '(batch, loss) := r in
      avg_loss <~ update_average loss avg_loss ;;
      r <~ evaluate_batch_adversarial batch stage ;;
      let '(batch, adv_loss) := r in
      avg_adv_loss <~ update_average adv_loss avg_adv_loss ;;
      me <~ get_self ;;
      if debug me && (step me =? debug_batches me)
      then ret (avg_loss, avg_adv_loss)
      else eval_loop stage rest avg_loss avg_adv_loss
  end.

(** The validation stage of [AdvASRBrain.fit], for a [valid_set] that is
    not [None] and yields [valid_set]. *)
Definition fit_validation (epoch : Z) (valid_set : list Batch) : M state unit :=
  do (OnStageStart VALID (Some epoch)) ;;;
  do ModulesEval ;;;
  avgs <~ eval_loop VALID valid_set zero zero ;;
  let '(avg_valid_loss, avg_valid_adv_loss) := avgs in
  setattr_step 0 ;;;
  do (RunOnMainOnStageEnd VALID avg_valid_loss (Some epoch) avg_valid_adv_loss).

(** [AdvASRBrain.evaluate(test_set, max_key, min_key)], for a loader that
    yields [test_set]. *)
Definition evaluate (test_set : list Batch) (max_key min_key : option string)
  : M state Avg :=
  do (OnEvaluateStart max_key min_key) ;;;
  do (OnStageStart TEST None) ;;;
  do ModulesEval ;;;
  avgs <~ eval_loop TEST test_set zero zero ;;
  let '(avg_test_loss, avg_test_adv_loss) := avgs in
  do (RunOnMainOnStageEnd TEST avg_test_loss None avg_test_adv_loss) ;;;
  setattr_step 0 ;;;
  ret avg_test_loss.

(** *** The evaluation loops without their cutoff *)

(** Every batch is evaluated twice, once with [evaluate_batch] on the clean
    input and once with [evaluate_batch_adversarial], and each loss enters
    its own running average. There is no cutoff in this loop: it is run on
    the batches that come before the cutoff. *)
Fixpoint spec_eval_twice (stage : Stage) (batches : list Batch)
         (avg_loss avg_adv_loss : Avg) : M state (Avg * Avg) :=
  match batches with
  | [] => ret (avg_loss, avg_adv_loss)
  | batch :: rest =>
      me <~ get_self ;;
      setattr_step (step me + 1) ;;;
      r <~ do (EvaluateBatch batch stage) ;;
      let '(batch, loss) := r in
      avg_loss <~ update_average loss avg_loss ;;
      r <~ evaluate_batch_adversarial batch stage ;;
      let '(batch, adv_loss) := r in
      avg_adv_loss <~ update_average adv_loss avg_adv_loss ;;
      spec_eval_twice stage rest avg_loss avg_adv_loss
  end.

(** How many of [n] batches are evaluated: all of them, unless the brain is
    in debug mode and the step counter, which grows by one with each batch,
    reaches [debug_batches] on one of them. *)
Definition processed (me : brain) (n : nat) : nat :=
  if debug me && (step me <? debug_batches me)
     && (debug_batches me - step me <=? Z.of_nat n)
  then Z.to_nat (debug_batches me - step me)
  else n.

(** The validation stage and [evaluate], with the loop of the
    specification on the batches before the cutoff. *)
Definition spec_fit_validation (epoch : Z) (valid_set : list Batch) : M state unit :=
  do (OnStageStart VALID (Some epoch)) ;;;
  do ModulesEval ;;;
  me <~ get_self ;;
  avgs <~ spec_eval_twice VALID
            (List.firstn (processed me (List.length valid_set)) valid_set)
            zero zero ;;
  setattr_step 0 ;;;
  do (RunOnMainOnStageEnd VALID (fst avgs) (Some epoch) (snd avgs)).

Definition spec_evaluate (test_set : list Batch) (max_key min_key : option string)
  : M state Avg :=
  do (OnEvaluateStart max_key min_key) ;;;
  do (OnStageStart TEST None) ;;;
  do ModulesEval ;;;
  me <~ get_self ;;
  avgs <~ spec_eval_twice TEST
            (List.firstn (processed me (List.length test_set)) test_set)
            zero zero ;;
  do (RunOnMainOnStageEnd TEST (fst avgs) None (snd avgs)) ;;;
  setattr_step 0 ;;;
  ret (fst avgs).

(** *** What the specification says of the calls of a stage *)

(** The calls of a stage whose brain has the attacker [a], from the step
    counter [n] and the two running averages [avgs], the clean one first.
    Every batch is evaluated twice: by [evaluate_batch] on the batch as the
    loader gives it, and on the input the attacker makes of it, where the
    forward pass sees the waveform the attacker returned and the loss is
    computed with [adv=True]. The clean loss enters the clean average and
    the adversarial loss the adversarial one. [tr] lists the calls in their
    order and [avgs'] are the two averages after the last batch. *)
Inductive evaluated_twice (stage : Stage) (a : Attacker)
  : Z -> Avg * Avg -> list Batch -> list event -> Avg * Avg -> Prop :=
| twice_done (n : Z) (avgs : Avg * Avg) :
    evaluated_twice stage a n avgs [] [] avgs
| twice_batch (n : Z) (avg adv : Avg) (batch : Batch) (rest : list Batch)
              (b1 : Batch) (loss : Loss) (avg1 : Avg)
              (b2 : Batch) (adv_wavs : Wav) (b3 : Batch) (out : Pred)
              (b4 : Batch) (adv_loss : Loss) (adv1 : Avg)
              (tr : list event) (avgs' : Avg * Avg) :
    evaluated_twice stage a (n + 1) (avg1, adv1) rest tr avgs' ->
    evaluated_twice stage a n (avg, adv) (batch :: rest)
      ([Ev (SetattrAttacked a "step" (n + 1)) (Ok tt);
        Ev (EvaluateBatch batch stage) (Ok (b1, loss));
        Ev (UpdateAverage (n + 1) loss avg) (Ok avg1);
        Ev (Perturb a b1) (Ok (b2, adv_wavs));
        Ev (ComputeForward (set_sig b2 (adv_wavs, snd (sig b2))) stage)
           (Ok (b3, out));
        Ev (ComputeObjectives out (set_sig b3 (fst (sig b1), snd (sig b3)))
                              stage true)
           (Ok (b4, adv_loss));
        Ev (UpdateAverage (n + 1) (detach_cpu adv_loss) adv) (Ok adv1)] ++ tr)
      avgs'.

(** No call into the framework raises. *)
Definition never_raises : Prop :=
  forall (X : Type) (c : call X) (w : World), is_ok (snd (handle X c w)) = true.

(** Two states of the brain that differ in the step counter at most. *)
Definition same_settings (b1 b2 : brain) : Prop :=
  debug b1 = debug b2
  /\ debug_batches b1 = debug_batches b2
  /\ auto_mix_prec b1 = auto_mix_prec b2
  /\ attacker b1 = attacker b2.

(** The events that belong to an update of the parameters: a backward pass
    and a step of the optimizer, directly or through the scaler. *)
Definition is_update (e : event) : bool :=
  match e with
  | Ev (Backward _) _ | Ev OptimizerStep _ | Ev ScalerStep _ => true
  | _ => false
  end.

(** A computation that raises at [st] and logs no backward pass and no
    optimizer or scaler step. *)
Definition raises_without_update {A} (c : M state A) (st : state) : Prop :=
  exists (st' : state) (e : exn) (new : list event),
    c st = (st', Raise e)
    /\ self st' = self st
    /\ log st' = (log st ++ new)%list
    /\ List.filter is_update new = [].

End Brain.

End Brain.

(* ===================================================================== *)
(** ** Concrete instances

    Small instances of the abstract parts, on which the embedding runs. *)
(* ===================================================================== *)

Module Demo.

(** Floats with an integral value. *)
#[export] Instance int_floats : FloatOps Z := {|
  format_2f x := pretty x ++ ".00";
  str_float x := pretty x ++ ".0";
  float_of_int n := Some n;
  float_ltb := Z.ltb;
  int_float_ltb := Z.ltb;
  float_int_ltb := Z.ltb;
  float_mul100 x := x * 100
|}.

(** A word error rate that never raises. *)
Definition wer0 (reference hypothesis : string) : result Z :=
  Ok (if String.eqb reference hypothesis then 0 else 1).

Definition utt (k : string) (is_scored : bool) (ref hyp : list string)
           (al : list WriteResult.align_entry) : WriteResult.utt_details Z :=
  {| WriteResult.key := k; WriteResult.scored := is_scored;
     WriteResult.WER := 50; WriteResult.num_edits := 1;
     WriteResult.num_ref_tokens := 2; WriteResult.insertions := 0;
     WriteResult.deletions := 0; WriteResult.substitutions := 1;
     WriteResult.alignment := al;
     WriteResult.ref_tokens := ref; WriteResult.hyp_tokens := hyp |}.

Definition utt_a : WriteResult.utt_details Z :=
  utt "a" true ["the"; "cat"] ["the"; "hat"]
      [("=", Some 0, Some 0); ("S", Some 1, Some 1)].

Definition utt_b : WriteResult.utt_details Z :=
  utt "b" true ["go"] ["go"; "on"]
      [("=", Some 0, Some 0); ("I", None, Some 1)].

Definition summary : gmap string (WriteResult.pyval Z) :=
  list_to_map
    [("WER", WriteResult.VFloat 25); ("SER", WriteResult.VFloat 50);
     ("num_edits", WriteResult.VInt 1); ("num_scored_tokens", WriteResult.VInt 4);
     ("insertions", WriteResult.VInt 0); ("deletions", WriteResult.VInt 0);
     ("substitutions", WriteResult.VInt 1);
     ("num_scored_sents", WriteResult.VInt 2); ("num_ref_sents", WriteResult.VInt 3);
     ("num_erraneous_sents", WriteResult.VInt 1);
     ("num_absent_sents", WriteResult.VInt 1)].

(** Losses as terms: [torch.stack] and [torch.mean] build the term. *)
#[warnings="-register-all"] Inductive term : Type :=
| LossOf (model : nat)
| Stack (ts : list term)
| Mean (t : term).

#[export] Instance term_ops : Ensemble.TorchOps term := {|
  Ensemble.torch_stack ts :=
    match ts with [] => Raise RuntimeError | _ => Ok (Stack ts) end;
  Ensemble.torch_mean t := Ok (Mean t)
|}.

(** The brain number [n]: its loss on any prediction is [LossOf n]. *)
Definition model (n : nat) : @Ensemble.asr_brain unit nat term unit :=
  {| Ensemble.brain_compute_forward _ _ := Ok n;
     Ensemble.brain_compute_objectives _ _ _ := Ok (LossOf n);
     Ensemble.brain_get_tokens _ := Ok tt |}.

Definition two_models : @Ensemble.EnsembleASRBrain unit nat term unit :=
  Ensemble.init [model 0; model 1] 0.

(** A heap with a brain at 1, its attacker at 2 and the attacked brain
    at 3. *)
Definition heap3 : Attr.heap :=
  <[1%positive := {| Attr.is_AdvASRBrain := true;
                     Attr.attrs := {[ "attacker" := Attr.VRef 2%positive ]} |}]>
  (<[2%positive := {| Attr.is_AdvASRBrain := false;
                      Attr.attrs := {[ "asr_brain" := Attr.VRef 3%positive ]} |}]>
  (<[3%positive := {| Attr.is_AdvASRBrain := true; Attr.attrs := ∅ |}]> ∅)).

(** A framework on integers: the world counts the calls, a waveform is a
    number, the attacker [a] adds [a] to it, the forward pass returns the
    waveform as its prediction and bumps the lengths in the batch, and the
    loss is the prediction. *)
#[export] Instance int_types : Brain.Types := {|
  Brain.World := nat;
  Brain.Wav := Z;
  Brain.Lens := Z;
  Brain.Other := unit;
  Brain.Pred := Z;
  Brain.Loss := Z;
  Brain.Avg := Z;
  Brain.Attacker := Z
|}.

Definition int_handle (X : Type) (c : Brain.call X) (w : nat) : nat * result X :=
  (S w,
   match c in Brain.call X return result X with
   | Brain.Perturb a b => Ok (b, fst (Brain.sig b) + a)
   | Brain.ComputeForward b _ =>
       Ok (Brain.set_sig b (fst (Brain.sig b), snd (Brain.sig b) + 1), fst (Brain.sig b))
   | Brain.ComputeObjectives p b _ _ => Ok (b, p)
   | Brain.EvaluateBatch b _ => Ok (b, fst (Brain.sig b))
   | Brain.UpdateAverage n loss avg => Ok (avg - avg / n + loss / n)
   | Brain.ScalerScale loss => Ok (2 * loss)
   | Brain.CheckGradients loss => Ok (Z.abs loss <? 1000)
   | Brain.ZeroGrad | Brain.AutocastEnter | Brain.AutocastExit
   | Brain.Backward _ | Brain.ScalerUnscale | Brain.ScalerStep
   | Brain.ScalerUpdate | Brain.OptimizerStep | Brain.OnEvaluateStart _ _
   | Brain.OnStageStart _ _ | Brain.ModulesEval
   | Brain.RunOnMainOnStageEnd _ _ _ _ | Brain.SetattrAttacked _ _ _ => Ok tt
   end).

#[export] Instance int_framework : Brain.Framework := {|
  Brain.handle := int_handle;
  Brain.zero := 0;
  Brain.detach_cpu loss := loss
|}.

Definition batch_of (w l : Z) : Brain.Batch := {| Brain.sig := (w, l); Brain.other := tt |}.

Definition a_batch (w : Z) : Brain.Batch := batch_of w 1.

Definition a_brain (att : option (option Z)) (dbg : bool) : Brain.brain :=
  {| Brain.step := 0; Brain.debug := dbg; Brain.debug_batches := 2;
     Brain.auto_mix_prec := false; Brain.attacker := att |}.

Definition a_state (att : option (option Z)) (dbg : bool) : Brain.state :=
  {| Brain.self := a_brain att dbg; Brain.world := O; Brain.log := [] |}.

(** A framework with a memory of tensors: the world lists what the tensors
    hold and a waveform is a position in it. The attacker [a] adds [a] to
    the waveform of the batch, in the tensor itself when [in_place] is set
    and in a new tensor otherwise. The forward pass returns what the
    waveform of the batch holds. *)
Definition ref_types : Brain.Types := {|
  Brain.World := list Z;
  Brain.Wav := nat;
  Brain.Lens := Z;
  Brain.Other := unit;
  Brain.Pred := Z;
  Brain.Loss := Z;
  Brain.Avg := Z;
  Brain.Attacker := Z
|}.

Definition ref_handle (in_place : bool) (X : Type) (c : @Brain.call ref_types X)
           (w : list Z) : list Z * result X :=
  match c in Brain.call X return list Z * result X with
  | Brain.Perturb a b =>
      let t := fst (Brain.sig b) in
      match w !! t with
      | Some x =>
          if in_place then (<[t := x + a]> w, Ok (b, t))
          else ((w ++ [x + a])%list, Ok (b, List.length w))
      | None => (w, Raise RuntimeError)
      end
  | Brain.ComputeForward b _ =>
      (w, match w !! fst (Brain.sig b) with
          | Some x => Ok (b, x)
          | None => Raise RuntimeError
          end)
  | Brain.ComputeObjectives p b _ _ => (w, Ok (b, p))
  | Brain.EvaluateBatch b _ =>
      (w, match w !! fst (Brain.sig b) with
          | Some x => Ok (b, x)
          | None => Raise RuntimeError
          end)
  | Brain.UpdateAverage n loss avg => (w, Ok (avg - avg / n + loss / n))
  | Brain.ScalerScale loss => (w, Ok (2 * loss))
  | Brain.CheckGradients loss => (w, Ok true)
  | Brain.ZeroGrad | Brain.AutocastEnter | Brain.AutocastExit
  | Brain.Backward _ | Brain.ScalerUnscale | Brain.ScalerStep
  | Brain.ScalerUpdate | Brain.OptimizerStep | Brain.OnEvaluateStart _ _
  | Brain.OnStageStart _ _ | Brain.ModulesEval
  | Brain.RunOnMainOnStageEnd _ _ _ _ | Brain.SetattrAttacked _ _ _ => (w, Ok tt)
  end.

Definition ref_framework (in_place : bool) : @Brain.Framework ref_types := {|
  Brain.handle := ref_handle in_place;
  Brain.zero := 0;
  Brain.detach_cpu loss := loss
|}.

Definition ref_tensors : @Brain.Tensors ref_types :=
  @Brain.Build_Tensors ref_types Z (fun (w : list Z) (t : nat) => w !! t).

(** A batch whose waveform is the tensor at [t], and a state whose brain has
    the attacker [a] and whose memory holds the tensors [w]. *)
Definition ref_batch (t : nat) : @Brain.Batch ref_types :=
  @Brain.Build_Batch ref_types (t, 1) tt.

Definition ref_state (a : Z) (w : list Z) : @Brain.state ref_types :=
  @Brain.Build_state ref_types
    (@Brain.Build_brain ref_types 0 false 2 false (Some (Some a))) w [].

End Demo.

(* ===================================================================== *)
(** * Part II: properties *)
(* ===================================================================== *)

(** ** Strings *)

Lemma append_cons (c : ascii) (s t : string) : String c s ++ t = String c (s ++ t).
Proof. reflexivity. Qed.

Lemma append_assoc (s t u : string) : (s ++ t) ++ u = s ++ (t ++ u).
Proof.
  induction s as [|c s IH]; [reflexivity |].
  rewrite !append_cons. f_equal. exact IH.
Qed.

Lemma append_empty_r (s : string) : s ++ "" = s.
Proof.
  induction s as [|c s IH]; [reflexivity |].
  rewrite append_cons. f_equal. exact IH.
Qed.

Lemma length_append (s t : string) :
  String.length (s ++ t) = (String.length s + String.length t)%nat.
Proof.
  induction s as [|c s IH]; [reflexivity |].
  rewrite append_cons. cbn [String.length]. rewrite IH. reflexivity.
Qed.

(** ** Running a computation *)

Lemma bind_ok {S A B} (c : M S A) (k : A -> M S B) (s s' : S) (a : A) :
  c s = (s', Ok a) -> bind c k s = k a s'.
Proof. intros H. unfold bind. now rewrite H. Qed.

Lemma lift_run {S A} (r : result A) (s : S) : lift r s = (s, r).
Proof. reflexivity. Qed.

Lemma print_run (s : string) (file : WriteResult.stream) :
  WriteResult.print s file = (file ++ s ++ WriteResult.nl, Ok tt).
Proof. reflexivity. Qed.

Lemma is_file_empty_run (file : WriteResult.stream) :
  WriteResult.is_file_empty file = (file, Ok (Nat.eqb (String.length file) 0)).
Proof. reflexivity. Qed.

(** ** write_result.py: print_wer_summary *)

Section WriteResultFacts.
Context {F : Type} {fops : FloatOps F}.
Import WriteResult.

Lemma field_present (d : gmap string (pyval F)) k v :
  d !! k = Some v -> field d k = Ok (fmt v).
Proof. intros H. unfold field, getitem. now rewrite H. Qed.

Lemma field_2f_present (d : gmap string (pyval F)) k v :
  d !! k = Some v -> field_2f d k = fmt_2f v.
Proof. intros H. unfold field_2f, getitem. now rewrite H. Qed.

(** C6. On a dict that holds the keys the function reads, where the values
    of [WER] and [SER] format with [.2f], [print_wer_summary] appends to the
    file: the WER line with the rate, the edits over the scored tokens and
    the insertion, deletion and substitution counts; the marker
    [" [PARTIAL]"] exactly when [num_scored_sents < num_ref_sents]; the end
    of that line; the SER line with the rate and the erroneous over the
    scored sentences; and the line of scored and absent sentences. *)
Theorem print_wer_summary_lines
        (wer_details : gmap string (pyval F)) (file : stream)
        (v_wer v_ser v_edits v_tokens v_ins v_del v_sub
           v_scored v_ref v_err v_absent : pyval F)
        (s_wer s_ser : string) :
  wer_details !! "WER" = Some v_wer ->
  wer_details !! "SER" = Some v_ser ->
  wer_details !! "num_edits" = Some v_edits ->
  wer_details !! "num_scored_tokens" = Some v_tokens ->
  wer_details !! "insertions" = Some v_ins ->
  wer_details !! "deletions" = Some v_del ->
  wer_details !! "substitutions" = Some v_sub ->
  wer_details !! "num_scored_sents" = Some v_scored ->
  wer_details !! "num_ref_sents" = Some v_ref ->
  wer_details !! "num_erraneous_sents" = Some v_err ->
  wer_details !! "num_absent_sents" = Some v_absent ->
  fmt_2f v_wer = Ok s_wer ->
  fmt_2f v_ser = Ok s_ser ->
  print_wer_summary wer_details file =
    (file
     ++ ("%WER " ++ s_wer ++ " [ " ++ fmt v_edits ++ " / " ++ fmt v_tokens
         ++ ", " ++ fmt v_ins ++ " ins, " ++ fmt v_del ++ " del, "
         ++ fmt v_sub ++ " sub ]")
     ++ (if py_lt v_scored v_ref then " [PARTIAL]" else "") ++ nl
     ++ ("%SER " ++ s_ser ++ " [ " ++ fmt v_err ++ " / " ++ fmt v_scored ++ " ]")
     ++ nl
     ++ ("Scored " ++ fmt v_scored ++ " sentences, " ++ fmt v_absent
         ++ " not present in hyp.") ++ nl,
     Ok tt).
Proof.
  intros Hwer Hser Hedits Htokens Hins Hdel Hsub Hscored Href Herr Habsent
         Hfw Hfs.
  unfold print_wer_summary, bind, lift, print, print_end, modify.
  rewrite (field_2f_present _ _ _ Hwer), Hfw.
  rewrite (field_present _ _ _ Hedits), (field_present _ _ _ Htokens),
    (field_present _ _ _ Hins), (field_present _ _ _ Hdel),
    (field_present _ _ _ Hsub).
  cbn [rbind].
  unfold getitem. rewrite Hscored, Href.
  rewrite (field_2f_present _ _ _ Hser), Hfs.
  rewrite (field_present _ _ _ Herr), (field_present _ _ _ Hscored),
    (field_present _ _ _ Habsent).
  cbn [rbind].
  f_equal.
  rewrite append_empty_r.
  repeat rewrite append_assoc. reflexivity.
Qed.

End WriteResultFacts.

(** The witness of C6: the summary of the demonstration. *)
Lemma print_wer_summary_lines_witness :
  @WriteResult.print_wer_summary Z Demo.int_floats Demo.summary "" =
    ("%WER 25.00 [ 1 / 4, 0 ins, 0 del, 1 sub ] [PARTIAL]" ++ WriteResult.nl
     ++ "%SER 50.00 [ 1 / 2 ]" ++ WriteResult.nl
     ++ "Scored 2 sentences, 1 not present in hyp." ++ WriteResult.nl,
     Ok tt).
Proof.
  apply (@print_wer_summary_lines Z Demo.int_floats Demo.summary ""
           (WriteResult.VFloat 25) (WriteResult.VFloat 50) (WriteResult.VInt 1)
           (WriteResult.VInt 4) (WriteResult.VInt 0) (WriteResult.VInt 0)
           (WriteResult.VInt 1)
           (WriteResult.VInt 2) (WriteResult.VInt 3) (WriteResult.VInt 1)
           (WriteResult.VInt 1) "25.00" "50.00");
    reflexivity.
Defined.

(** ** write_result.py: print_snr_csv and print_log_csv *)

Section CsvFacts.
Context {F : Type} {fops : FloatOps F}.
Import WriteResult.

Lemma snr_rows_appends (metrics_detail : list (@snr_entry F)) (file : stream) :
  snr_rows metrics_detail file = (file ++ spec_snr_rows metrics_detail, Ok tt).
Proof.
  revert file. induction metrics_detail as [|e rest IH]; intros file.
  - cbn. now rewrite append_empty_r.
  - cbn [snr_rows spec_snr_rows].
    rewrite (bind_ok _ _ _ _ _ (print_run _ _)), IH.
    now rewrite !append_assoc.
Qed.

(** C8. [print_snr_csv] writes the header line [id,iter,snr] exactly when
    the file is empty at the call, and then appends one line per entry of
    [metrics_detail], in the order of the input, made of the id, the
    iteration index and the score of the entry. *)
Theorem print_snr_csv_lines (metrics_detail : list (@snr_entry F)) (file : stream) :
  print_snr_csv metrics_detail file =
    (file
     ++ (if decide (file = "") then "id,iter,snr" ++ nl else "")
     ++ spec_snr_rows metrics_detail,
     Ok tt)
  /\ (forall (score : F) (id : string) (iter_idx : Z),
        snr_row (score, (id, iter_idx))
        = id ++ "," ++ pretty iter_idx ++ "," ++ str_float score)
  /\ (forall e rest, spec_snr_rows (e :: rest) = snr_row e ++ nl ++ spec_snr_rows rest)
  /\ spec_snr_rows ([] : list (@snr_entry F)) = "".
Proof.
  repeat split.
  unfold print_snr_csv.
  rewrite (bind_ok _ _ _ _ _ (is_file_empty_run file)).
  destruct (decide (file = "")) as [-> | Hne].
  - cbn [String.length Nat.eqb].
    rewrite (bind_ok _ _ _ _ _ (print_run _ _)).
    rewrite snr_rows_appends. now rewrite !append_assoc.
  - destruct file as [|c file]; [contradiction |].
    cbn [String.length Nat.eqb].
    rewrite (bind_ok _ _ (String c file) (String c file) tt eq_refl).
    rewrite snr_rows_appends. reflexivity.
Qed.

End CsvFacts.

Section LogCsvFacts.
Context {F : Type} {fops : FloatOps F}.
Context (wer : string -> string -> result F).
Import WriteResult.

(** The first loop only looks at the entries whose key is [id]. *)
Lemma collect_matching (dets : list (utt_details F)) (id : string)
      (results : results_dict) (first : bool) :
  collect dets id results first = collect (matching dets id) id results first.
Proof.
  revert results first. induction dets as [|det rest IH]; intros results first.
  - reflexivity.
  - cbn [matching List.filter collect].
    destruct (String.eqb (key det) id) eqn:Hk.
    + cbn [collect]. rewrite Hk.
      destruct (collect_match det results first) as [[r f]|e]; cbn [rbind].
      * apply IH.
      * reflexivity.
    + apply IH.
Qed.

Lemma matching_keys (dets : list (utt_details F)) (id : string) :
  List.Forall (fun det => String.eqb (key det) id = true) (matching dets id).
Proof.
  induction dets as [|det rest IH]; cbn [matching List.filter].
  - constructor.
  - destruct (String.eqb (key det) id) eqn:Hk; [constructor; assumption | exact IH].
Qed.

(** Once both strings are set, every further match appends its
    hypothesis. *)
Lemma collect_appends (ms : list (utt_details F)) (id gt tg : string)
      (l : list string) :
  List.Forall (fun det => String.eqb (key det) id = true) ms ->
  collect ms id {| ground_truth := Some gt; target := Some tg;
                   prediction := Some l |} false
  = Ok ({| ground_truth := Some gt; target := Some tg;
           prediction := Some (l ++ List.map (fun m => join " " (hyp_tokens m)) ms)%list |},
        false).
Proof.
  intros Hall. revert l. induction Hall as [|m ms Hk _ IH]; intros l.
  - cbn. now rewrite List.app_nil_r.
  - cbn [collect]. rewrite Hk. cbn. rewrite IH.
    now rewrite <- List.app_assoc.
Qed.

(** With both strings set and a word error rate that returns, the second
    loop writes one row per prediction. *)
Lemma write_rows_all (rate : string -> string -> F) (results : results_dict)
      (id gt tg : string) (preds : list string) (it : Z) (file : stream) :
  (forall r h, wer r h = Ok (rate r h)) ->
  ground_truth results = Some gt ->
  target results = Some tg ->
  write_rows wer results id it preds file
  = (file ++ spec_log_rows rate id gt tg it preds, Ok tt).
Proof.
  intros Hwer Hgt Htg. revert it file.
  induction preds as [|pre rest IH]; intros it file.
  - cbn. now rewrite append_empty_r.
  - cbn [write_rows spec_log_rows].
    unfold log_row. rewrite Hgt, Htg. cbn [rbind]. rewrite !Hwer. cbn [rbind].
    rewrite (bind_ok _ _ file file _ eq_refl).
    rewrite (bind_ok _ _ _ _ _ (print_run _ _)).
    rewrite IH. now rewrite !append_assoc.
Qed.

Lemma header_written (file : stream) (header : string) :
  (if Nat.eqb (String.length file) 0 then print header else ret tt) file
  = (file ++ header_if_empty file header, Ok tt).
Proof.
  unfold header_if_empty. destruct (Nat.eqb (String.length file) 0).
  - rewrite print_run. reflexivity.
  - unfold ret. now rewrite append_empty_r.
Qed.

(** C10. [print_log_csv] raises [KeyError] when [id] is the key of no entry
    (the key ['prediction'] was never created) and when it is the key of
    exactly one entry (the key ['target'] was never created); in both cases
    the header has been written if the file was empty. When [id] is the key
    of two entries or more and the word error rate returns, it writes one
    row per match: the prediction of that match against the reference of
    the first match (the ground truth) and the reference of the second (the
    target). So it returns normally only if [id] occurs at least twice. *)
Theorem print_log_csv_needs_two_matches
        (details_by_utterance : list (utt_details F)) (id : string) (file : stream) :
  (matching details_by_utterance id = [] ->
   print_log_csv wer details_by_utterance id file
   = (file ++ header_if_empty file log_header, Raise (KeyError "prediction")))
  /\ (forall m, matching details_by_utterance id = [m] ->
      print_log_csv wer details_by_utterance id file
      = (file ++ header_if_empty file log_header, Raise (KeyError "target")))
  /\ (forall m0 m1 ms rate,
      matching details_by_utterance id = m0 :: m1 :: ms ->
      (forall r h, wer r h = Ok (rate r h)) ->
      print_log_csv wer details_by_utterance id file
      = (file ++ header_if_empty file log_header
         ++ spec_log_rows rate id (join " " (ref_tokens m0)) (join " " (ref_tokens m1)) 0
              (List.map (fun m => join " " (hyp_tokens m)) (m0 :: m1 :: ms)),
         Ok tt))
  /\ (forall file',
      print_log_csv wer details_by_utterance id file = (file', Ok tt) ->
      (2 <= List.length (matching details_by_utterance id))%nat).
Proof.
  pose proof (matching_keys details_by_utterance id) as Hkeys.
  assert (Hnone : matching details_by_utterance id = [] ->
    print_log_csv wer details_by_utterance id file
    = (file ++ header_if_empty file log_header, Raise (KeyError "prediction"))).
  { intros Hm. unfold print_log_csv. rewrite collect_matching, Hm.
    cbn [collect]. rewrite (bind_ok _ _ file file _ eq_refl).
    rewrite (bind_ok _ _ _ _ _ (is_file_empty_run file)).
    rewrite (bind_ok _ _ _ _ _ (header_written file log_header)).
    reflexivity. }
  assert (Hone : forall m, matching details_by_utterance id = [m] ->
    print_log_csv wer details_by_utterance id file
    = (file ++ header_if_empty file log_header, Raise (KeyError "target"))).
  { intros m Hm. rewrite Hm in Hkeys. inversion Hkeys as [|? ? Hk _]; subst.
    unfold print_log_csv. rewrite collect_matching, Hm.
    cbn [collect]. rewrite Hk.
    cbn [collect_match results_empty ground_truth target prediction
           prediction_append rbind List.app collect].
    rewrite (bind_ok _ _ file file _ eq_refl).
    cbn [fst prediction].
    rewrite (bind_ok _ _ _ _ _ (is_file_empty_run file)).
    rewrite (bind_ok _ _ _ _ _ (header_written file log_header)).
    reflexivity. }
  split; [exact Hnone |]. split; [exact Hone |]. split.
  - intros m0 m1 ms rate Hm Hwer. rewrite Hm in Hkeys.
    inversion Hkeys as [|? ? Hk0 Hrest]; subst.
    inversion Hrest as [|? ? Hk1 Hms]; subst.
    unfold print_log_csv. rewrite collect_matching, Hm.
    cbn [collect]. rewrite Hk0. cbn [collect_match results_empty ground_truth
      target prediction prediction_append rbind List.app]. rewrite Hk1.
    cbn [collect_match ground_truth target prediction prediction_append rbind
           List.app].
    rewrite (collect_appends ms id _ _ _ Hms).
    rewrite (bind_ok _ _ file file _ eq_refl).
    cbn [fst prediction].
    rewrite (bind_ok _ _ _ _ _ (is_file_empty_run file)).
    rewrite (bind_ok _ _ _ _ _ (header_written file log_header)).
    rewrite (bind_ok _ _ _ _ _ (lift_run (Ok _) _)).
    erewrite (write_rows_all rate); [| exact Hwer | reflexivity | reflexivity].
    rewrite append_assoc. reflexivity.
  - intros file' Hrun.
    destruct (matching details_by_utterance id) as [|m0 [|m1 ms]] eqn:Hm.
    + rewrite (Hnone eq_refl) in Hrun. discriminate.
    + rewrite (Hone m0 eq_refl) in Hrun. discriminate.
    + cbn [List.length]. lia.
Qed.

End LogCsvFacts.

(** The witness of C10: one match only. *)
Lemma print_log_csv_needs_two_matches_witness :
  @WriteResult.print_log_csv Z Demo.int_floats Demo.wer0
     [Demo.utt_a; Demo.utt_b] "a" ""
  = ("id,iter,ground_truth,target,prediction,gt_wer,tg_wer" ++ WriteResult.nl,
     Raise (KeyError "target")).
Proof.
  apply (proj1 (proj2 (@print_log_csv_needs_two_matches Z Demo.int_floats
                         Demo.wer0 [Demo.utt_a; Demo.utt_b] "a" ""))
               Demo.utt_a).
  reflexivity.
Defined.

(** ** write_result.py: print_alignments *)

Lemma length_str_repeat_blank (n : nat) :
  String.length (WriteResult.str_repeat " " n) = n.
Proof.
  induction n as [|n IH]; [reflexivity |].
  cbn [WriteResult.str_repeat]. rewrite length_append, IH. reflexivity.
Qed.

(** [center] returns a string of the asked width, or the string itself when
    it is longer. *)
Lemma length_center (s : string) (width : nat) :
  String.length (WriteResult.center s width) = Nat.max width (String.length s).
Proof.
  unfold WriteResult.center.
  destruct (Nat.leb_spec width (String.length s)) as [Hle | Hlt].
  - lia.
  - rewrite !length_append, !length_str_repeat_blank.
    set (marg := (width - String.length s)%nat).
    assert (Hleft : (marg / 2
                     + (if Nat.odd marg && Nat.odd width then 1 else 0) <= marg)%nat).
    { destruct (Nat.odd marg) eqn:Hodd; cbn [andb].
      - apply Nat.odd_spec in Hodd. destruct Hodd as [k Hk].
        assert (Hdiv : (marg / 2 = k)%nat).
        { rewrite Hk. rewrite Nat.add_comm, Nat.mul_comm.
          rewrite Nat.div_add by lia. reflexivity. }
        rewrite Hdiv. destruct (Nat.odd width); lia.
      - pose proof (Nat.Div0.div_le_upper_bound marg 2 marg) as Hb.
        assert ((marg / 2 <= marg)%nat) by (apply Nat.Div0.div_le_upper_bound; lia).
        lia. }
    subst marg. lia.
Qed.

Lemma concat_empty_cons (x : string) (l : list string) :
  String.concat "" (x :: l) = x ++ String.concat "" l.
Proof.
  destruct l as [|y l]; cbn [String.concat].
  - now rewrite append_empty_r.
  - reflexivity.
Qed.

(** [is_multiple] decides divisibility. *)
Lemma is_multiple_divide (index total_iters : Z) :
  WriteResult.is_multiple index total_iters = true <-> (total_iters | index).
Proof.
  unfold WriteResult.is_multiple.
  destruct (Z.BoolSpec_divide total_iters index) as [H | H]; split; intros H';
    try assumption; try reflexivity; try discriminate; contradiction.
Qed.

(** For a modulus that is not zero, the test of the code is the test of
    [is_multiple]. *)
Lemma is_multiple_mod (index total_iters : Z) :
  total_iters <> 0 ->
  WriteResult.is_multiple index total_iters = (index mod total_iters =? 0).
Proof.
  intros Hnz. unfold WriteResult.is_multiple.
  destruct (Z.eqb_spec total_iters 0) as [? | _]; [contradiction |].
  destruct (Z.eqb_spec index 0) as [-> | _]; cbn [orb negb andb].
  - now rewrite Z.mod_0_l.
  - reflexivity.
Qed.

Section AlignmentFacts.
Context {F : Type} {fops : FloatOps F}.
Import WriteResult.

Lemma cell_text_in_range (tokens : list string) (empty_symbol : string)
      (i : option Z) :
  in_range tokens i = true ->
  match i with Some i => py_index tokens i | None => Ok empty_symbol end
  = Ok (cell_text tokens empty_symbol i).
Proof.
  destruct i as [i|]; cbn [in_range cell_text]; [| reflexivity].
  destruct (py_index tokens i); cbn [is_ok]; [reflexivity | discriminate].
Qed.

Lemma pad_entry_cells (a b : list string) (empty_symbol : string) (e : align_entry) :
  in_range a (snd (fst e)) && in_range b (snd e) = true ->
  pad_entry a b empty_symbol e
  = Ok (ref_cell a b empty_symbol e, hyp_cell a b empty_symbol e,
        op_cell a b empty_symbol e).
Proof.
  destruct e as [[op i] j]. cbn [fst snd]. intros H.
  apply andb_true_iff in H. destruct H as [Hi Hj].
  unfold pad_entry.
  rewrite (cell_text_in_range a empty_symbol i Hi). cbn [rbind].
  rewrite (cell_text_in_range b empty_symbol j Hj). cbn [rbind].
  reflexivity.
Qed.

Lemma pad_loop_cells (alignment : list align_entry) (a b : list string)
      (empty_symbol : string) (a_padded b_padded ops_padded : list string) :
  forallb (fun e : align_entry => in_range a (snd (fst e)) && in_range b (snd e))
          alignment = true ->
  pad_loop alignment a b empty_symbol a_padded b_padded ops_padded
  = Ok ((a_padded ++ List.map (ref_cell a b empty_symbol) alignment)%list,
        (b_padded ++ List.map (hyp_cell a b empty_symbol) alignment)%list,
        (ops_padded ++ List.map (op_cell a b empty_symbol) alignment)%list).
Proof.
  revert a_padded b_padded ops_padded.
  induction alignment as [|e rest IH]; intros a_padded b_padded ops_padded Hall.
  - cbn [pad_loop List.map]. now rewrite !List.app_nil_r.
  - cbn [forallb] in Hall. apply andb_true_iff in Hall. destruct Hall as [He Hrest].
    cbn [pad_loop]. rewrite (pad_entry_cells a b empty_symbol e He).
    cbn [rbind]. rewrite (IH _ _ _ Hrest).
    cbn [List.map]. now rewrite <- !List.app_assoc.
Qed.

(** With indices in range, [_print_alignment] prints the three lines. *)
Lemma print_alignment_lines (alignment : list align_entry) (a b : list string)
      (empty_symbol separator : string) (file : stream) :
  forallb (fun e : align_entry => in_range a (snd (fst e)) && in_range b (snd e))
          alignment = true ->
  _print_alignment alignment a b empty_symbol separator file
  = (file ++ spec_alignment_lines alignment a b empty_symbol separator, Ok tt).
Proof.
  intros Hall. unfold _print_alignment.
  rewrite (pad_loop_cells _ _ _ _ _ _ _ Hall).
  rewrite (bind_ok _ _ _ _ _ (lift_run (Ok _) _)).
  cbn [List.app].
  rewrite (bind_ok _ _ _ _ _ (print_run _ _)).
  rewrite (bind_ok _ _ _ _ _ (print_run _ _)).
  rewrite print_run. unfold spec_alignment_lines.
  now rewrite !append_assoc.
Qed.

Lemma header_lines (dets : utt_details F) (file : stream) :
  _print_alignment_header dets file = (file ++ spec_header dets, Ok tt).
Proof.
  unfold _print_alignment_header.
  rewrite (bind_ok _ _ _ _ _ (print_run _ _)).
  rewrite print_run. unfold spec_header. now rewrite !append_assoc.
Qed.

Lemma print_block_text (dets : utt_details F) (empty_symbol separator : string)
      (print_header : bool) (sample_separator : option string) (file : stream) :
  well_aligned dets = true ->
  print_block dets empty_symbol separator print_header sample_separator file
  = (file ++ spec_block empty_symbol separator print_header sample_separator dets,
     Ok tt).
Proof.
  intros Hwell. unfold print_block, spec_block.
  assert (Hhdr : (if print_header then _print_alignment_header dets else ret tt) file
                 = (file ++ (if print_header then spec_header dets else ""), Ok tt)).
  { destruct print_header; [apply header_lines |].
    unfold ret. now rewrite append_empty_r. }
  rewrite (bind_ok _ _ _ _ _ Hhdr).
  rewrite (bind_ok _ _ _ _ _ (print_alignment_lines _ _ _ _ _ _ Hwell)).
  destruct sample_separator as [s|].
  - destruct (String.eqb s "").
    + unfold ret. now rewrite !append_assoc, append_empty_r.
    + rewrite print_run. now rewrite !append_assoc.
  - unfold ret. now rewrite !append_assoc, append_empty_r.
Qed.

Lemma print_alignments_from_blocks (index : Z) (details_by_utterance : list (utt_details F))
      (empty_symbol separator : string) (print_header : bool)
      (sample_separator : option string) (total_iters : Z) (file : stream) :
  total_iters <> 0 ->
  forallb well_aligned (spec_selected_from index total_iters details_by_utterance) = true ->
  print_alignments_from index details_by_utterance empty_symbol separator
                        print_header sample_separator total_iters file
  = (file ++ String.concat ""
       (List.map (spec_block empty_symbol separator print_header sample_separator)
                 (spec_selected_from index total_iters details_by_utterance)),
     Ok tt).
Proof.
  intros Hnz. revert index file.
  induction details_by_utterance as [|dets rest IH]; intros index file Hwell.
  - cbn. unfold ret. now rewrite append_empty_r.
  - cbn [print_alignments_from spec_selected_from] in *.
    rewrite (is_multiple_mod index total_iters Hnz) in *.
    rewrite forallb_app in Hwell. apply andb_true_iff in Hwell.
    destruct Hwell as [Hhead Hrest].
    destruct (Z.eqb_spec total_iters 0) as [? | _]; [contradiction |].
    destruct ((index mod total_iters =? 0) && scored dets) eqn:Hsel.
    + apply andb_true_iff in Hsel. destruct Hsel as [Hmod Hscored].
      rewrite Hmod, Hscored.
      cbn [forallb] in Hhead. apply andb_true_iff in Hhead.
      destruct Hhead as [Hdets _].
      rewrite (bind_ok _ _ _ _ _ (print_block_text _ _ _ _ _ _ Hdets)).
      rewrite (IH _ _ Hrest).
      cbn [List.app List.map]. rewrite concat_empty_cons.
      now rewrite !append_assoc.
    + assert (Hskip : (if index mod total_iters =? 0
                       then if scored dets
                            then print_block dets empty_symbol separator
                                             print_header sample_separator
                            else ret tt
                       else ret tt) file = (file, Ok tt)).
      { destruct (index mod total_iters =? 0); [| reflexivity].
        destruct (scored dets); [discriminate | reflexivity]. }
      rewrite (bind_ok _ _ _ _ _ Hskip).
      rewrite (IH _ _ Hrest). reflexivity.
Qed.

(** C7, amended. For [total_iters] other than zero and alignments whose
    indices select tokens of their utterance, [print_alignments] writes one
    block for each utterance whose index is a multiple of [total_iters] and
    whose [scored] flag is true, in order, and nothing else. A block is the
    header (when asked for), the line of reference tokens, the line of edit
    operations, the line of hypothesis tokens, each with one field per
    alignment entry, and the sample separator (when there is one). A token
    whose index is [None] is rendered as [empty_symbol], and the three
    entries of a column all have the width of the widest of them. *)
Theorem print_alignments_blocks
        (details_by_utterance : list (utt_details F))
        (empty_symbol separator : string) (print_header : bool)
        (sample_separator : option string) (total_iters : Z) (file : stream) :
  total_iters <> 0 ->
  forallb well_aligned (spec_selected total_iters details_by_utterance) = true ->
  print_alignments details_by_utterance empty_symbol separator print_header
                   sample_separator total_iters file
  = (file ++ String.concat ""
       (List.map (spec_block empty_symbol separator print_header sample_separator)
                 (spec_selected total_iters details_by_utterance)),
     Ok tt)
  /\ (forall index, is_multiple index total_iters = true <-> (total_iters | index))
  /\ (forall tokens, cell_text tokens empty_symbol None = empty_symbol)
  /\ (forall a b e,
        let width := Nat.max (String.length (fst (fst e)))
                       (Nat.max (String.length (cell_text a empty_symbol (snd (fst e))))
                                (String.length (cell_text b empty_symbol (snd e)))) in
        String.length (ref_cell a b empty_symbol e) = width
        /\ String.length (op_cell a b empty_symbol e) = width
        /\ String.length (hyp_cell a b empty_symbol e) = width).
Proof.
  intros Hnz Hwell. split; [| split; [| split]].
  - apply print_alignments_from_blocks; assumption.
  - intros index. apply is_multiple_divide.
  - reflexivity.
  - intros a b [[op i] j]. cbn [fst snd].
    unfold ref_cell, op_cell, hyp_cell, column_width. cbn [fst snd].
    rewrite !length_center. lia.
Qed.

End AlignmentFacts.

(** The witness of C7 as amended: three utterances, every second one
    printed. *)
Lemma print_alignments_blocks_witness :
  @WriteResult.print_alignments Z Demo.int_floats
     [Demo.utt_a; Demo.utt_b; Demo.utt_b] "<eps>" " ; " false (Some "--") 2 ""
  = ("the ; cat" ++ WriteResult.nl ++ " =  ;  S " ++ WriteResult.nl
     ++ "the ; hat" ++ WriteResult.nl ++ "--" ++ WriteResult.nl
     ++ "go ; <eps>" ++ WriteResult.nl ++ "=  ;   I  " ++ WriteResult.nl
     ++ "go ;   on " ++ WriteResult.nl ++ "--" ++ WriteResult.nl,
     Ok tt).
Proof.
  apply (proj1 (@print_alignments_blocks Z Demo.int_floats
                  [Demo.utt_a; Demo.utt_b; Demo.utt_b] "<eps>" " ; " false
                  (Some "--") 2 "" ltac:(lia) eq_refl)).
Defined.

(** C7 as stated fails for [total_iters = 0]: the index 0 is a multiple of
    0 and the utterance is scored, so it is among those that should get a
    block, but the test [index % total_iters] raises [ZeroDivisionError] and
    nothing is written. *)
Lemma print_alignments_zero_total_iters :
  @WriteResult.spec_selected Z 0 [Demo.utt_a] = [Demo.utt_a]
  /\ (0 | 0)
  /\ WriteResult.scored Demo.utt_a = true
  /\ WriteResult.well_aligned Demo.utt_a = true
  /\ @WriteResult.print_alignments Z Demo.int_floats
       [Demo.utt_a] "<eps>" " ; " true None 0 ""
     = ("", Raise ZeroDivisionError)
  /\ @WriteResult.print_alignments Z Demo.int_floats
       [Demo.utt_a] "<eps>" " ; " true None 0 ""
     <> ("" ++ String.concat ""
           (List.map (@WriteResult.spec_block Z Demo.int_floats
                        "<eps>" " ; " true None)
                     (@WriteResult.spec_selected Z 0 [Demo.utt_a])),
         Ok tt).
Proof.
  split; [reflexivity |].
  split; [exists 0; reflexivity |].
  split; [reflexivity |].
  split; [reflexivity |].
  split; [reflexivity |].
  discriminate.
Qed.

(** ** brain.py: AdvASRBrain.__setattr__ *)

Section AttrFacts.
Import Attr.

Lemma getattr_found (h : heap) (a : addr) (o : object) (name : string) (x : value) :
  h !! a = Some o -> attrs o !! name = Some x ->
  getattr (VRef a) name h = (h, Ok x).
Proof. intros Ho Hx. unfold getattr. now rewrite Ho, Hx. Qed.

Lemma hasattr_found (h : heap) (a : addr) (o : object) (name : string) (x : value) :
  h !! a = Some o -> attrs o !! name = Some x ->
  hasattr (VRef a) name h = (h, Ok true).
Proof.
  intros Ho Hx. unfold hasattr. now rewrite (getattr_found h a o name x Ho Hx).
Qed.

Lemma super_setattr_brain (h : heap) (a : addr) (o : object) (name : string) (v : value) :
  h !! a = Some o -> is_AdvASRBrain o = true ->
  super_setattr (VRef a) name v h
  = (<[a := {| is_AdvASRBrain := true; attrs := <[name := v]> (attrs o) |}]> h, Ok tt).
Proof. intros Ho Hb. unfold super_setattr. now rewrite Ho, Hb. Qed.

Lemma attr_of_insert_eq (h : heap) (a : addr) (o : object) (name : string) :
  attr_of (<[a := o]> h) a name = attrs o !! name.
Proof. unfold attr_of. now rewrite lookup_insert_eq. Qed.

Lemma attr_of_insert_ne (h : heap) (a b : addr) (o : object) (name : string) :
  a <> b -> attr_of (<[a := o]> h) b name = attr_of h b name.
Proof. intros Hne. unfold attr_of. now rewrite lookup_insert_ne. Qed.

(** C9. On a brain whose attribute [attacker] is an attacker object that
    wraps a brain, the assignment [self.name = v] of an attribute other than
    [attacker] returns normally and leaves [v] in the attribute [name] of
    the brain and of the wrapped brain; every other attribute of the two
    brains is left as it was, so attributes on which they agreed stay in
    agreement. *)
Theorem setattr_reaches_attacked_brain
        (h : heap) (self attacker inner : addr) (o o_attacker o_inner : object)
        (name : string) (v : value) :
  h !! self = Some o ->
  is_AdvASRBrain o = true ->
  attrs o !! "attacker" = Some (VRef attacker) ->
  h !! attacker = Some o_attacker ->
  attrs o_attacker !! "asr_brain" = Some (VRef inner) ->
  h !! inner = Some o_inner ->
  is_AdvASRBrain o_inner = true ->
  name <> "attacker" ->
  exists h',
    assign (VRef self) name v h = (h', Ok tt)
    /\ attr_of h' self name = Some v
    /\ attr_of h' inner name = Some v
    /\ (forall n, n <> name ->
          attr_of h' self n = attr_of h self n
          /\ attr_of h' inner n = attr_of h inner n).
Proof.
  intros Hself Hbrain Hatt Hattacker Hasr Hinner Hinner_brain Hname.
  unfold assign, __setattr__.
  rewrite (bind_ok _ _ _ _ _ (hasattr_found h self o _ _ Hself Hatt)).
  assert (Hcond : String.eqb name "attacker" = false)
    by (now apply String.eqb_neq).
  rewrite Hcond. cbn [andb negb].
  set (h1 := <[inner := {| is_AdvASRBrain := true;
                           attrs := <[name := v]> (attrs o_inner) |}]> h).
  assert (Hfirst :
    (attacker0 <~ getattr (VRef self) "attacker" ;;
     asr_brain <~ getattr attacker0 "asr_brain" ;;
     super_setattr asr_brain name v) h = (h1, Ok tt)).
  { rewrite (bind_ok _ _ _ _ _ (getattr_found h self o _ _ Hself Hatt)).
    rewrite (bind_ok _ _ _ _ _ (getattr_found h attacker o_attacker _ _ Hattacker Hasr)).
    apply super_setattr_brain; assumption. }
  rewrite (bind_ok _ _ _ _ _ Hfirst).
  destruct (decide (inner = self)) as [-> | Hne].
  - (* the brain is its own attacked brain *)
    assert (o_inner = o) by congruence. subst o_inner.
    assert (H1 : h1 !! self = Some {| is_AdvASRBrain := true;
                                      attrs := <[name := v]> (attrs o) |})
      by (subst h1; apply lookup_insert_eq).
    rewrite (super_setattr_brain h1 self _ name v H1 eq_refl).
    eexists. split; [reflexivity |].
    cbn [attrs]. rewrite !attr_of_insert_eq. cbn [attrs].
    rewrite lookup_insert_eq.
    split; [reflexivity |]. split; [reflexivity |].
    intros n Hn.
    rewrite attr_of_insert_eq. cbn [attrs].
    rewrite !lookup_insert_ne by congruence.
    unfold attr_of. rewrite Hself. split; reflexivity.
  - assert (H1 : h1 !! self = Some o)
      by (subst h1; rewrite lookup_insert_ne by assumption; exact Hself).
    rewrite (super_setattr_brain h1 self o name v H1 Hbrain).
    eexists. split; [reflexivity |].
    rewrite attr_of_insert_eq. cbn [attrs]. rewrite lookup_insert_eq.
    split; [reflexivity |].
    rewrite attr_of_insert_ne by congruence.
    subst h1. rewrite attr_of_insert_eq. cbn [attrs]. rewrite lookup_insert_eq.
    split; [reflexivity |].
    intros n Hn. split.
    + rewrite attr_of_insert_eq. cbn [attrs].
      rewrite lookup_insert_ne by congruence.
      unfold attr_of. now rewrite Hself.
    + rewrite attr_of_insert_ne by congruence.
      rewrite attr_of_insert_eq. cbn [attrs].
      rewrite lookup_insert_ne by congruence.
      unfold attr_of. now rewrite Hinner.
Qed.

End AttrFacts.

(** The witness of C9: the heap of the demonstration. *)
Lemma setattr_reaches_attacked_brain_witness :
  exists h',
    Attr.assign (Attr.VRef 1%positive) "lr" (Attr.VInt 3) Demo.heap3 = (h', Ok tt)
    /\ Attr.attr_of h' 1%positive "lr" = Some (Attr.VInt 3)
    /\ Attr.attr_of h' 3%positive "lr" = Some (Attr.VInt 3)
    /\ (forall n, n <> "lr" ->
          Attr.attr_of h' 1%positive n = Attr.attr_of Demo.heap3 1%positive n
          /\ Attr.attr_of h' 3%positive n = Attr.attr_of Demo.heap3 3%positive n).
Proof.
  eapply (setattr_reaches_attacked_brain Demo.heap3 1%positive 2%positive 3%positive);
    try reflexivity.
  discriminate.
Defined.

(** ** brain.py: EnsembleASRBrain.compute_objectives *)

Section EnsembleFacts.
Context {Batch Pred Loss Tokens : Type} {tops : Ensemble.TorchOps Loss}.
Context (pred_len : Pred -> result Z).
Import Ensemble.

#[local] Abbreviation brain := (@asr_brain Batch Pred Loss Tokens).
#[local] Abbreviation ensemble := (@EnsembleASRBrain Batch Pred Loss Tokens).

Lemma py_index_head {A} (x : A) (l : list A) : py_index (x :: l) 0 = Ok x.
Proof.
  unfold py_index. cbn [List.length].
  replace (0 <? 0) with false by reflexivity.
  replace ((0 <=? 0) && (0 <? Z.of_nat (S (List.length l)))) with true.
  - reflexivity.
  - symmetry. apply andb_true_iff. split; [reflexivity | apply Z.ltb_lt; lia].
Qed.

Lemma range_succ (n : nat) :
  range (Z.of_nat (S n)) = 0 :: List.map Z.of_nat (List.seq 1 n).
Proof. unfold range. rewrite Nat2Z.id. reflexivity. Qed.

(** On an ensemble of predictions the loop stops at its first round: it
    either fails to fetch the brain or fails to subscript. *)
Lemma objectives_loop_ensemble (self : ensemble) (ps : list Pred) (batch : Batch)
      (stage : Stage) (model_idx : option Z) (indices : list Z)
      (losses : list Loss) (loss : option Loss) :
  match indices with
  | [] => objectives_loop self (PredictionEnsemble ps) batch stage model_idx
                          indices losses loss = Ok (losses, loss)
  | _ :: _ => is_ok (objectives_loop self (PredictionEnsemble ps) batch stage
                                     model_idx indices losses loss) = false
  end.
Proof.
  destruct indices as [|i rest]; [reflexivity |].
  cbn [objectives_loop].
  destruct (match model_idx with
            | Some m => py_index (asr_brains self) m
            | None => py_index (asr_brains self) i
            end) as [ab|e]; reflexivity.
Qed.

(** C1, what the code does. Called with [average=True] on a
    [PredictionEnsemble], [compute_objectives] never returns: whatever the
    brains, the predictions and [model_idx], it raises. On an ensemble built
    by [__init__] from at least one brain, with one prediction per brain, it
    raises [TypeError] at [predictions[0]], before any wrapped brain
    computed a loss. *)
Theorem ensemble_objectives_raise :
  (forall (self : ensemble) (ps : list Pred) (batch : Batch) (stage : Stage)
          (model_idx : option Z),
      is_ok (compute_objectives pred_len self (PredictionEnsemble ps)
                                         batch stage true model_idx) = false)
  /\ (forall (brains : list brain) (ref : Z) (ps : list Pred) (batch : Batch)
             (stage : Stage) (average : bool),
        brains <> [] ->
        List.length ps = List.length brains ->
        compute_objectives pred_len (init brains ref) (PredictionEnsemble ps)
                                    batch stage average None
        = Raise TypeError).
Proof.
  split.
  - intros self ps batch stage model_idx.
    unfold compute_objectives.
    assert (Hbody :
      is_ok (rbind (len pred_len (PredictionEnsemble ps)) (fun n =>
        if negb (n =? nmodels self) then Raise AssertionError else
        rbind (objectives_loop self (PredictionEnsemble ps) batch stage model_idx
                               (range (nmodels self)) [] None)
              (fun '(losses, loss) =>
        rbind (torch_stack losses) (fun losses =>
        if true
        then match loss with
             | Some l => torch_mean l
             | None => Raise (UnboundLocalError "loss")
             end
        else Ok losses)))) = false).
    { cbn [len rbind].
      destruct (negb (Z.of_nat (List.length ps) =? nmodels self)); [reflexivity |].
      pose proof (objectives_loop_ensemble self ps batch stage model_idx
                    (range (nmodels self)) [] None) as Hloop.
      destruct (range (nmodels self)) as [|i rest].
      - rewrite Hloop. cbn [rbind].
        destruct (torch_stack []); reflexivity.
      - destruct (objectives_loop self (PredictionEnsemble ps) batch stage
                                  model_idx (i :: rest) [] None);
          [discriminate | reflexivity]. }
    destruct model_idx; exact Hbody.
  - intros brains ref ps batch stage average Hne Hlen.
    destruct brains as [|b0 bs]; [contradiction |].
    unfold compute_objectives, init.
    cbn [len rbind nmodels asr_brains]. rewrite Hlen, Z.eqb_refl. cbn [negb].
    cbn [List.length]. rewrite range_succ. cbn [objectives_loop asr_brains].
    rewrite py_index_head. reflexivity.
Qed.

End EnsembleFacts.

(** The witness of C1: two brains whose losses are [LossOf 0] and
    [LossOf 1], and one prediction for each. *)
Lemma ensemble_objectives_raise_witness :
  @Ensemble.compute_objectives unit nat Demo.term unit Demo.term_ops
     (fun _ => Ok 2) Demo.two_models (Ensemble.PredictionEnsemble [0%nat; 1%nat])
     tt TRAIN true None
  = Raise TypeError.
Proof.
  apply (proj2 (@ensemble_objectives_raise unit nat Demo.term unit Demo.term_ops
                  (fun _ => Ok 2))
               [Demo.model 0; Demo.model 1] 0 [0%nat; 1%nat] tt TRAIN true).
  - discriminate.
  - reflexivity.
Defined.

(** On the same input the mean over the models of the individual losses
    exists. When a single prediction is scored by every brain, so that
    nothing is subscripted, the value returned is the mean of the loss of the
    last brain alone, not of the stacked losses. *)
Lemma ensemble_objectives_demo :
  @Ensemble.spec_mean_of_losses unit nat Demo.term unit Demo.term_ops
     Demo.two_models [0%nat; 1%nat] tt TRAIN
  = Ok (Demo.Mean (Demo.Stack [Demo.LossOf 0; Demo.LossOf 1]))
  /\ @Ensemble.compute_objectives unit nat Demo.term unit Demo.term_ops
       (fun _ => Ok 2) Demo.two_models (Ensemble.Prediction 0%nat)
       tt TRAIN true None
     = Ok (Demo.Mean (Demo.LossOf 1)).
Proof. split; reflexivity. Qed.

(** ** brain.py: AdvASRBrain *)

Section BrainFacts.
Context {T : Brain.Types} {fw : Brain.Framework} {ts : Brain.Tensors}.
Import Brain.

Lemma do_run {X} (c : call X) (st : state) :
  do c st
  = ({| self := self st;
        world := fst (handle X c (world st));
        log := (log st ++ [Ev c (snd (handle X c (world st)))])%list |},
     snd (handle X c (world st))).
Proof. unfold do. destruct (handle X c (world st)). reflexivity. Qed.

Lemma not_ATTACK (stage : Stage) : stage <> ATTACK -> Stage_eqb stage ATTACK = false.
Proof. destruct stage; intros H; try reflexivity. contradiction. Qed.

(** The adversarial forward pass when an attacker is set: the attacker
    perturbs the batch, the forward pass runs on the batch whose waveform is
    the perturbed one, and the waveform held at the call is put back. *)
Lemma forward_adversarial_with_attacker
      (batch : Batch) (stage : Stage) (st : state) (a : Attacker) :
  stage <> ATTACK ->
  attacker (self st) = Some (Some a) ->
  compute_forward_adversarial batch stage st
  = let (w1, r1) := handle _ (Perturb a batch) (world st) in
    match r1 with
    | Raise e =>
        ({| self := self st; world := w1;
            log := (log st ++ [Ev (Perturb a batch) r1])%list |}, Raise e)
    | Ok (b1, adv_wavs) =>
        let perturbed := set_sig b1 (adv_wavs, snd (sig b1)) in
        let (w2, r2) := handle _ (ComputeForward perturbed stage) w1 in
        ({| self := self st; world := w2;
            log := (log st ++ [Ev (Perturb a batch) r1;
                               Ev (ComputeForward perturbed stage) r2])%list |},
         match r2 with
         | Ok (b2, res) => Ok (set_sig b2 (fst (sig batch), snd (sig b2)), res)
         | Raise e => Raise e
         end)
    end.
Proof.
  intros Hstage Hatt.
  unfold compute_forward_adversarial, self_attacker, bind, get_self, ret, raise, do.
  rewrite (not_ATTACK stage Hstage), Hatt.
  destruct (handle _ (Perturb a batch) (world st)) as [w1 [[b1 adv_wavs]|e]];
    cbn [self world log]; [| reflexivity].
  destruct (handle _ (ComputeForward (set_sig b1 (adv_wavs, snd (sig b1))) stage) w1)
    as [w2 [[b2 res]|e]]; cbn [self world log];
    rewrite <- List.app_assoc; reflexivity.
Qed.

Lemma forward_adversarial_ATTACK (batch : Batch) (st : state) :
  compute_forward_adversarial batch ATTACK st = (st, Raise AssertionError).
Proof. reflexivity. Qed.

(** Without the attribute [attacker], reading it raises. *)
Lemma forward_adversarial_missing (batch : Batch) (stage : Stage) (st : state) :
  stage <> ATTACK ->
  attacker (self st) = None ->
  compute_forward_adversarial batch stage st
  = (st, Raise (AttributeError "attacker")).
Proof.
  intros Hstage Hatt.
  unfold compute_forward_adversarial, self_attacker, bind, get_self, ret, raise.
  rewrite (not_ATTACK stage Hstage), Hatt. reflexivity.
Qed.

(** With [attacker] set to [None], the forward pass runs on the batch as it
    is, and [del adv_wavs] raises when it returned. *)
Lemma forward_adversarial_None (batch : Batch) (stage : Stage) (st : state) :
  stage <> ATTACK ->
  attacker (self st) = Some None ->
  compute_forward_adversarial batch stage st
  = let (w1, r1) := handle _ (ComputeForward batch stage) (world st) in
    ({| self := self st; world := w1;
        log := (log st ++ [Ev (ComputeForward batch stage) r1])%list |},
     match r1 with
     | Ok _ => Raise (UnboundLocalError "adv_wavs")
     | Raise e => Raise e
     end).
Proof.
  intros Hstage Hatt.
  unfold compute_forward_adversarial, self_attacker, bind, get_self, ret, raise, do.
  rewrite (not_ATTACK stage Hstage), Hatt.
  destruct (handle _ (ComputeForward batch stage) (world st)) as [w1 [[b1 res]|e]];
    reflexivity.
Qed.

(** C2, what the code does without an attacker. For a stage other than
    [ATTACK]: when the attribute [attacker] does not exist, nothing is
    computed and [AttributeError] is raised; when it is [None], the forward
    pass is computed on the batch as it is, and then, instead of its result,
    [UnboundLocalError] is raised by [del adv_wavs]. Either way the function
    does not return. *)
Theorem forward_adversarial_without_attacker
        (batch : Batch) (stage : Stage) (st : state) :
  stage <> ATTACK ->
  (attacker (self st) = None ->
   compute_forward_adversarial batch stage st
   = (st, Raise (AttributeError "attacker")))
  /\ (attacker (self st) = Some None ->
      compute_forward_adversarial batch stage st
      = let (w1, r1) := handle _ (ComputeForward batch stage) (world st) in
        ({| self := self st; world := w1;
            log := (log st ++ [Ev (ComputeForward batch stage) r1])%list |},
         match r1 with
         | Ok _ => Raise (UnboundLocalError "adv_wavs")
         | Raise e => Raise e
         end))
  /\ ((forall a, attacker (self st) <> Some (Some a)) ->
      is_ok (snd (compute_forward_adversarial batch stage st)) = false).
Proof.
  intros Hstage.
  split; [apply forward_adversarial_missing; exact Hstage |].
  split; [apply forward_adversarial_None; exact Hstage |].
  intros Hno.
  destruct (attacker (self st)) as [[a|]|] eqn:Hatt.
  - exfalso. exact (Hno a eq_refl).
  - rewrite (forward_adversarial_None batch stage st Hstage Hatt).
    destruct (handle _ (ComputeForward batch stage) (world st)) as [w1 [[b1 res]|e]];
      reflexivity.
  - rewrite (forward_adversarial_missing batch stage st Hstage Hatt). reflexivity.
Qed.

(** C3, as amended. When [compute_forward_adversarial] returns normally,
    the waveform of [batch.sig] is the tensor the batch held at the call,
    whatever the attacker and the forward pass assigned to the batch
    meanwhile; and when neither of them changes that tensor in place, it
    holds the data it held at the call. *)
Theorem adversarial_forward_restores_waveform
        (batch : Batch) (stage : Stage) (st st' : state)
        (batch' : Batch) (res : Pred) :
  compute_forward_adversarial batch stage st = (st', Ok (batch', res)) ->
  fst (sig batch') = fst (sig batch)
  /\ (not_changed_in_place (fst (sig batch)) ->
      forall d : Data,
        wav_data (world st) (fst (sig batch)) = Some d ->
        wav_data (world st') (fst (sig batch')) = Some d).
Proof.
  intros Hrun.
  destruct (Stage_eqb stage ATTACK) eqn:Hstage.
  { destruct stage; try discriminate Hstage.
    rewrite forward_adversarial_ATTACK in Hrun. discriminate. }
  assert (Hs : stage <> ATTACK) by (intros ->; discriminate).
  destruct (attacker (self st)) as [[a|]|] eqn:Hatt.
  - rewrite (forward_adversarial_with_attacker batch stage st a Hs Hatt) in Hrun.
    destruct (handle _ (Perturb a batch) (world st))
      as [w1 [[b1 adv_wavs]|e]] eqn:E1; [| discriminate].
    cbv zeta in Hrun.
    destruct (handle _ (ComputeForward (set_sig b1 (adv_wavs, snd (sig b1))) stage) w1)
      as [w2 [[b2 res2]|e]] eqn:E2; [| discriminate].
    inversion Hrun; subst. split; [reflexivity |].
    intros [Hperturb Hforward] d Hd. cbn [world sig set_sig fst].
    specialize (Hperturb a batch (world st) d Hd).
    rewrite E1 in Hperturb. cbn [fst] in Hperturb.
    specialize (Hforward (set_sig b1 (adv_wavs, snd (sig b1))) stage w1 d Hperturb).
    rewrite E2 in Hforward. exact Hforward.
  - rewrite (forward_adversarial_None batch stage st Hs Hatt) in Hrun.
    destruct (handle _ (ComputeForward batch stage) (world st)) as [w1 [[b1 res1]|e]];
      discriminate.
  - rewrite (forward_adversarial_missing batch stage st Hs Hatt) in Hrun.
    discriminate.
Qed.

(** *** When no call raises *)

Lemma do_ok (Hnr : never_raises) {X} (c : call X) (st : state) :
  exists (x : X) (w : World),
    do c st = ({| self := self st; world := w;
                  log := (log st ++ [Ev c (Ok x)])%list |}, Ok x).
Proof.
  rewrite do_run. pose proof (Hnr X c (world st)) as Hok.
  destruct (handle X c (world st)) as [w [x|e]]; [| discriminate].
  exists x, w. reflexivity.
Qed.

(** Run the call at the head of the computation in the goal. *)
Ltac step_do Hnr :=
  match goal with
  | |- context [bind (do ?c) ?k ?s] =>
      let x := fresh "x" in
      let w := fresh "w" in
      let E := fresh "E" in
      destruct (do_ok Hnr c s) as (x & w & E);
      rewrite (bind_ok (do c) k s _ x E); clear E;
      cbn [self world log]
  end.

Lemma forward_adversarial_ok (Hnr : never_raises)
      (batch : Batch) (stage : Stage) (st : state) (a : Attacker) :
  stage <> ATTACK ->
  attacker (self st) = Some (Some a) ->
  exists (b1 : Batch) (adv_wavs : Wav) (b2 : Batch) (res : Pred) (w : World),
    compute_forward_adversarial batch stage st
    = ({| self := self st; world := w;
          log := (log st
                  ++ [Ev (Perturb a batch) (Ok (b1, adv_wavs));
                      Ev (ComputeForward (set_sig b1 (adv_wavs, snd (sig b1))) stage)
                         (Ok (b2, res))])%list |},
       Ok (set_sig b2 (fst (sig batch), snd (sig b2)), res)).
Proof.
  intros Hstage Hatt.
  rewrite (forward_adversarial_with_attacker batch stage st a Hstage Hatt).
  pose proof (Hnr _ (Perturb a batch) (world st)) as H1.
  destruct (handle _ (Perturb a batch) (world st)) as [w1 [[b1 adv_wavs]|e]];
    [| discriminate].
  cbv zeta.
  pose proof (Hnr _ (ComputeForward (set_sig b1 (adv_wavs, snd (sig b1))) stage) w1) as H2.
  destruct (handle _ (ComputeForward (set_sig b1 (adv_wavs, snd (sig b1))) stage) w1)
    as [w2 [[b2 res]|e]]; [| discriminate].
  exists b1, adv_wavs, b2, res, w2. reflexivity.
Qed.

(** The adversarial forward pass followed by the loss, as both
    [fit_batch_adversarial] and [evaluate_batch_adversarial] run them. *)
Lemma forward_and_loss_ok (Hnr : never_raises) {B}
      (batch : Batch) (stage : Stage) (adv : bool) (st : state) (a : Attacker)
      (k : Batch * Loss -> M state B) :
  stage <> ATTACK ->
  attacker (self st) = Some (Some a) ->
  exists (b1 : Batch) (adv_wavs : Wav) (b2 : Batch) (out : Pred)
         (batch' : Batch) (loss : Loss) (w : World),
    (r <~ compute_forward_adversarial batch stage ;;
     let '(batch, outputs) := r in
     r <~ do (ComputeObjectives outputs batch stage adv) ;;
     k r) st
    = k (batch', loss)
        {| self := self st; world := w;
           log := (log st
                   ++ [Ev (Perturb a batch) (Ok (b1, adv_wavs));
                       Ev (ComputeForward (set_sig b1 (adv_wavs, snd (sig b1))) stage)
                          (Ok (b2, out));
                       Ev (ComputeObjectives
                             out (set_sig b2 (fst (sig batch), snd (sig b2))) stage adv)
                          (Ok (batch', loss))])%list |}.
Proof.
  intros Hstage Hatt.
  destruct (forward_adversarial_ok Hnr batch stage st a Hstage Hatt)
    as (b1 & adv_wavs & b2 & out & w & E).
  rewrite (bind_ok _ _ _ _ _ E). cbv beta iota.
  step_do Hnr. destruct x as [batch' loss].
  exists b1, adv_wavs, b2, out, batch', loss, w0.
  rewrite <- List.app_assoc. reflexivity.
Qed.

(** The same in a hypothesis; [x] names what the call returns. *)
Ltac step_do_as Hnr H x :=
  match type of H with
  | context [bind (do ?c) ?k ?s] =>
      let w := fresh "w" in
      let E := fresh "E" in
      destruct (do_ok Hnr c s) as (x & w & E);
      rewrite (bind_ok (do c) k s _ x E) in H; clear E;
      cbn [self world log] in H
  end.

Ltac step_do_in Hnr H := let x := fresh "x" in step_do_as Hnr H x.

Lemma with_autocast_ok (Hnr : never_raises) {A} (body : M state A) (st : state) :
  exists w1 : World,
    forall (st2 : state) (v : A),
      body {| self := self st; world := w1;
              log := (log st ++ [Ev AutocastEnter (Ok tt)])%list |} = (st2, Ok v) ->
      exists w3 : World,
        with_autocast body st
        = ({| self := self st2; world := w3;
              log := (log st2 ++ [Ev AutocastExit (Ok tt)])%list |}, Ok v).
Proof.
  destruct (do_ok Hnr AutocastEnter st) as ([] & w1 & E1).
  exists w1. intros st2 v Hbody.
  destruct (do_ok Hnr AutocastExit st2) as ([] & w3 & E3).
  exists w3. unfold with_autocast.
  rewrite (bind_ok _ _ _ _ _ E1), Hbody.
  rewrite (bind_ok _ _ _ _ _ E3). reflexivity.
Qed.

(** C5. With an attacker set and a framework whose calls return,
    [fit_batch_adversarial] returns the loss detached and moved to the CPU,
    after these calls and no others. Without mixed precision: the attacker,
    the forward pass on the perturbed batch, the loss, its backward pass,
    [check_gradients], the optimizer step exactly when the check passed, and
    [zero_grad]. With mixed precision: [zero_grad], then under autocast the
    attacker, the forward pass and the loss, then the backward pass of the
    scaled loss, the unscaling, [check_gradients], the step of the scaler
    exactly when the check passed, and the update of the scaler. *)
Theorem fit_batch_adversarial_steps
        (batch : Batch) (st : state) (a : Attacker) :
  never_raises ->
  attacker (self st) = Some (Some a) ->
  exists (st' : state) (batch' : Batch) (loss scaled : Loss) (ok : bool)
         (b1 : Batch) (adv_wavs : Wav) (b2 : Batch) (outputs : Pred),
    fit_batch_adversarial batch st = (st', Ok (batch', detach_cpu loss))
    /\ self st' = self st
    /\ log st'
       = (log st
          ++ (if auto_mix_prec (self st)
              then [Ev ZeroGrad (Ok tt); Ev AutocastEnter (Ok tt)]
              else [])
          ++ [Ev (Perturb a batch) (Ok (b1, adv_wavs));
              Ev (ComputeForward (set_sig b1 (adv_wavs, snd (sig b1))) TRAIN)
                 (Ok (b2, outputs));
              Ev (ComputeObjectives
                    outputs (set_sig b2 (fst (sig batch), snd (sig b2))) TRAIN false)
                 (Ok (batch', loss))]
          ++ (if auto_mix_prec (self st)
              then [Ev AutocastExit (Ok tt);
                    Ev (ScalerScale loss) (Ok scaled);
                    Ev (Backward scaled) (Ok tt);
                    Ev ScalerUnscale (Ok tt);
                    Ev (CheckGradients loss) (Ok ok)]
                   ++ (if ok then [Ev ScalerStep (Ok tt)] else [])
                   ++ [Ev ScalerUpdate (Ok tt)]
              else [Ev (Backward loss) (Ok tt);
                    Ev (CheckGradients loss) (Ok ok)]
                   ++ (if ok then [Ev OptimizerStep (Ok tt)] else [])
                   ++ [Ev ZeroGrad (Ok tt)]))%list.
Proof.
  intros Hnr Hatt.
  assert (HTRAIN : TRAIN <> ATTACK) by discriminate.
  destruct (fit_batch_adversarial batch st) as [st' r] eqn:Hrun.
  unfold fit_batch_adversarial in Hrun.
  rewrite (bind_ok get_self _ st st (self st) eq_refl) in Hrun.
  destruct (auto_mix_prec (self st)) eqn:Hamp.
  - (* mixed precision *)
    step_do_in Hnr Hrun.
    match type of Hrun with
    | context [bind (with_autocast ?body) ?k ?s] =>
        destruct (with_autocast_ok Hnr body s) as (w1 & Hwith);
        cbn [self world log] in Hwith
    end.
    match type of Hwith with
    | forall st2 v, _ ?s1 = _ -> _ =>
        destruct (forward_adversarial_ok Hnr batch TRAIN s1 a HTRAIN Hatt)
          as (b1 & adv_wavs & b2 & outputs & w2 & Efwd);
        cbn [self world log] in Efwd
    end.
    match type of Efwd with
    | _ = (?s2, Ok (?b, _)) =>
        destruct (do_ok Hnr (ComputeObjectives outputs b TRAIN false) s2)
          as ([batch' loss] & w3 & Eloss);
        cbn [self world log] in Eloss
    end.
    edestruct Hwith as (w4 & Ewith).
    { rewrite (bind_ok _ _ _ _ _ Efwd). cbv beta iota. exact Eloss. }
    cbn [self world log] in Ewith.
    rewrite (bind_ok _ _ _ _ _ Ewith) in Hrun. cbv beta iota in Hrun.
    step_do_as Hnr Hrun scaled.
    step_do_in Hnr Hrun.
    step_do_in Hnr Hrun.
    step_do_as Hnr Hrun ok.
    destruct ok.
    + step_do_in Hnr Hrun. step_do_in Hnr Hrun.
      unfold ret in Hrun. inversion Hrun; subst; clear Hrun.
      repeat match goal with u : unit |- _ => destruct u end.
      eexists. exists batch', loss, scaled, true, b1, adv_wavs, b2, outputs.
      split; [reflexivity |]. split; [reflexivity |].
      cbn [log]. repeat rewrite <- List.app_assoc. reflexivity.
    + rewrite (bind_ok (ret tt) _ _ _ tt eq_refl) in Hrun.
      step_do_in Hnr Hrun.
      unfold ret in Hrun. inversion Hrun; subst; clear Hrun.
      repeat match goal with u : unit |- _ => destruct u end.
      eexists. exists batch', loss, scaled, false, b1, adv_wavs, b2, outputs.
      split; [reflexivity |]. split; [reflexivity |].
      cbn [log]. repeat rewrite <- List.app_assoc. reflexivity.
  - (* plain *)
    destruct (forward_adversarial_ok Hnr batch TRAIN st a HTRAIN Hatt)
      as (b1 & adv_wavs & b2 & outputs & w2 & Efwd).
    rewrite (bind_ok _ _ _ _ _ Efwd) in Hrun. cbv beta iota in Hrun.
    step_do_as Hnr Hrun r1. destruct r1 as [batch' loss].
    step_do_in Hnr Hrun.
    step_do_as Hnr Hrun ok.
    destruct ok.
    + step_do_in Hnr Hrun. step_do_in Hnr Hrun.
      unfold ret in Hrun. inversion Hrun; subst; clear Hrun.
      repeat match goal with u : unit |- _ => destruct u end.
      eexists. exists batch', loss, loss, true, b1, adv_wavs, b2, outputs.
      split; [reflexivity |]. split; [reflexivity |].
      cbn [log]. repeat rewrite <- List.app_assoc. reflexivity.
    + rewrite (bind_ok (ret tt) _ _ _ tt eq_refl) in Hrun.
      step_do_in Hnr Hrun.
      unfold ret in Hrun. inversion Hrun; subst; clear Hrun.
      repeat match goal with u : unit |- _ => destruct u end.
      eexists. exists batch', loss, loss, false, b1, adv_wavs, b2, outputs.
      split; [reflexivity |]. split; [reflexivity |].
      cbn [log]. repeat rewrite <- List.app_assoc. reflexivity.
Qed.

(** *** The evaluation loops *)

(** The calls into the framework leave the attributes of the brain
    alone. *)
Lemma do_self {X} (c : call X) (st : state) : self (fst (do c st)) = self st.
Proof. rewrite do_run. reflexivity. Qed.

Lemma bind_self {A B} (c : M state A) (k : A -> M state B) :
  (forall st, self (fst (c st)) = self st) ->
  (forall a st, self (fst (k a st)) = self st) ->
  forall st, self (fst (bind c k st)) = self st.
Proof.
  intros Hc Hk st. unfold bind. specialize (Hc st).
  destruct (c st) as [st1 [a|e]]; cbn [fst] in *.
  - rewrite Hk. exact Hc.
  - exact Hc.
Qed.

Lemma forward_adversarial_self (batch : Batch) (stage : Stage) (st : state) :
  self (fst (compute_forward_adversarial batch stage st)) = self st.
Proof.
  destruct (Stage_eqb stage ATTACK) eqn:Hstage.
  { destruct stage; try discriminate Hstage. reflexivity. }
  assert (Hs : stage <> ATTACK) by (intros ->; discriminate).
  destruct (attacker (self st)) as [[a|]|] eqn:Hatt.
  - rewrite (forward_adversarial_with_attacker batch stage st a Hs Hatt).
    destruct (handle _ (Perturb a batch) (world st)) as [w1 [[b1 adv_wavs]|e]];
      [| reflexivity].
    cbv zeta.
    destruct (handle _ (ComputeForward (set_sig b1 (adv_wavs, snd (sig b1))) stage) w1)
      as [w2 r2]; reflexivity.
  - rewrite (forward_adversarial_None batch stage st Hs Hatt).
    destruct (handle _ (ComputeForward batch stage) (world st)) as [w1 r1];
      reflexivity.
  - rewrite (forward_adversarial_missing batch stage st Hs Hatt). reflexivity.
Qed.

Lemma evaluate_adversarial_self (batch : Batch) (stage : Stage) (st : state) :
  self (fst (evaluate_batch_adversarial batch stage st)) = self st.
Proof.
  unfold evaluate_batch_adversarial.
  apply bind_self; [apply forward_adversarial_self |].
  intros [b out] st1. apply bind_self; [apply do_self |].
  intros [b' loss] st2. reflexivity.
Qed.

Lemma update_average_self (loss : Loss) (avg : Avg) (st : state) :
  self (fst (update_average loss avg st)) = self st.
Proof.
  unfold update_average.
  apply bind_self; [reflexivity |]. intros me st1. apply do_self.
Qed.

(** Two computations that start alike and go on alike from every state
    with the same brain are equal. *)
Lemma bind_cong {A B} (c : M state A) (k1 k2 : A -> M state B) (st : state) :
  (forall s, self (fst (c s)) = self s) ->
  (forall a s', self s' = self st -> k1 a s' = k2 a s') ->
  bind c k1 st = bind c k2 st.
Proof.
  intros Hc Hk. unfold bind. specialize (Hc st).
  destruct (c st) as [s' [a|e]]; cbn [fst] in Hc; [| reflexivity].
  apply Hk. exact Hc.
Qed.

Lemma bind_ext_ok {S A B} (c : M S A) (k1 k2 : A -> M S B) (st : S) :
  (forall a s', c st = (s', Ok a) -> k1 a s' = k2 a s') ->
  bind c k1 st = bind c k2 st.
Proof.
  intros Hk. unfold bind.
  destruct (c st) as [s' [a|e]]; [apply Hk |]; reflexivity.
Qed.

(** [self.step = n], case by case: with an attacker object the store in the
    attacked brain is a call, and the brain itself is assigned when that
    call returned; with [None] as the attacker nothing is assigned; without
    the attribute the brain alone is assigned. *)
Lemma setattr_step_run (n : Z) (st : state) :
  setattr_step n st
  = match attacker (self st) with
    | Some (Some a) =>
        let (w, r) := handle _ (SetattrAttacked a "step" n) (world st) in
        ({| self := match r with
                    | Ok _ => set_step (self st) n
                    | Raise _ => self st
                    end;
            world := w;
            log := (log st ++ [Ev (SetattrAttacked a "step" n) r])%list |},
         match r with Ok _ => Ok tt | Raise e => Raise e end)
    | Some None => (st, Raise (AttributeError "asr_brain"))
    | None =>
        ({| self := set_step (self st) n; world := world st; log := log st |},
         Ok tt)
    end.
Proof.
  unfold setattr_step, bind, get_self, put_self, ret, raise, do.
  destruct (attacker (self st)) as [[a|]|]; try reflexivity.
  destruct (handle _ (SetattrAttacked a "step" n) (world st)) as [w [u|e]];
    reflexivity.
Qed.

Lemma setattr_step_ok (n : Z) (st st' : state) (u : unit) :
  setattr_step n st = (st', Ok u) -> self st' = set_step (self st) n.
Proof.
  rewrite setattr_step_run.
  destruct (attacker (self st)) as [[a|]|].
  - destruct (handle _ (SetattrAttacked a "step" n) (world st)) as [w [u'|e]];
      intros H; inversion H; reflexivity.
  - discriminate.
  - intros H; inversion H; reflexivity.
Qed.

(** With [None] as the attacker the first assignment to the step counter
    raises, as [Attr.assign] does on the heap: no batch is evaluated. *)
Lemma eval_loop_attacker_None (stage : Stage) (batch : Batch) (rest : list Batch)
      (avg_loss avg_adv_loss : Avg) (st : state) :
  attacker (self st) = Some None ->
  eval_loop stage (batch :: rest) avg_loss avg_adv_loss st
  = (st, Raise (AttributeError "asr_brain")).
Proof.
  intros Hatt. cbn [eval_loop].
  rewrite (bind_ok get_self _ st st (self st) eq_refl).
  unfold bind at 1. rewrite setattr_step_run, Hatt. reflexivity.
Qed.

Lemma processed_succ (me : brain) (n : nat) :
  processed me (S n)
  = S (if debug me && (step me + 1 =? debug_batches me)
       then 0
       else processed (set_step me (step me + 1)) n).
Proof.
  unfold processed, set_step. cbn [step debug debug_batches].
  destruct (debug me); cbn [andb]; [| reflexivity].
  destruct (Z.eqb_spec (step me + 1) (debug_batches me)) as [Heq | Hne].
  - replace (step me <? debug_batches me) with true by (symmetry; apply Z.ltb_lt; lia).
    replace (debug_batches me - step me <=? Z.of_nat (S n)) with true
      by (symmetry; apply Z.leb_le; lia).
    cbn [andb]. replace (debug_batches me - step me) with 1 by lia. reflexivity.
  - destruct (Z.ltb_spec (step me) (debug_batches me)) as [Hlt | Hge]; cbn [andb].
    + replace (step me + 1 <? debug_batches me) with true
        by (symmetry; apply Z.ltb_lt; lia).
      cbn [andb].
      destruct (Z.leb_spec (debug_batches me - step me) (Z.of_nat (S n))) as [Hle | Hgt].
      * replace (debug_batches me - (step me + 1) <=? Z.of_nat n) with true
          by (symmetry; apply Z.leb_le; lia).
        lia.
      * replace (debug_batches me - (step me + 1) <=? Z.of_nat n) with false
          by (symmetry; apply Z.leb_gt; lia).
        reflexivity.
    + replace (step me + 1 <? debug_batches me) with false
        by (symmetry; apply Z.ltb_ge; lia).
      reflexivity.
Qed.

(** The loop with its cutoff is the loop of the specification on the
    batches before the cutoff. *)
Lemma eval_loop_cutoff (stage : Stage) (batches : list Batch)
      (avg_loss avg_adv_loss : Avg) (st : state) :
  eval_loop stage batches avg_loss avg_adv_loss st
  = spec_eval_twice stage
      (List.firstn (processed (self st) (List.length batches)) batches)
      avg_loss avg_adv_loss st.
Proof.
  revert avg_loss avg_adv_loss st.
  induction batches as [|batch rest IH]; intros avg_loss avg_adv_loss st.
  - cbn [List.length]. destruct (processed (self st) 0); reflexivity.
  - cbn [List.length]. rewrite processed_succ.
    cbn [List.firstn eval_loop spec_eval_twice].
    rewrite !(bind_ok get_self _ st st (self st) eq_refl).
    apply bind_ext_ok. intros u st1 Hme. apply setattr_step_ok in Hme.
    set (me := set_step (self st) (step (self st) + 1)) in Hme.
    apply bind_cong; [intros; apply do_self |].
    intros [b loss] st2 H2.
    apply bind_cong; [intros; apply update_average_self |].
    intros avg' st3 H3.
    apply bind_cong; [intros; apply evaluate_adversarial_self |].
    intros [b' adv_loss] st4 H4.
    apply bind_cong; [intros; apply update_average_self |].
    intros adv' st5 H5.
    rewrite (bind_ok get_self _ st5 st5 (self st5) eq_refl).
    assert (Hself : self st5 = me) by congruence.
    rewrite Hself. subst me. cbn [set_step step debug debug_batches].
    destruct (debug (self st) && (step (self st) + 1 =? debug_batches (self st))).
    + reflexivity.
    + rewrite IH. rewrite Hself. reflexivity.
Qed.

Lemma update_average_ok (Hnr : never_raises) (loss : Loss) (avg : Avg) (st : state) :
  exists (avg' : Avg) (w : World),
    update_average loss avg st
    = ({| self := self st; world := w;
          log := (log st ++ [Ev (UpdateAverage (step (self st)) loss avg) (Ok avg')])%list |},
       Ok avg').
Proof.
  unfold update_average.
  rewrite (bind_ok get_self _ st st (self st) eq_refl).
  apply (do_ok Hnr).
Qed.

Lemma evaluate_adversarial_ok (Hnr : never_raises)
      (batch : Batch) (stage : Stage) (st : state) (a : Attacker) :
  stage <> ATTACK ->
  attacker (self st) = Some (Some a) ->
  exists (b1 : Batch) (adv_wavs : Wav) (b2 : Batch) (out : Pred)
         (batch' : Batch) (loss : Loss) (w : World),
    evaluate_batch_adversarial batch stage st
    = ({| self := self st; world := w;
          log := (log st
                  ++ [Ev (Perturb a batch) (Ok (b1, adv_wavs));
                      Ev (ComputeForward (set_sig b1 (adv_wavs, snd (sig b1))) stage)
                         (Ok (b2, out));
                      Ev (ComputeObjectives
                            out (set_sig b2 (fst (sig batch), snd (sig b2))) stage true)
                         (Ok (batch', loss))])%list |},
       Ok (batch', detach_cpu loss)).
Proof.
  intros Hstage Hatt. unfold evaluate_batch_adversarial.
  destruct (forward_and_loss_ok Hnr batch stage true st a
              (fun r => let '(batch, loss) := r in ret (batch, detach_cpu loss))
              Hstage Hatt)
    as (b1 & adv_wavs & b2 & out & batch' & loss & w & E).
  exists b1, adv_wavs, b2, out, batch', loss, w. exact E.
Qed.

Lemma setattr_step_returns (Hnr : never_raises) (n : Z) (st : state) (a : Attacker) :
  attacker (self st) = Some (Some a) ->
  exists w : World,
    setattr_step n st
    = ({| self := set_step (self st) n; world := w;
          log := (log st ++ [Ev (SetattrAttacked a "step" n) (Ok tt)])%list |},
       Ok tt).
Proof.
  intros Hatt. rewrite setattr_step_run, Hatt.
  pose proof (Hnr _ (SetattrAttacked a "step" n) (world st)) as Hok.
  destruct (handle _ (SetattrAttacked a "step" n) (world st)) as [w [[]|e]];
    [| discriminate].
  exists w. reflexivity.
Qed.

(** With an attacker and calls that return, the loop without cutoff
    returns, and the calls it made are those of a stage that evaluates
    every batch twice. *)
Lemma spec_eval_twice_calls (Hnr : never_raises) (stage : Stage) (a : Attacker)
      (batches : list Batch) (avg_loss avg_adv_loss : Avg) (st : state) :
  stage <> ATTACK ->
  attacker (self st) = Some (Some a) ->
  exists (st' : state) (avgs : Avg * Avg) (tr : list event),
    spec_eval_twice stage batches avg_loss avg_adv_loss st = (st', Ok avgs)
    /\ log st' = (log st ++ tr)%list
    /\ attacker (self st') = Some (Some a)
    /\ evaluated_twice stage a (step (self st)) (avg_loss, avg_adv_loss)
                       batches tr avgs.
Proof.
  intros Hstage. revert avg_loss avg_adv_loss st.
  induction batches as [|batch rest IH]; intros avg_loss avg_adv_loss st Hatt.
  - exists st, (avg_loss, avg_adv_loss), [].
    rewrite List.app_nil_r. repeat split; try reflexivity; [exact Hatt |].
    constructor.
  - destruct (spec_eval_twice stage (batch :: rest) avg_loss avg_adv_loss st)
      as [st' r] eqn:Hrun.
    cbn [spec_eval_twice] in Hrun.
    rewrite (bind_ok get_self _ st st (self st) eq_refl) in Hrun.
    destruct (setattr_step_returns Hnr (step (self st) + 1) st a Hatt) as (w0 & E0).
    rewrite (bind_ok _ _ _ _ _ E0) in Hrun. clear E0.
    step_do_as Hnr Hrun r1. destruct r1 as [b loss]. cbv beta iota in Hrun.
    match type of Hrun with
    | context [bind (update_average ?l ?v) ?k ?s] =>
        destruct (update_average_ok Hnr l v s) as (avg' & w1 & E1);
        rewrite (bind_ok _ k s _ avg' E1) in Hrun; clear E1;
        cbn [self world log] in Hrun
    end.
    match type of Hrun with
    | context [bind (evaluate_batch_adversarial b stage) ?k ?s] =>
        destruct (evaluate_adversarial_ok Hnr b stage s a Hstage Hatt)
          as (b1 & adv_wavs & b2 & out & b' & adv_loss & w2 & E2);
        rewrite (bind_ok _ k s _ _ E2) in Hrun; clear E2;
        cbn [self world log] in Hrun
    end.
    cbv beta iota in Hrun.
    match type of Hrun with
    | context [bind (update_average ?l ?v) ?k ?s] =>
        destruct (update_average_ok Hnr l v s) as (adv' & w3 & E3);
        rewrite (bind_ok _ k s _ adv' E3) in Hrun; clear E3;
        cbn [self world log] in Hrun
    end.
    match type of Hrun with
    | spec_eval_twice _ _ _ _ ?s = _ =>
        destruct (IH avg' adv' s Hatt)
          as (st'' & avgs & tr & Erest & Hlog & Hatt' & Htwice)
    end.
    rewrite Erest in Hrun. inversion Hrun; subst st' r; clear Hrun.
    cbn [self log set_step step] in Hlog, Htwice.
    eexists st'', avgs, _. split; [reflexivity |].
    split.
    { rewrite Hlog. repeat rewrite <- List.app_assoc. reflexivity. }
    split; [exact Hatt' |].
    apply twice_batch. exact Htwice.
Qed.

Lemma bind_ext {S A B} (c1 c2 : M S A) (k1 k2 : A -> M S B) (st : S) :
  c1 st = c2 st ->
  (forall a s', k1 a s' = k2 a s') -> bind c1 k1 st = bind c2 k2 st.
Proof.
  intros Hc Hk. unfold bind. rewrite Hc.
  destruct (c2 st) as [s' [a|e]]; [apply Hk | reflexivity].
Qed.

Lemma fit_validation_spec (epoch : Z) (valid_set : list Batch) (st : state) :
  fit_validation epoch valid_set st = spec_fit_validation epoch valid_set st.
Proof.
  unfold fit_validation, spec_fit_validation.
  apply bind_ext; [reflexivity |]. intros _ s1.
  apply bind_ext; [reflexivity |]. intros _ s2.
  rewrite (bind_ok get_self _ s2 s2 (self s2) eq_refl).
  apply bind_ext; [apply eval_loop_cutoff |].
  intros [avg adv] s3. reflexivity.
Qed.

Lemma evaluate_spec (test_set : list Batch) (max_key min_key : option string)
      (st : state) :
  evaluate test_set max_key min_key st = spec_evaluate test_set max_key min_key st.
Proof.
  unfold evaluate, spec_evaluate.
  apply bind_ext; [reflexivity |]. intros _ s1.
  apply bind_ext; [reflexivity |]. intros _ s2.
  apply bind_ext; [reflexivity |]. intros _ s3.
  rewrite (bind_ok get_self _ s3 s3 (self s3) eq_refl).
  apply bind_ext; [apply eval_loop_cutoff |].
  intros [avg adv] s4. reflexivity.
Qed.

Lemma fit_validation_calls (Hnr : never_raises) (a : Attacker) (epoch : Z)
      (valid_set : list Batch) (st : state) :
  attacker (self st) = Some (Some a) ->
  exists (st' : state) (tr : list event) (avg adv : Avg),
    fit_validation epoch valid_set st = (st', Ok tt)
    /\ evaluated_twice VALID a (step (self st)) (zero, zero)
         (List.firstn (processed (self st) (List.length valid_set)) valid_set)
         tr (avg, adv)
    /\ log st'
       = (log st
          ++ [Ev (OnStageStart VALID (Some epoch)) (Ok tt); Ev ModulesEval (Ok tt)]
          ++ tr
          ++ [Ev (SetattrAttacked a "step" 0) (Ok tt);
              Ev (RunOnMainOnStageEnd VALID avg (Some epoch) adv) (Ok tt)])%list.
Proof.
  intros Hatt. rewrite fit_validation_spec.
  destruct (spec_fit_validation epoch valid_set st) as [st' r] eqn:Hrun.
  unfold spec_fit_validation in Hrun.
  step_do_in Hnr Hrun. step_do_in Hnr Hrun.
  match type of Hrun with
  | bind get_self ?k ?s = _ =>
      rewrite (bind_ok get_self k s s (self s) eq_refl) in Hrun;
      cbn [self] in Hrun
  end.
  match type of Hrun with
  | bind (spec_eval_twice VALID ?l zero zero) ?k ?s = _ =>
      destruct (spec_eval_twice_calls Hnr VALID a l zero zero s
                  ltac:(discriminate) Hatt)
        as (st2 & [avg adv] & tr & Erun & Hlog & Hatt2 & Htwice);
      rewrite (bind_ok _ k s _ _ Erun) in Hrun; clear Erun
  end.
  cbn [self log fst snd] in Hlog, Hrun, Htwice.
  destruct (setattr_step_returns Hnr 0 st2 a Hatt2) as (w2 & E2).
  rewrite (bind_ok _ _ _ _ _ E2) in Hrun. clear E2.
  rewrite do_run in Hrun. cbn [self world log] in Hrun.
  pose proof (Hnr _ (RunOnMainOnStageEnd VALID avg (Some epoch) adv) w2) as Hend.
  destruct (handle _ (RunOnMainOnStageEnd VALID avg (Some epoch) adv) w2)
    as [w3 [[]|e]]; [| discriminate].
  cbn [fst snd] in Hrun. inversion Hrun; subst st' r; clear Hrun.
  repeat match goal with u : unit |- _ => destruct u end.
  eexists _, tr, avg, adv.
  split; [reflexivity |]. split; [exact Htwice |].
  cbn [log]. rewrite Hlog. repeat rewrite <- List.app_assoc. reflexivity.
Qed.

Lemma evaluate_calls (Hnr : never_raises) (a : Attacker)
      (test_set : list Batch) (max_key min_key : option string) (st : state) :
  attacker (self st) = Some (Some a) ->
  exists (st' : state) (tr : list event) (avg adv : Avg),
    evaluate test_set max_key min_key st = (st', Ok avg)
    /\ evaluated_twice TEST a (step (self st)) (zero, zero)
         (List.firstn (processed (self st) (List.length test_set)) test_set)
         tr (avg, adv)
    /\ log st'
       = (log st
          ++ [Ev (OnEvaluateStart max_key min_key) (Ok tt);
              Ev (OnStageStart TEST None) (Ok tt); Ev ModulesEval (Ok tt)]
          ++ tr
          ++ [Ev (RunOnMainOnStageEnd TEST avg None adv) (Ok tt);
              Ev (SetattrAttacked a "step" 0) (Ok tt)])%list.
Proof.
  intros Hatt. rewrite evaluate_spec.
  destruct (spec_evaluate test_set max_key min_key st) as [st' r] eqn:Hrun.
  unfold spec_evaluate in Hrun.
  step_do_in Hnr Hrun. step_do_in Hnr Hrun. step_do_in Hnr Hrun.
  match type of Hrun with
  | bind get_self ?k ?s = _ =>
      rewrite (bind_ok get_self k s s (self s) eq_refl) in Hrun;
      cbn [self] in Hrun
  end.
  match type of Hrun with
  | bind (spec_eval_twice TEST ?l zero zero) ?k ?s = _ =>
      destruct (spec_eval_twice_calls Hnr TEST a l zero zero s
                  ltac:(discriminate) Hatt)
        as (st2 & [avg adv] & tr & Erun & Hlog & Hatt2 & Htwice);
      rewrite (bind_ok _ k s _ _ Erun) in Hrun; clear Erun
  end.
  cbn [self log fst snd] in Hlog, Hrun, Htwice.
  step_do_in Hnr Hrun.
  match type of Hrun with
  | bind (setattr_step 0) ?k ?s = _ =>
      destruct (setattr_step_returns Hnr 0 s a Hatt2) as (w3 & E3);
      rewrite (bind_ok _ k s _ _ E3) in Hrun; clear E3
  end.
  unfold ret in Hrun. inversion Hrun; subst st' r; clear Hrun.
  repeat match goal with u : unit |- _ => destruct u end.
  eexists _, tr, avg, adv.
  split; [reflexivity |]. split; [exact Htwice |].
  cbn [log]. rewrite Hlog. repeat rewrite <- List.app_assoc. reflexivity.
Qed.

(** C4. With an attacker set and a framework whose calls return, the
    validation stage of [fit] and [evaluate] return, and their calls are,
    in this order: the start of the stage; for every batch up to the debug
    cutoff, the clean evaluation by [evaluate_batch] on the batch as the
    loader gives it, whose loss enters the clean average, and then the
    adversarial evaluation, whose forward pass runs on the waveform the
    attacker returned and whose loss, computed with [adv=True], enters the
    adversarial average; and [on_stage_end] with the two averages so
    obtained. [evaluate] returns the clean average. *)
Theorem evaluation_loops_evaluate_twice :
  never_raises ->
  forall (a : Attacker) (st : state),
    attacker (self st) = Some (Some a) ->
    (forall (epoch : Z) (valid_set : list Batch),
        exists (st' : state) (tr : list event) (avg adv : Avg),
          fit_validation epoch valid_set st = (st', Ok tt)
          /\ evaluated_twice VALID a (step (self st)) (zero, zero)
               (List.firstn (processed (self st) (List.length valid_set)) valid_set)
               tr (avg, adv)
          /\ log st'
             = (log st
                ++ [Ev (OnStageStart VALID (Some epoch)) (Ok tt);
                    Ev ModulesEval (Ok tt)]
                ++ tr
                ++ [Ev (SetattrAttacked a "step" 0) (Ok tt);
                    Ev (RunOnMainOnStageEnd VALID avg (Some epoch) adv) (Ok tt)])%list)
    /\ (forall (test_set : list Batch) (max_key min_key : option string),
          exists (st' : state) (tr : list event) (avg adv : Avg),
            evaluate test_set max_key min_key st = (st', Ok avg)
            /\ evaluated_twice TEST a (step (self st)) (zero, zero)
                 (List.firstn (processed (self st) (List.length test_set)) test_set)
                 tr (avg, adv)
            /\ log st'
               = (log st
                  ++ [Ev (OnEvaluateStart max_key min_key) (Ok tt);
                      Ev (OnStageStart TEST None) (Ok tt); Ev ModulesEval (Ok tt)]
                  ++ tr
                  ++ [Ev (RunOnMainOnStageEnd TEST avg None adv) (Ok tt);
                      Ev (SetattrAttacked a "step" 0) (Ok tt)])%list).
Proof.
  intros Hnr a st Hatt. split.
  - intros epoch valid_set. exact (fit_validation_calls Hnr a epoch valid_set st Hatt).
  - intros test_set max_key min_key.
    exact (evaluate_calls Hnr a test_set max_key min_key st Hatt).
Qed.

End BrainFacts.

(** *** The framework of the demonstration *)

#[local] Existing Instance Demo.int_types.
#[local] Existing Instance Demo.int_framework.

Lemma demo_never_raises : @Brain.never_raises Demo.int_types Demo.int_framework.
Proof. intros X c w. destruct c; reflexivity. Qed.

(** The witness of C2: the attribute [attacker] is [None]. *)
Lemma forward_adversarial_without_attacker_witness :
  @Brain.compute_forward_adversarial Demo.int_types Demo.int_framework
     (Demo.a_batch 10) VALID (Demo.a_state (Some None) false)
  = ({| Brain.self := Demo.a_brain (Some None) false;
        Brain.world := 1%nat;
        Brain.log :=
          [Brain.Ev (Brain.ComputeForward (Demo.a_batch 10) VALID)
                    (Ok (Demo.batch_of 10 2, 10))] |},
     Raise (UnboundLocalError "adv_wavs")).
Proof.
  apply (proj1 (proj2 (@forward_adversarial_without_attacker
                         Demo.int_types Demo.int_framework
                         (Demo.a_batch 10) VALID (Demo.a_state (Some None) false)
                         ltac:(discriminate)))
               eq_refl).
Defined.

(** An attacker that writes into a new tensor changes no tensor in place. *)
Lemma ref_new_tensor_not_in_place (t : nat) :
  @Brain.not_changed_in_place Demo.ref_types (Demo.ref_framework false)
     Demo.ref_tensors t.
Proof.
  split.
  - intros a b w d Hd. cbn in *.
    match goal with
    | |- context [match ?x with Some _ => _ | None => _ end] => destruct x
    end; cbn; [| exact Hd].
    apply lookup_app_l_Some. exact Hd.
  - intros b stage w d Hd. exact Hd.
Qed.

(** The witness of C3: the memory holds one tensor with the data 10, the
    waveform of the batch; the attacker puts 15 in a new tensor; on return
    the batch has its tensor again and the tensor holds 10. *)
Lemma adversarial_forward_restores_waveform_witness :
  fst (@Brain.sig Demo.ref_types (Demo.ref_batch 0)) = 0%nat
  /\ @Brain.wav_data Demo.ref_types Demo.ref_tensors [10; 15] 0%nat = Some 10.
Proof.
  split.
  - apply (proj1 (@adversarial_forward_restores_waveform
                    Demo.ref_types (Demo.ref_framework false) Demo.ref_tensors
                    (Demo.ref_batch 0) VALID (Demo.ref_state 5 [10])
                    (fst (@Brain.compute_forward_adversarial
                            Demo.ref_types (Demo.ref_framework false)
                            (Demo.ref_batch 0) VALID (Demo.ref_state 5 [10])))
                    (Demo.ref_batch 0) 15 eq_refl)).
  - apply (proj2 (@adversarial_forward_restores_waveform
                    Demo.ref_types (Demo.ref_framework false) Demo.ref_tensors
                    (Demo.ref_batch 0) VALID (Demo.ref_state 5 [10])
                    (fst (@Brain.compute_forward_adversarial
                            Demo.ref_types (Demo.ref_framework false)
                            (Demo.ref_batch 0) VALID (Demo.ref_state 5 [10])))
                    (Demo.ref_batch 0) 15 eq_refl)
                 (ref_new_tensor_not_in_place 0) 10 eq_refl).
Defined.

(** C3 as stated fails for an attacker that perturbs in place: the memory
    holds one tensor with the data 10, the waveform of the batch; the
    attacker adds 5 to that tensor and returns it. The call returns
    normally, the batch has its tensor again, and the tensor holds 15: the
    perturbation persists in the batch. *)
Lemma adversarial_forward_in_place_attacker :
  exists (st' : @Brain.state Demo.ref_types)
         (batch' : @Brain.Batch Demo.ref_types) (res : Z),
    @Brain.compute_forward_adversarial Demo.ref_types (Demo.ref_framework true)
       (Demo.ref_batch 0) VALID (Demo.ref_state 5 [10])
    = (st', Ok (batch', res))
    /\ @Brain.wav_data Demo.ref_types Demo.ref_tensors
         (Brain.world (Demo.ref_state 5 [10])) (fst (Brain.sig (Demo.ref_batch 0)))
       = Some 10
    /\ @Brain.wav_data Demo.ref_types Demo.ref_tensors
         (Brain.world st') (fst (Brain.sig batch'))
       = Some 15
    /\ @Brain.wav_data Demo.ref_types Demo.ref_tensors
         (Brain.world st') (fst (Brain.sig batch'))
       <> @Brain.wav_data Demo.ref_types Demo.ref_tensors
            (Brain.world (Demo.ref_state 5 [10])) (fst (Brain.sig (Demo.ref_batch 0))).
Proof.
  exists (fst (@Brain.compute_forward_adversarial
                 Demo.ref_types (Demo.ref_framework true)
                 (Demo.ref_batch 0) VALID (Demo.ref_state 5 [10]))),
         (Demo.ref_batch 0), 15.
  split; [vm_compute; reflexivity |].
  split; [reflexivity |]. split; [reflexivity |]. discriminate.
Qed.

(** The witness of C4: three test batches in debug mode with a cutoff at
    two. *)
Lemma evaluation_loops_evaluate_twice_witness :
  exists (st' : Brain.state) (tr : list Brain.event) (avg adv : Z),
    @Brain.evaluate Demo.int_types Demo.int_framework
       [Demo.a_batch 10; Demo.a_batch 20; Demo.a_batch 30] None None
       (Demo.a_state (Some (Some 5)) true)
    = (st', Ok avg)
    /\ @Brain.evaluated_twice Demo.int_types Demo.int_framework TEST 5 0 (0, 0)
         [Demo.a_batch 10; Demo.a_batch 20] tr (avg, adv)
    /\ Brain.log st'
       = ([] ++ [Brain.Ev (Brain.OnEvaluateStart None None) (Ok tt);
                 Brain.Ev (Brain.OnStageStart TEST None) (Ok tt);
                 Brain.Ev Brain.ModulesEval (Ok tt)]
          ++ tr
          ++ [Brain.Ev (Brain.RunOnMainOnStageEnd TEST avg None adv) (Ok tt);
              Brain.Ev (Brain.SetattrAttacked 5 "step" 0) (Ok tt)])%list.
Proof.
  apply (proj2 (@evaluation_loops_evaluate_twice Demo.int_types Demo.int_framework
                  demo_never_raises 5 (Demo.a_state (Some (Some 5)) true) eq_refl)
               [Demo.a_batch 10; Demo.a_batch 20; Demo.a_batch 30] None None).
Defined.

(** The witness of C5: one training batch, without mixed precision. *)
Lemma fit_batch_adversarial_steps_witness :
  exists (st' : Brain.state) (batch' : Brain.Batch) (loss scaled : Z) (ok : bool)
         (b1 : Brain.Batch) (adv_wavs : Z) (b2 : Brain.Batch) (outputs : Z),
    @Brain.fit_batch_adversarial Demo.int_types Demo.int_framework
       (Demo.a_batch 10) (Demo.a_state (Some (Some 5)) false)
    = (st', Ok (batch', loss))
    /\ Brain.self st' = Demo.a_brain (Some (Some 5)) false
    /\ Brain.log st'
       = ([Brain.Ev (Brain.Perturb 5 (Demo.a_batch 10)) (Ok (b1, adv_wavs));
          Brain.Ev (Brain.ComputeForward
                      (Brain.set_sig b1 (adv_wavs, snd (Brain.sig b1))) TRAIN)
                   (Ok (b2, outputs));
          Brain.Ev (Brain.ComputeObjectives
                      outputs (Brain.set_sig b2 (10, snd (Brain.sig b2))) TRAIN false)
                   (Ok (batch', loss));
          Brain.Ev (Brain.Backward loss) (Ok tt);
          Brain.Ev (Brain.CheckGradients loss) (Ok ok)]
         ++ (if ok then [Brain.Ev Brain.OptimizerStep (Ok tt)] else [])
         ++ [Brain.Ev Brain.ZeroGrad (Ok tt)])%list.
Proof.
  apply (@fit_batch_adversarial_steps Demo.int_types Demo.int_framework
           (Demo.a_batch 10) (Demo.a_state (Some (Some 5)) false) 5
           demo_never_raises eq_refl).
Defined.

(* ===================================================================== *)
(** * Part III: further properties of the code *)
(* ===================================================================== *)

(** ** write_result.py: the alignment lines *)

Lemma length_join_pointwise {A} (sep : string) (f g : A -> string) (l : list A) :
  (forall x, String.length (f x) = String.length (g x)) ->
  String.length (WriteResult.join sep (List.map f l))
  = String.length (WriteResult.join sep (List.map g l)).
Proof.
  intros Hfg. unfold WriteResult.join.
  induction l as [|x l IH]; [reflexivity |].
  destruct l as [|y l].
  - cbn [List.map String.concat]. apply Hfg.
  - cbn [List.map String.concat] in *.
    rewrite !length_append, IH, Hfg. reflexivity.
Qed.

Lemma cells_same_width (a b : list string) (empty_symbol : string)
      (e : WriteResult.align_entry) :
  String.length (WriteResult.ref_cell a b empty_symbol e)
  = String.length (WriteResult.op_cell a b empty_symbol e)
  /\ String.length (WriteResult.op_cell a b empty_symbol e)
     = String.length (WriteResult.hyp_cell a b empty_symbol e).
Proof.
  destruct e as [[op i] j].
  unfold WriteResult.ref_cell, WriteResult.op_cell, WriteResult.hyp_cell,
    WriteResult.column_width. cbn [fst snd].
  rewrite !length_center. lia.
Qed.

(** X1. When every index of the alignment selects a token,
    [_print_alignment] writes three lines of the same length: the columns of
    the reference, the operations and the hypothesis line up. *)
Theorem alignment_lines_equal_length
        (alignment : list WriteResult.align_entry) (a b : list string)
        (empty_symbol separator : string) (file : WriteResult.stream) :
  forallb (fun e : WriteResult.align_entry =>
             WriteResult.in_range a (snd (fst e))
             && WriteResult.in_range b (snd e)) alignment = true ->
  exists ref_line op_line hyp_line : string,
    WriteResult._print_alignment alignment a b empty_symbol separator file
    = (file ++ ref_line ++ WriteResult.nl ++ op_line ++ WriteResult.nl
            ++ hyp_line ++ WriteResult.nl, Ok tt)
    /\ String.length ref_line = String.length op_line
    /\ String.length op_line = String.length hyp_line.
Proof.
  intros Hall.
  exists (WriteResult.join separator
            (List.map (WriteResult.ref_cell a b empty_symbol) alignment)),
         (WriteResult.join separator
            (List.map (WriteResult.op_cell a b empty_symbol) alignment)),
         (WriteResult.join separator
            (List.map (WriteResult.hyp_cell a b empty_symbol) alignment)).
  split.
  - rewrite (print_alignment_lines alignment a b empty_symbol separator file Hall).
    unfold WriteResult.spec_alignment_lines. rewrite ?append_assoc. reflexivity.
  - split; apply length_join_pointwise; intros e;
      apply (cells_same_width a b empty_symbol e).
Qed.

Lemma alignment_lines_equal_length_witness :
  exists ref_line op_line hyp_line : string,
    WriteResult._print_alignment
      [("=", Some 0, Some 0); ("I", None, Some 1)] ["go"] ["go"; "on"]
      "<eps>" " ; " ""
    = ("" ++ ref_line ++ WriteResult.nl ++ op_line ++ WriteResult.nl
          ++ hyp_line ++ WriteResult.nl, Ok tt)
    /\ String.length ref_line = String.length op_line
    /\ String.length op_line = String.length hyp_line.
Proof.
  apply (alignment_lines_equal_length
           [("=", Some 0, Some 0); ("I", None, Some 1)] ["go"] ["go"; "on"]
           "<eps>" " ; " "").
  reflexivity.
Defined.

Lemma py_index_raises {A} (l : list A) (i : Z) (e : exn) :
  py_index l i = Raise e -> e = IndexError.
Proof.
  unfold py_index.
  destruct ((0 <=? (if i <? 0 then i + Z.of_nat (List.length l) else i))
            && ((if i <? 0 then i + Z.of_nat (List.length l) else i)
                <? Z.of_nat (List.length l))).
  - destruct (l !! Z.to_nat (if i <? 0 then i + Z.of_nat (List.length l) else i));
      intros H; [discriminate | now inversion H].
  - intros H. now inversion H.
Qed.

Lemma pad_entry_out_of_range (a b : list string) (empty_symbol : string)
      (e : WriteResult.align_entry) :
  WriteResult.in_range a (snd (fst e)) && WriteResult.in_range b (snd e) = false ->
  WriteResult.pad_entry a b empty_symbol e = Raise IndexError.
Proof.
  destruct e as [[op i] j]. cbn [fst snd]. intros H.
  unfold WriteResult.pad_entry.
  destruct i as [i|]; cbn [WriteResult.in_range] in H.
  - destruct (py_index a i) as [x|err] eqn:Ha; cbn [is_ok andb rbind] in *.
    + destruct j as [j|]; cbn [WriteResult.in_range] in H; [| discriminate].
      destruct (py_index b j) as [y|err] eqn:Hb; cbn [is_ok rbind] in *;
        [discriminate |].
      now rewrite (py_index_raises b j err Hb).
    + now rewrite (py_index_raises a i err Ha).
  - cbn [andb rbind] in *.
    destruct j as [j|]; cbn [WriteResult.in_range] in H; [| discriminate].
    destruct (py_index b j) as [y|err] eqn:Hb; cbn [is_ok rbind] in *;
      [discriminate |].
    now rewrite (py_index_raises b j err Hb).
Qed.

Lemma pad_loop_out_of_range (alignment : list WriteResult.align_entry)
      (a b : list string) (empty_symbol : string)
      (a_padded b_padded ops_padded : list string) :
  forallb (fun e : WriteResult.align_entry =>
             WriteResult.in_range a (snd (fst e))
             && WriteResult.in_range b (snd e)) alignment = false ->
  WriteResult.pad_loop alignment a b empty_symbol a_padded b_padded ops_padded
  = Raise IndexError.
Proof.
  revert a_padded b_padded ops_padded.
  induction alignment as [|e rest IH]; intros a_padded b_padded ops_padded Hbad.
  - discriminate.
  - cbn [forallb] in Hbad. cbn [WriteResult.pad_loop].
    destruct (WriteResult.in_range a (snd (fst e))
              && WriteResult.in_range b (snd e)) eqn:He.
    + rewrite (pad_entry_cells a b empty_symbol e He). cbn [rbind].
      apply IH. exact Hbad.
    + now rewrite (pad_entry_out_of_range a b empty_symbol e He).
Qed.

(** X2. When some index of the alignment selects no token,
    [_print_alignment] raises [IndexError] and writes nothing: no line of
    the block reaches the file. *)
Theorem alignment_index_error_writes_nothing
        (alignment : list WriteResult.align_entry) (a b : list string)
        (empty_symbol separator : string) (file : WriteResult.stream) :
  forallb (fun e : WriteResult.align_entry =>
             WriteResult.in_range a (snd (fst e))
             && WriteResult.in_range b (snd e)) alignment = false ->
  WriteResult._print_alignment alignment a b empty_symbol separator file
  = (file, Raise IndexError).
Proof.
  intros Hbad. unfold WriteResult._print_alignment.
  rewrite (pad_loop_out_of_range alignment a b empty_symbol [] [] [] Hbad).
  reflexivity.
Qed.

Lemma alignment_index_error_writes_nothing_witness :
  WriteResult._print_alignment
    [("=", Some 0, Some 0); ("S", Some 1, Some 1)] ["go"] ["go"; "on"]
    "<eps>" " ; " "kept"
  = ("kept", Raise IndexError).
Proof.
  apply (alignment_index_error_writes_nothing
           [("=", Some 0, Some 0); ("S", Some 1, Some 1)] ["go"] ["go"; "on"]
           "<eps>" " ; " "kept").
  reflexivity.
Defined.

(** ** write_result.py: print_alignments and its header *)

Section AlignmentsMore.
Context {F : Type} {fops : FloatOps F}.
Import WriteResult.

Lemma mod_opp_zero (index total_iters : Z) :
  (index mod (- total_iters) =? 0) = (index mod total_iters =? 0).
Proof.
  destruct (Z.eq_dec total_iters 0) as [-> | Hnz]; [reflexivity |].
  assert (Hneg : - total_iters <> 0) by lia.
  destruct (Z.eqb_spec (index mod (- total_iters)) 0) as [H1 | H1];
    destruct (Z.eqb_spec (index mod total_iters) 0) as [H2 | H2];
    try reflexivity; exfalso.
  - apply H2. apply (proj2 (Z.mod_divide index total_iters Hnz)).
    apply (proj1 (Z.divide_opp_l total_iters index)).
    exact (proj1 (Z.mod_divide index (- total_iters) Hneg) H1).
  - apply H1. apply (proj2 (Z.mod_divide index (- total_iters) Hneg)).
    apply (proj2 (Z.divide_opp_l total_iters index)).
    exact (proj1 (Z.mod_divide index total_iters Hnz) H2).
Qed.

Lemma print_alignments_from_sign (index : Z) (details_by_utterance : list (utt_details F))
      (empty_symbol separator : string) (print_header : bool)
      (sample_separator : option string) (total_iters : Z) (file : stream) :
  print_alignments_from index details_by_utterance empty_symbol separator
                        print_header sample_separator (- total_iters) file
  = print_alignments_from index details_by_utterance empty_symbol separator
                          print_header sample_separator total_iters file.
Proof.
  revert index file.
  induction details_by_utterance as [|dets rest IH]; intros index file.
  - reflexivity.
  - cbn [print_alignments_from].
    rewrite mod_opp_zero.
    replace (- total_iters =? 0) with (total_iters =? 0)
      by (destruct (Z.eqb_spec total_iters 0), (Z.eqb_spec (- total_iters) 0);
          try reflexivity; lia).
    apply bind_ext; [reflexivity |]. intros _ s'. apply IH.
Qed.

(** X3. The sign of [total_iters] does not matter: [print_alignments]
    does with [-total_iters] exactly what it does with [total_iters],
    because the test is on the remainder being zero. *)
Theorem print_alignments_sign
        (details_by_utterance : list (utt_details F))
        (empty_symbol separator : string) (print_header : bool)
        (sample_separator : option string) (total_iters : Z) (file : stream) :
  print_alignments details_by_utterance empty_symbol separator print_header
                   sample_separator (- total_iters) file
  = print_alignments details_by_utterance empty_symbol separator print_header
                     sample_separator total_iters file.
Proof. apply print_alignments_from_sign. Qed.

Lemma selected_every_scored (index : Z) (details_by_utterance : list (utt_details F)) :
  spec_selected_from index 1 details_by_utterance
  = List.filter scored details_by_utterance.
Proof.
  revert index. induction details_by_utterance as [|dets rest IH]; intros index.
  - reflexivity.
  - cbn [spec_selected_from List.filter]. rewrite IH.
    unfold is_multiple. rewrite Z.mod_1_r.
    replace ((index =? 0) || negb (1 =? 0) && (0 =? 0)) with true
      by (destruct (index =? 0); reflexivity).
    cbn [andb]. destruct (scored dets); reflexivity.
Qed.

(** X4. With [total_iters = 1], its default, [print_alignments] writes the
    block of every scored utterance, in the order of the list, and nothing
    for an utterance that is not scored. *)
Theorem print_alignments_every_scored
        (details_by_utterance : list (utt_details F))
        (empty_symbol separator : string) (print_header : bool)
        (sample_separator : option string) (file : stream) :
  forallb well_aligned (List.filter scored details_by_utterance) = true ->
  print_alignments details_by_utterance empty_symbol separator print_header
                   sample_separator 1 file
  = (file ++ String.concat ""
       (List.map (spec_block empty_symbol separator print_header sample_separator)
                 (List.filter scored details_by_utterance)),
     Ok tt).
Proof.
  intros Hwell. unfold print_alignments.
  rewrite print_alignments_from_blocks.
  - now rewrite selected_every_scored.
  - discriminate.
  - now rewrite selected_every_scored.
Qed.

End AlignmentsMore.

Lemma print_alignments_every_scored_witness :
  @WriteResult.print_alignments Z Demo.int_floats
     [Demo.utt_a; Demo.utt "c" false [] [] []; Demo.utt_b]
     "<eps>" " ; " false None 1 ""
  = ("the ; cat" ++ WriteResult.nl ++ " =  ;  S " ++ WriteResult.nl
     ++ "the ; hat" ++ WriteResult.nl
     ++ "go ; <eps>" ++ WriteResult.nl ++ "=  ;   I  " ++ WriteResult.nl
     ++ "go ;   on " ++ WriteResult.nl,
     Ok tt).
Proof.
  apply (@print_alignments_every_scored Z Demo.int_floats
           [Demo.utt_a; Demo.utt "c" false [] [] []; Demo.utt_b]
           "<eps>" " ; " false None "").
  reflexivity.
Defined.

(** X5. [_print_alignments_global_header] never raises, whatever the edit
    symbols, the empty symbol and the separator: the alignment of its
    example indexes its two token lists. It writes the five lines of the
    banner and then the three lines of the example, which are equally
    long. *)
Theorem global_header_lines
        (symbols : WriteResult.edit_symbols) (empty_symbol separator : string)
        (file : WriteResult.stream) :
  exists ref_line op_line hyp_line : string,
    WriteResult._print_alignments_global_header symbols empty_symbol separator file
    = (file ++ WriteResult.str_repeat "=" 80 ++ WriteResult.nl
            ++ "ALIGNMENTS" ++ WriteResult.nl
            ++ WriteResult.nl
            ++ "Format:" ++ WriteResult.nl
            ++ "<utterance-id>, WER DETAILS" ++ WriteResult.nl
            ++ ref_line ++ WriteResult.nl ++ op_line ++ WriteResult.nl
            ++ hyp_line ++ WriteResult.nl, Ok tt)
    /\ String.length ref_line = String.length op_line
    /\ String.length op_line = String.length hyp_line.
Proof.
  set (al := WriteResult.example_alignment symbols).
  exists (WriteResult.join separator
            (List.map (WriteResult.ref_cell WriteResult.example_ref
                         WriteResult.example_hyp empty_symbol) al)),
         (WriteResult.join separator
            (List.map (WriteResult.op_cell WriteResult.example_ref
                         WriteResult.example_hyp empty_symbol) al)),
         (WriteResult.join separator
            (List.map (WriteResult.hyp_cell WriteResult.example_ref
                         WriteResult.example_hyp empty_symbol) al)).
  split.
  - unfold WriteResult._print_alignments_global_header.
    do 5 rewrite (bind_ok _ _ _ _ _ (print_run _ _)).
    rewrite print_alignment_lines by reflexivity.
    unfold WriteResult.spec_alignment_lines. fold al.
    rewrite ?append_assoc. reflexivity.
  - split; apply length_join_pointwise; intros e;
      apply (cells_same_width WriteResult.example_ref WriteResult.example_hyp
                              empty_symbol e).
Qed.

(** ** write_result.py: what is written when a key is missing *)

Section SummaryMore.
Context {F : Type} {fops : FloatOps F}.
Import WriteResult.

Lemma field_missing (d : gmap string (pyval F)) (k : string) :
  d !! k = None -> field d k = Raise (KeyError k).
Proof. intros H. unfold field, getitem. now rewrite H. Qed.

Lemma field_2f_missing (d : gmap string (pyval F)) (k : string) :
  d !! k = None -> field_2f d k = Raise (KeyError k).
Proof. intros H. unfold field_2f, getitem. now rewrite H. Qed.

Lemma field_cases (d : gmap string (pyval F)) (k : string) :
  (exists s, field d k = Ok s) \/ field d k = Raise (KeyError k).
Proof.
  unfold field, getitem. destruct (d !! k); [left; eauto | right; reflexivity].
Qed.

(** X6. Missing keys of the details. When one of the six keys of the WER
    line is missing, [print_wer_summary] raises and writes nothing; when
    these are there but [num_scored_sents] or [num_ref_sents] is missing, it
    raises [KeyError] after the WER line has been written without its line
    end. *)
Theorem print_wer_summary_missing_key
        (wer_details : gmap string (pyval F)) (file : stream) :
  ((wer_details !! "WER" = None \/ wer_details !! "num_edits" = None
    \/ wer_details !! "num_scored_tokens" = None
    \/ wer_details !! "insertions" = None \/ wer_details !! "deletions" = None
    \/ wer_details !! "substitutions" = None) ->
   exists e, print_wer_summary wer_details file = (file, Raise e))
  /\ (forall (v_wer v_edits v_tokens v_ins v_del v_sub : pyval F) (s_wer k : string),
        wer_details !! "WER" = Some v_wer ->
        wer_details !! "num_edits" = Some v_edits ->
        wer_details !! "num_scored_tokens" = Some v_tokens ->
        wer_details !! "insertions" = Some v_ins ->
        wer_details !! "deletions" = Some v_del ->
        wer_details !! "substitutions" = Some v_sub ->
        fmt_2f v_wer = Ok s_wer ->
        (wer_details !! "num_scored_sents" = None /\ k = "num_scored_sents"
         \/ (wer_details !! "num_scored_sents" <> None
             /\ wer_details !! "num_ref_sents" = None /\ k = "num_ref_sents")) ->
        print_wer_summary wer_details file
        = (file ++ ("%WER " ++ s_wer ++ " [ " ++ fmt v_edits ++ " / " ++ fmt v_tokens
                    ++ ", " ++ fmt v_ins ++ " ins, " ++ fmt v_del ++ " del, "
                    ++ fmt v_sub ++ " sub ]"),
           Raise (KeyError k))).
Proof.
  split.
  - intros Hmissing. unfold print_wer_summary.
    match goal with
    | |- exists e, bind (lift ?r) _ _ = _ =>
        assert (Hline : exists e, r = Raise e)
    end.
    { destruct (field_2f wer_details "WER") as [s0|e0] eqn:E0; cbn [rbind];
        [| eauto].
      destruct (field_cases wer_details "num_edits") as [[s1 E1] | E1];
        rewrite E1; cbn [rbind]; [| eauto].
      destruct (field_cases wer_details "num_scored_tokens") as [[s2 E2] | E2];
        rewrite E2; cbn [rbind]; [| eauto].
      destruct (field_cases wer_details "insertions") as [[s3 E3] | E3];
        rewrite E3; cbn [rbind]; [| eauto].
      destruct (field_cases wer_details "deletions") as [[s4 E4] | E4];
        rewrite E4; cbn [rbind]; [| eauto].
      destruct (field_cases wer_details "substitutions") as [[s5 E5] | E5];
        rewrite E5; cbn [rbind]; [| eauto].
      exfalso.
      destruct Hmissing as [H | [H | [H | [H | [H | H]]]]].
      - rewrite (field_2f_missing _ _ H) in E0. discriminate.
      - rewrite (field_missing _ _ H) in E1. discriminate.
      - rewrite (field_missing _ _ H) in E2. discriminate.
      - rewrite (field_missing _ _ H) in E3. discriminate.
      - rewrite (field_missing _ _ H) in E4. discriminate.
      - rewrite (field_missing _ _ H) in E5. discriminate. }
    destruct Hline as [e He]. exists e. rewrite He. reflexivity.
  - intros v_wer v_edits v_tokens v_ins v_del v_sub s_wer k
           Hwer Hedits Htokens Hins Hdel Hsub Hfw Hk.
    unfold print_wer_summary.
    rewrite (field_2f_present _ _ _ Hwer), Hfw.
    rewrite (field_present _ _ _ Hedits), (field_present _ _ _ Htokens),
      (field_present _ _ _ Hins), (field_present _ _ _ Hdel),
      (field_present _ _ _ Hsub).
    cbn [rbind].
    rewrite (bind_ok _ _ _ _ _ (lift_run (Ok _) _)).
    assert (Hprint : forall s (f : stream), print_end s "" f = (f ++ s, Ok tt)).
    { intros s f. unfold print_end, modify. now rewrite append_empty_r. }
    rewrite (bind_ok _ _ _ _ _ (Hprint _ _)).
    unfold getitem, bind, lift.
    destruct Hk as [[Hscored ->] | (Hscored & Href & ->)].
    + rewrite Hscored. reflexivity.
    + destruct (wer_details !! "num_scored_sents"); [| contradiction].
      rewrite Href. reflexivity.
Qed.

End SummaryMore.

Lemma print_wer_summary_missing_key_witness :
  @WriteResult.print_wer_summary Z Demo.int_floats
     (delete "num_ref_sents" Demo.summary) "kept"
  = ("kept" ++ "%WER 25.00 [ 1 / 4, 0 ins, 0 del, 1 sub ]",
     Raise (KeyError "num_ref_sents")).
Proof.
  apply (proj2 (@print_wer_summary_missing_key Z Demo.int_floats
                  (delete "num_ref_sents" Demo.summary) "kept")
               (WriteResult.VFloat 25) (WriteResult.VInt 1) (WriteResult.VInt 4)
               (WriteResult.VInt 0) (WriteResult.VInt 0) (WriteResult.VInt 1)
               "25.00" "num_ref_sents");
    try reflexivity.
  right. split; [discriminate |]. split; reflexivity.
Defined.

(** ** write_result.py: successive calls on one file *)

Section CsvMore.
Context {F : Type} {fops : FloatOps F}.
Import WriteResult.

Lemma snr_csv_written (metrics_detail : list (@snr_entry F)) (file : stream) :
  print_snr_csv metrics_detail file
  = (file ++ header_if_empty file snr_header ++ spec_snr_rows metrics_detail, Ok tt).
Proof.
  unfold print_snr_csv.
  rewrite (bind_ok _ _ _ _ _ (is_file_empty_run file)).
  rewrite (bind_ok _ _ _ _ _ (header_written file snr_header)).
  rewrite snr_rows_appends. now rewrite append_assoc.
Qed.

Lemma spec_snr_rows_app (m1 m2 : list (@snr_entry F)) :
  spec_snr_rows (m1 ++ m2)%list = spec_snr_rows m1 ++ spec_snr_rows m2.
Proof.
  induction m1 as [|e m1 IH]; [reflexivity |].
  rewrite <- List.app_comm_cons. cbn [spec_snr_rows].
  rewrite IH. now rewrite !append_assoc.
Qed.

(** A file is not empty once a header has been put into it if it was. *)
Lemma header_if_empty_after (file header rest other : string) :
  header_if_empty (file ++ header_if_empty file header ++ rest) other = "".
Proof.
  unfold header_if_empty at 1.
  replace (Nat.eqb (String.length (file ++ header_if_empty file header ++ rest)) 0)
    with false; [reflexivity |].
  symmetry. apply Nat.eqb_neq.
  rewrite !length_append. unfold header_if_empty.
  destruct file as [|c file]; cbn [String.length Nat.eqb].
  - rewrite length_append. unfold nl. cbn [String.length]. lia.
  - lia.
Qed.

(** X7. Two calls of [print_snr_csv] on the same file write what one call
    with the two lists of entries in a row writes: the header appears at
    most once, in front of the first row. *)
Theorem print_snr_csv_twice (m1 m2 : list (@snr_entry F)) (file : stream) :
  print_snr_csv m2 (fst (print_snr_csv m1 file))
  = print_snr_csv (m1 ++ m2)%list file.
Proof.
  rewrite !snr_csv_written. cbn [fst].
  rewrite header_if_empty_after, spec_snr_rows_app.
  f_equal. rewrite !append_assoc.
  replace ("" ++ spec_snr_rows m2) with (spec_snr_rows m2) by reflexivity.
  reflexivity.
Qed.

Context (wer : string -> string -> result F).

Lemma collect_match_returns (det : utt_details F) (results : results_dict)
      (first : bool) :
  exists r f, collect_match det results first = Ok (r, f).
Proof.
  unfold collect_match, prediction_append.
  destruct first.
  - destruct (ground_truth results); cbv zeta; cbn [prediction];
      destruct (prediction results) eqn:Ep; cbn [rbind prediction];
      rewrite ?Ep; cbn [rbind]; eexists _, _; reflexivity.
  - destruct (target results); cbv zeta; cbn [prediction];
      destruct (prediction results) eqn:Ep; cbn [rbind prediction];
      rewrite ?Ep; cbn [rbind]; eexists _, _; reflexivity.
Qed.

Lemma collect_returns (dets : list (utt_details F)) (id : string)
      (results : results_dict) (first : bool) :
  exists r f, collect dets id results first = Ok (r, f).
Proof.
  revert results first. induction dets as [|det rest IH]; intros results first.
  - cbn. eauto.
  - cbn [collect]. destruct (String.eqb (key det) id); [| apply IH].
    destruct (collect_match_returns det results first) as (r & f & E).
    rewrite E. cbn [rbind]. apply IH.
Qed.

Lemma write_rows_appends (results : results_dict) (id : string) (it : Z)
      (preds : list string) (file : stream) :
  exists written, fst (write_rows wer results id it preds file) = file ++ written.
Proof.
  revert it file. induction preds as [|pre rest IH]; intros it file.
  - exists "". cbn. now rewrite append_empty_r.
  - cbn [write_rows].
    destruct (log_row wer results id it pre) as [row|e] eqn:Erow.
    + rewrite (bind_ok _ _ _ _ _ (lift_run (Ok row) file)).
      rewrite (bind_ok _ _ _ _ _ (print_run _ _)).
      destruct (IH (it + 1) (file ++ row ++ nl)) as [w Hw].
      exists ((row ++ nl) ++ w). rewrite Hw. now rewrite !append_assoc.
    + exists "". unfold bind, lift. cbn [fst]. now rewrite append_empty_r.
Qed.

(** X8. [print_log_csv] only ever appends: whether it returns or raises,
    and whatever the word error rate does, the file holds its former text,
    then the header if it was empty, then what the call wrote. So the file
    is not empty after a call, and a later call writes no second header,
    even when the first call raised [KeyError]. *)
Theorem print_log_csv_only_appends
        (details_by_utterance : list (utt_details F)) (id : string) (file : stream) :
  exists written : string,
    fst (print_log_csv wer details_by_utterance id file)
    = file ++ header_if_empty file log_header ++ written
    /\ forall header,
         header_if_empty (fst (print_log_csv wer details_by_utterance id file)) header
         = "".
Proof.
  assert (Hfile : exists written : string,
            fst (print_log_csv wer details_by_utterance id file)
            = file ++ header_if_empty file log_header ++ written).
  { unfold print_log_csv.
    destruct (collect_returns details_by_utterance id results_empty true)
      as (r & f & Ecollect).
    rewrite Ecollect.
    rewrite (bind_ok _ _ _ _ _ (lift_run (Ok _) _)). cbn [fst].
    rewrite (bind_ok _ _ _ _ _ (is_file_empty_run file)).
    rewrite (bind_ok _ _ _ _ _ (header_written file log_header)).
    destruct (prediction r) as [l|].
    - rewrite (bind_ok _ _ _ _ _ (lift_run (Ok l) _)).
      destruct (write_rows_appends r id 0 l (file ++ header_if_empty file log_header))
        as [w Hw].
      exists w. rewrite Hw. now rewrite append_assoc.
    - exists "". unfold bind, lift. cbn [fst]. now rewrite !append_empty_r. }
  destruct Hfile as [written Hwritten].
  exists written. split; [exact Hwritten |].
  intros header. rewrite Hwritten. apply header_if_empty_after.
Qed.

End CsvMore.

(** ** brain.py: ASRBrain.get_tokens and EnsembleASRBrain *)

Lemma py_index_middle {A} (pre suf : list A) (x : A) :
  py_index (pre ++ x :: suf)%list (Z.of_nat (List.length pre)) = Ok x.
Proof.
  unfold py_index.
  replace (Z.of_nat (List.length pre) <? 0) with false
    by (symmetry; apply Z.ltb_ge; lia).
  replace ((0 <=? Z.of_nat (List.length pre))
           && (Z.of_nat (List.length pre)
               <? Z.of_nat (List.length (pre ++ x :: suf)%list))) with true.
  - rewrite Nat2Z.id.
    rewrite (list_lookup_middle pre suf x (List.length pre) eq_refl). reflexivity.
  - symmetry. apply andb_true_iff. split.
    + apply Z.leb_le. lia.
    + apply Z.ltb_lt. rewrite List.length_app. cbn [List.length]. lia.
Qed.

(** X9. [ASRBrain.get_tokens] returns the last output of the forward pass,
    and raises [IndexError] when there is none. *)
Theorem get_tokens_is_last_output {A} :
  (forall (outputs : list A) (tokens : A),
      ASRBrain_get_tokens (outputs ++ [tokens])%list = Ok tokens)
  /\ @ASRBrain_get_tokens A [] = Raise IndexError.
Proof.
  split; [| reflexivity].
  intros outputs tokens. unfold ASRBrain_get_tokens, py_index.
  rewrite List.length_app. cbn [List.length].
  replace (-1 <? 0) with true by reflexivity.
  replace (-1 + Z.of_nat (List.length outputs + 1))
    with (Z.of_nat (List.length outputs)) by lia.
  pose proof (py_index_middle outputs [] tokens) as H.
  unfold py_index in H.
  replace (Z.of_nat (List.length outputs) <? 0) with false in H
    by (symmetry; apply Z.ltb_ge; lia).
  rewrite List.length_app in H. cbn [List.length] in H. exact H.
Qed.

Section EnsembleMore.
Context {Batch Pred Loss Tokens : Type} {tops : Ensemble.TorchOps Loss}.
Context (pred_len : Pred -> result Z).
Import Ensemble.

#[local] Abbreviation brain := (@asr_brain Batch Pred Loss Tokens).
#[local] Abbreviation ensemble := (@EnsembleASRBrain Batch Pred Loss Tokens).

Lemma forward_all_each (brains : list brain) (batch : Batch) (stage : Stage)
      (acc ps : list Pred) :
  forward_all brains batch stage acc = Ok ps
  <-> exists new, ps = (acc ++ new)%list
       /\ List.Forall2 (fun ab p => brain_compute_forward ab batch stage = Ok p)
                       brains new.
Proof.
  revert acc. induction brains as [|ab rest IH]; intros acc.
  - cbn [forward_all]. split.
    + intros H. inversion H; subst. exists []. rewrite List.app_nil_r.
      split; [reflexivity | constructor].
    + intros (new & -> & Hall). inversion Hall; subst.
      now rewrite List.app_nil_r.
  - cbn [forward_all]. split.
    + intros H.
      destruct (brain_compute_forward ab batch stage) as [p|e] eqn:Ep;
        cbn [rbind] in H; [| discriminate].
      apply IH in H. destruct H as (new & -> & Hall).
      exists (p :: new). split.
      * now rewrite <- List.app_assoc.
      * constructor; assumption.
    + intros (new & -> & Hall).
      inversion Hall as [|? p ? new' Hp Hrest]; subst.
      rewrite Hp. cbn [rbind]. apply IH.
      exists new'. split; [now rewrite <- List.app_assoc | exact Hrest].
Qed.

(** What [compute_forward] returns without [model_idx]. *)
Lemma compute_forward_without_model_idx
        (self : ensemble) (batch : Batch) (stage : Stage) :
  (forall ps,
      compute_forward self batch stage None = Ok (PredictionEnsemble ps)
      <-> List.Forall2 (fun ab p => brain_compute_forward ab batch stage = Ok p)
                       (asr_brains self) ps)
  /\ (forall p, compute_forward self batch stage None <> Ok (Prediction p)).
Proof.
  unfold compute_forward. split.
  - intros ps. split.
    + intros H.
      destruct (forward_all (asr_brains self) batch stage []) as [l|e] eqn:El;
        cbn [rbind] in H; [| discriminate].
      inversion H; subst.
      apply forward_all_each in El. destruct El as (new & -> & Hall).
      exact Hall.
    + intros Hall.
      assert (El : forward_all (asr_brains self) batch stage [] = Ok ps).
      { apply forward_all_each. exists ps. split; [reflexivity | exact Hall]. }
      rewrite El. reflexivity.
  - intros p H.
    destruct (forward_all (asr_brains self) batch stage []);
      cbn [rbind] in H; discriminate.
Qed.

(** X10. Without [model_idx], [compute_forward] returns a
    [PredictionEnsemble] exactly when every wrapped brain returns a
    prediction, and it then holds the predictions of the brains, one for
    each and in their order; it never returns a single prediction. *)
Theorem ensemble_forward_one_per_brain
        (self : ensemble) (batch : Batch) (stage : Stage) :
  (forall ps,
      compute_forward self batch stage None = Ok (PredictionEnsemble ps)
      <-> List.Forall2 (fun ab p => brain_compute_forward ab batch stage = Ok p)
                       (asr_brains self) ps)
  /\ (forall p, compute_forward self batch stage None <> Ok (Prediction p)).
Proof. exact (compute_forward_without_model_idx self batch stage). Qed.

(** X11. An ensemble cannot use what its own forward pass returns: on the
    [PredictionEnsemble] of [compute_forward], [get_tokens] raises for every
    [all] and [model_idx], and [compute_objectives] raises [TypeError] as
    soon as the ensemble has a brain, with or without averaging. *)
Theorem ensemble_cannot_use_own_predictions
        (brains : list brain) (ref : Z) (batch : Batch) (stage : Stage)
        (preds : predictions_arg) :
  compute_forward (init brains ref) batch stage None = Ok preds ->
  (forall all model_idx,
      is_ok (get_tokens pred_len (init brains ref) preds all model_idx) = false)
  /\ (brains <> [] ->
      forall average,
        compute_objectives pred_len (init brains ref) preds batch stage average None
        = Raise TypeError).
Proof.
  intros Hfwd.
  destruct preds as [ps | p];
    [| exfalso; exact (proj2 (compute_forward_without_model_idx _ _ _) p Hfwd)].
  apply (proj1 (compute_forward_without_model_idx _ _ _) ps) in Hfwd.
  cbn [init asr_brains] in Hfwd.
  assert (Hlen : List.length ps = List.length brains)
    by (symmetry; exact (Forall2_length _ _ _ Hfwd)).
  split.
  - intros all model_idx. unfold get_tokens.
    cbn [len rbind]. destruct (negb _); [reflexivity |].
    destruct all; [reflexivity |].
    destruct model_idx as [m|].
    + destruct (py_index (asr_brains (init brains ref)) m); reflexivity.
    + destruct (py_index (asr_brains (init brains ref)) (ref_tokens (init brains ref)));
        reflexivity.
  - intros Hne average.
    destruct brains as [|b0 bs]; [contradiction |].
    unfold compute_objectives, init.
    cbn [len rbind nmodels asr_brains]. rewrite Hlen, Z.eqb_refl. cbn [negb].
    cbn [List.length]. rewrite range_succ. cbn [objectives_loop asr_brains].
    rewrite py_index_head. reflexivity.
Qed.

Lemma last_default {A} (l : list A) (x d1 d2 : A) :
  List.last (x :: l) d1 = List.last (x :: l) d2.
Proof.
  revert x. induction l as [|y l IH]; intros x; [reflexivity |].
  change (List.last (x :: y :: l) d1) with (List.last (y :: l) d1).
  change (List.last (x :: y :: l) d2) with (List.last (y :: l) d2).
  apply IH.
Qed.

Lemma objectives_loop_single (self : ensemble) (p : Pred) (batch : Batch)
      (stage : Stage) (suf : list brain) (ls : list Loss) :
  List.Forall2 (fun ab x => brain_compute_objectives ab p batch stage = Ok x) suf ls ->
  forall (pre : list brain) (losses : list Loss) (loss : option Loss),
    asr_brains self = (pre ++ suf)%list ->
    objectives_loop self (Prediction p) batch stage None
                    (List.map Z.of_nat (List.seq (List.length pre) (List.length suf)))
                    losses loss
    = Ok ((losses ++ ls)%list, List.last (List.map Some ls) loss).
Proof.
  induction 1 as [|ab x suf ls Hx Hrest IH]; intros pre losses loss Hbrains.
  - cbn. now rewrite List.app_nil_r.
  - cbn [List.length List.seq List.map objectives_loop].
    rewrite Hbrains, py_index_middle. cbn [rbind]. rewrite Hx. cbn [rbind].
    assert (Hb' : asr_brains self = ((pre ++ [ab]) ++ suf)%list)
      by (rewrite Hbrains, <- List.app_assoc; reflexivity).
    pose proof (IH (pre ++ [ab])%list (losses ++ [x])%list (Some x) Hb') as IH'.
    rewrite List.length_app in IH'. cbn [List.length] in IH'.
    rewrite Nat.add_1_r in IH'. rewrite IH'.
    rewrite <- List.app_assoc. cbn [List.app].
    f_equal. f_equal.
    destruct ls as [|y ls']; [reflexivity |].
    cbn [List.map].
    change (List.last (Some x :: Some y :: List.map Some ls') loss)
      with (List.last (Some y :: List.map Some ls') loss).
    apply last_default.
Qed.

(** X12. When one prediction is scored by every brain ([model_idx] is
    [None] and [predictions] is not a [PredictionEnsemble]), averaging
    returns the mean of the loss of the last brain alone: the losses of the
    other brains do not enter the result; without averaging the stacked
    losses of all brains are returned. *)
Theorem objectives_of_single_prediction
        (brains : list brain) (ref : Z) (p : Pred) (batch : Batch) (stage : Stage)
        (ls : list Loss) (l : Loss) (stacked : Loss) :
  pred_len p = Ok (Z.of_nat (List.length brains)) ->
  List.Forall2 (fun ab x => brain_compute_objectives ab p batch stage = Ok x)
               brains (ls ++ [l])%list ->
  torch_stack (ls ++ [l])%list = Ok stacked ->
  compute_objectives pred_len (init brains ref) (Prediction p) batch stage true None
  = torch_mean l
  /\ compute_objectives pred_len (init brains ref) (Prediction p) batch stage false None
     = Ok stacked.
Proof.
  intros Hlen Hall Hstack.
  assert (Hloop :
    objectives_loop (init brains ref) (Prediction p) batch stage None
                    (range (nmodels (init brains ref))) [] None
    = Ok ((ls ++ [l])%list, Some l)).
  { unfold range.
    change (nmodels (init brains ref)) with (Z.of_nat (List.length brains)).
    rewrite Nat2Z.id.
    pose proof (objectives_loop_single (init brains ref) p batch stage brains
                  (ls ++ [l])%list Hall [] [] None eq_refl) as Hrun.
    cbn [List.length List.app] in Hrun. rewrite Hrun.
    f_equal. f_equal.
    rewrite List.map_app. cbn [List.map]. apply List.last_last. }
  unfold compute_objectives. cbn [len]. rewrite Hlen. cbn [rbind].
  cbn [init nmodels] in *. rewrite Z.eqb_refl. cbn [negb].
  rewrite Hloop. cbn [rbind]. rewrite Hstack. cbn [rbind].
  split; reflexivity.
Qed.

(** X13. With [model_idx] the ensemble acts as the one brain it names: the
    forward pass followed by the objectives is the forward pass of that
    brain followed by its objectives, whatever [average]; an index outside
    the brains raises [IndexError] in the forward pass. *)
Theorem single_model_route
        (self : ensemble) (batch : Batch) (stage : Stage) (average : bool) (m : Z) :
  (forall ab,
      py_index (asr_brains self) m = Ok ab ->
      rbind (compute_forward self batch stage (Some m)) (fun preds =>
             compute_objectives pred_len self preds batch stage average (Some m))
      = rbind (brain_compute_forward ab batch stage) (fun p =>
               brain_compute_objectives ab p batch stage))
  /\ (is_ok (py_index (asr_brains self) m) = false ->
      compute_forward self batch stage (Some m) = Raise IndexError).
Proof.
  split.
  - intros ab Hab. unfold compute_forward. rewrite Hab. cbn [rbind].
    destruct (brain_compute_forward ab batch stage) as [p|e]; cbn [rbind];
      [| reflexivity].
    unfold compute_objectives. rewrite Hab. reflexivity.
  - intros Hbad. unfold compute_forward.
    destruct (py_index (asr_brains self) m) as [ab|e] eqn:E; [discriminate |].
    rewrite (py_index_raises _ _ _ E). reflexivity.
Qed.

End EnsembleMore.

Lemma ensemble_cannot_use_own_predictions_witness :
  @Ensemble.compute_objectives unit nat Demo.term unit Demo.term_ops
     (fun _ => Ok 2) Demo.two_models (Ensemble.PredictionEnsemble [0%nat; 1%nat])
     tt TRAIN false None
  = Raise TypeError.
Proof.
  apply (proj2 (@ensemble_cannot_use_own_predictions unit nat Demo.term unit
                  Demo.term_ops (fun _ => Ok 2) [Demo.model 0; Demo.model 1] 0
                  tt TRAIN (Ensemble.PredictionEnsemble [0%nat; 1%nat]) eq_refl)).
  discriminate.
Defined.

Lemma objectives_of_single_prediction_witness :
  @Ensemble.compute_objectives unit nat Demo.term unit Demo.term_ops
     (fun _ => Ok 2) Demo.two_models (Ensemble.Prediction 7%nat) tt TRAIN true None
  = Ok (Demo.Mean (Demo.LossOf 1))
  /\ @Ensemble.compute_objectives unit nat Demo.term unit Demo.term_ops
       (fun _ => Ok 2) Demo.two_models (Ensemble.Prediction 7%nat) tt TRAIN false None
     = Ok (Demo.Stack [Demo.LossOf 0; Demo.LossOf 1]).
Proof.
  apply (@objectives_of_single_prediction unit nat Demo.term unit Demo.term_ops
           (fun _ => Ok 2) [Demo.model 0; Demo.model 1] 0 7%nat tt TRAIN
           [Demo.LossOf 0] (Demo.LossOf 1)
           (Demo.Stack [Demo.LossOf 0; Demo.LossOf 1])).
  - reflexivity.
  - repeat constructor.
  - reflexivity.
Defined.

Lemma single_model_route_witness :
  rbind (@Ensemble.compute_forward unit nat Demo.term unit Demo.two_models
           tt TRAIN (Some (-1)))
        (fun preds =>
           @Ensemble.compute_objectives unit nat Demo.term unit Demo.term_ops
             (fun _ => Ok 2) Demo.two_models preds tt TRAIN true (Some (-1)))
  = Ok (Demo.LossOf 1).
Proof.
  apply (proj1 (@single_model_route unit nat Demo.term unit Demo.term_ops
                  (fun _ => Ok 2) Demo.two_models tt TRAIN true (-1))
               (Demo.model 1)).
  reflexivity.
Defined.

(** ** brain.py: more on AdvASRBrain.__setattr__ *)

Section AttrMore.
Import Attr.

(** X14. [__setattr__] stores the value in the brain alone, and touches
    no other object, in three cases: the brain has no attribute [attacker]
    yet, the name is [attacker], or [attacker_brain] is false. *)
Theorem setattr_on_self_only
        (h : heap) (self : addr) (o : object) (name : string) (v : value)
        (attacker_brain : bool) :
  h !! self = Some o ->
  is_AdvASRBrain o = true ->
  attrs o !! "attacker" = None \/ name = "attacker" \/ attacker_brain = false ->
  __setattr__ (VRef self) name v attacker_brain h
  = (<[self := {| is_AdvASRBrain := true; attrs := <[name := v]> (attrs o) |}]> h,
     Ok tt).
Proof.
  intros Hself Hbrain Hcase. unfold __setattr__.
  assert (Hhas : exists b, hasattr (VRef self) "attacker" h = (h, Ok b)
                           /\ (attrs o !! "attacker" = None -> b = false)).
  { unfold hasattr, getattr. rewrite Hself.
    destruct (attrs o !! "attacker"); eexists; split; try reflexivity.
    discriminate. }
  destruct Hhas as (b & Hhas & Hb).
  rewrite (bind_ok _ _ _ _ _ Hhas).
  assert (Hcond : b && negb (String.eqb name "attacker") && attacker_brain = false).
  { destruct Hcase as [Hnone | [-> | ->]].
    - rewrite (Hb Hnone). reflexivity.
    - rewrite String.eqb_refl. destruct b; reflexivity.
    - destruct b, (String.eqb name "attacker"); reflexivity. }
  rewrite Hcond.
  rewrite (bind_ok (ret tt) _ h h tt eq_refl).
  apply super_setattr_brain; assumption.
Qed.

Lemma setattr_on_self_only_witness :
  Attr.__setattr__ (Attr.VRef 1%positive) "attacker" Attr.VNone true Demo.heap3
  = (<[1%positive := {| Attr.is_AdvASRBrain := true;
                        Attr.attrs := <["attacker" := Attr.VNone]>
                                        {[ "attacker" := Attr.VRef 2%positive ]} |}]>
       Demo.heap3,
     Ok tt).
Proof.
  rewrite (setattr_on_self_only Demo.heap3 1%positive
             {| Attr.is_AdvASRBrain := true;
                Attr.attrs := {[ "attacker" := Attr.VRef 2%positive ]} |}
             "attacker" Attr.VNone true eq_refl eq_refl
             (or_intror (or_introl eq_refl))).
  reflexivity.
Defined.

(** X15. Once the attribute [attacker] of a brain is [None], an integer or
    a string, no other attribute of the brain can be assigned: the
    assignment raises [AttributeError] on [asr_brain] and the heap stays as
    it was, the brain included. *)
Theorem setattr_with_attacker_None
        (h : heap) (self : addr) (o : object) (att : value)
        (name : string) (v : value) :
  h !! self = Some o ->
  attrs o !! "attacker" = Some att ->
  (forall a, att <> VRef a) ->
  name <> "attacker" ->
  assign (VRef self) name v h = (h, Raise (AttributeError "asr_brain")).
Proof.
  intros Hself Hatt Hnoref Hname. unfold assign, __setattr__.
  rewrite (bind_ok _ _ _ _ _ (hasattr_found h self o _ _ Hself Hatt)).
  assert (Hcond : String.eqb name "attacker" = false)
    by (now apply String.eqb_neq).
  rewrite Hcond. cbn [andb negb].
  unfold bind at 1.
  rewrite (bind_ok _ _ _ _ _ (getattr_found h self o _ _ Hself Hatt)).
  unfold bind, getattr.
  destruct att as [| n | s | a]; try reflexivity.
  exfalso. exact (Hnoref a eq_refl).
Qed.

Lemma setattr_with_attacker_None_witness :
  Attr.assign (Attr.VRef 1%positive) "lr" (Attr.VInt 3)
    (<[1%positive := {| Attr.is_AdvASRBrain := true;
                        Attr.attrs := {[ "attacker" := Attr.VNone ]} |}]> ∅)
  = (<[1%positive := {| Attr.is_AdvASRBrain := true;
                        Attr.attrs := {[ "attacker" := Attr.VNone ]} |}]> ∅,
     Raise (AttributeError "asr_brain")).
Proof.
  apply (setattr_with_attacker_None _ 1%positive
           {| Attr.is_AdvASRBrain := true;
              Attr.attrs := {[ "attacker" := Attr.VNone ]} |} Attr.VNone).
  - reflexivity.
  - reflexivity.
  - discriminate.
  - discriminate.
Defined.

(** One assignment on wired objects: it returns, the objects stay wired,
    the two brains hold the value, and their other attributes stay. *)
Lemma assign_wired (h : heap) (self attacker inner : addr) (name : string) (v : value) :
  wired h self attacker inner ->
  name <> "attacker" ->
  exists h',
    assign (VRef self) name v h = (h', Ok tt)
    /\ wired h' self attacker inner
    /\ attr_of h' self name = Some v
    /\ attr_of h' inner name = Some v
    /\ (forall n, n <> name ->
          attr_of h' self n = attr_of h self n
          /\ attr_of h' inner n = attr_of h inner n).
Proof.
  intros (Hsa & Hia & Hsi & o & oa & oi & Hself & Hbrain & Hatt & Hattacker
          & Hasr & Hinner & Hinner_brain) Hname.
  unfold assign, __setattr__.
  rewrite (bind_ok _ _ _ _ _ (hasattr_found h self o _ _ Hself Hatt)).
  assert (Hcond : String.eqb name "attacker" = false)
    by (now apply String.eqb_neq).
  rewrite Hcond. cbn [andb negb].
  set (h1 := <[inner := {| is_AdvASRBrain := true;
                           attrs := <[name := v]> (attrs oi) |}]> h).
  assert (Hfirst :
    (attacker0 <~ getattr (VRef self) "attacker" ;;
     asr_brain <~ getattr attacker0 "asr_brain" ;;
     super_setattr asr_brain name v) h = (h1, Ok tt)).
  { rewrite (bind_ok _ _ _ _ _ (getattr_found h self o _ _ Hself Hatt)).
    rewrite (bind_ok _ _ _ _ _ (getattr_found h attacker oa _ _ Hattacker Hasr)).
    apply super_setattr_brain; assumption. }
  rewrite (bind_ok _ _ _ _ _ Hfirst).
  assert (H1 : h1 !! self = Some o)
    by (subst h1; rewrite lookup_insert_ne by congruence; exact Hself).
  rewrite (super_setattr_brain h1 self o name v H1 Hbrain).
  eexists. split; [reflexivity |].
  split.
  { split; [exact Hsa |]. split; [exact Hia |]. split; [exact Hsi |].
    exists {| is_AdvASRBrain := true; attrs := <[name := v]> (attrs o) |},
           oa,
           {| is_AdvASRBrain := true; attrs := <[name := v]> (attrs oi) |}.
    subst h1.
    rewrite lookup_insert_eq. cbn [attrs is_AdvASRBrain].
    rewrite (lookup_insert_ne (attrs o)) by congruence.
    rewrite !(lookup_insert_ne _ _ attacker) by congruence.
    rewrite (lookup_insert_ne _ self inner) by congruence.
    rewrite lookup_insert_eq.
    repeat split; try reflexivity; assumption. }
  rewrite attr_of_insert_eq. cbn [attrs]. rewrite lookup_insert_eq.
  split; [reflexivity |].
  rewrite attr_of_insert_ne by congruence.
  subst h1. rewrite attr_of_insert_eq. cbn [attrs]. rewrite lookup_insert_eq.
  split; [reflexivity |].
  intros n Hn. split.
  - rewrite attr_of_insert_eq. cbn [attrs].
    rewrite lookup_insert_ne by congruence.
    unfold attr_of. now rewrite Hself.
  - rewrite attr_of_insert_ne by congruence.
    rewrite attr_of_insert_eq. cbn [attrs].
    rewrite lookup_insert_ne by congruence.
    unfold attr_of. now rewrite Hinner.
Qed.

(** X16. On objects wired as [init_attacker] wires them, any sequence of
    assignments to attributes other than [attacker] returns, keeps the
    objects wired, and keeps the two brains in step: an attribute on which
    they agreed before is one on which they agree after, and so is every
    attribute the sequence assigned. *)
Theorem assignments_keep_brains_in_step
        (assignments : list (string * value))
        (h : heap) (self attacker inner : addr) :
  wired h self attacker inner ->
  List.Forall (fun nv : string * value => fst nv <> "attacker") assignments ->
  exists h',
    assign_all (VRef self) assignments h = (h', Ok tt)
    /\ wired h' self attacker inner
    /\ (forall n, attr_of h self n = attr_of h inner n ->
                  attr_of h' self n = attr_of h' inner n)
    /\ (forall n v, List.In (n, v) assignments ->
                    attr_of h' self n = attr_of h' inner n).
Proof.
  intros Hwired Hnames. revert h Hwired.
  induction Hnames as [|[name v] rest Hname _ IH]; intros h Hwired.
  - exists h. split; [reflexivity |]. split; [exact Hwired |].
    split; [intros n Hn; exact Hn |].
    intros n v Hin. destruct Hin.
  - cbn [fst] in Hname. cbn [assign_all].
    destruct (assign_wired h self attacker inner name v Hwired Hname)
      as (h1 & Erun & Hwired1 & Hs & Hi & Hframe).
    rewrite (bind_ok _ _ _ _ _ Erun).
    destruct (IH h1 Hwired1) as (h' & Erest & Hwired' & Hagree & Hassigned).
    exists h'. split; [exact Erest |]. split; [exact Hwired' |].
    assert (Hstep : forall n, attr_of h self n = attr_of h inner n ->
                              attr_of h1 self n = attr_of h1 inner n).
    { intros n Hn. destruct (String.eqb_spec n name) as [-> | Hne].
      - now rewrite Hs, Hi.
      - destruct (Hframe n Hne) as [-> ->]. exact Hn. }
    split.
    + intros n Hn. apply Hagree, Hstep, Hn.
    + intros n w [Heq | Hin].
      * inversion Heq; subst. apply Hagree. now rewrite Hs, Hi.
      * exact (Hassigned n w Hin).
Qed.

End AttrMore.

Lemma demo_heap_wired : Attr.wired Demo.heap3 1%positive 2%positive 3%positive.
Proof.
  split; [discriminate |]. split; [discriminate |]. split; [discriminate |].
  exists {| Attr.is_AdvASRBrain := true;
            Attr.attrs := {[ "attacker" := Attr.VRef 2%positive ]} |},
         {| Attr.is_AdvASRBrain := false;
            Attr.attrs := {[ "asr_brain" := Attr.VRef 3%positive ]} |},
         {| Attr.is_AdvASRBrain := true; Attr.attrs := ∅ |}.
  repeat split; reflexivity.
Qed.

Lemma assignments_keep_brains_in_step_witness :
  exists h',
    Attr.assign_all (Attr.VRef 1%positive)
      [("lr", Attr.VInt 3); ("device", Attr.VStr "cpu"); ("lr", Attr.VInt 4)]
      Demo.heap3
    = (h', Ok tt)
    /\ Attr.wired h' 1%positive 2%positive 3%positive
    /\ (forall n, Attr.attr_of Demo.heap3 1%positive n = Attr.attr_of Demo.heap3 3%positive n ->
                  Attr.attr_of h' 1%positive n = Attr.attr_of h' 3%positive n)
    /\ (forall n v,
          List.In (n, v) [("lr", Attr.VInt 3); ("device", Attr.VStr "cpu");
                          ("lr", Attr.VInt 4)] ->
          Attr.attr_of h' 1%positive n = Attr.attr_of h' 3%positive n).
Proof.
  apply (assignments_keep_brains_in_step
           [("lr", Attr.VInt 3); ("device", Attr.VStr "cpu"); ("lr", Attr.VInt 4)]
           Demo.heap3 1%positive 2%positive 3%positive demo_heap_wired).
  repeat constructor; discriminate.
Defined.

(** ** brain.py: more on AdvASRBrain *)

Section BrainMore.
Context {T : Brain.Types} {fw : Brain.Framework}.
Import Brain.

(** X17. With an attacker set and a stage other than [ATTACK],
    [compute_forward_adversarial] first calls the attacker on the batch. If
    the attacker raises, the exception goes through and no forward pass is
    computed. If it returns, the one forward pass is computed on the batch
    whose waveform is what the attacker returned, with the lengths the
    attacker left in the batch, and its prediction is returned. *)
Theorem forward_adversarial_routes_through_attacker
        (batch : Batch) (stage : Stage) (st : state) (a : Attacker) :
  stage <> ATTACK ->
  attacker (self st) = Some (Some a) ->
  (forall w1 e,
      handle _ (Perturb a batch) (world st) = (w1, Raise e) ->
      compute_forward_adversarial batch stage st
      = ({| self := self st; world := w1;
            log := (log st ++ [Ev (Perturb a batch) (Raise e)])%list |}, Raise e))
  /\ (forall w1 b1 adv_wavs w2 b2 res,
        handle _ (Perturb a batch) (world st) = (w1, Ok (b1, adv_wavs)) ->
        handle _ (ComputeForward (set_sig b1 (adv_wavs, snd (sig b1))) stage) w1
        = (w2, Ok (b2, res)) ->
        compute_forward_adversarial batch stage st
        = ({| self := self st; world := w2;
              log := (log st
                      ++ [Ev (Perturb a batch) (Ok (b1, adv_wavs));
                          Ev (ComputeForward (set_sig b1 (adv_wavs, snd (sig b1))) stage)
                             (Ok (b2, res))])%list |},
           Ok (set_sig b2 (fst (sig batch), snd (sig b2)), res))).
Proof.
  intros Hstage Hatt. split.
  - intros w1 e H1.
    rewrite (forward_adversarial_with_attacker batch stage st a Hstage Hatt), H1.
    reflexivity.
  - intros w1 b1 adv_wavs w2 b2 res H1 H2.
    rewrite (forward_adversarial_with_attacker batch stage st a Hstage Hatt), H1.
    cbv zeta. rewrite H2. reflexivity.
Qed.

(** X18. With an attacker set and calls that return,
    [evaluate_batch_adversarial] computes the loss of the adversarial
    prediction with [adv=True] on the batch whose clean waveform has been put
    back, and returns that loss detached; at the stage [ATTACK] it raises
    [AssertionError] before any call. *)
Theorem evaluate_adversarial_loss_on_restored_batch
        (batch : Batch) (stage : Stage) (st : state) (a : Attacker) :
  never_raises ->
  attacker (self st) = Some (Some a) ->
  (stage <> ATTACK ->
   exists (b1 : Batch) (adv_wavs : Wav) (b2 : Batch) (out : Pred)
          (batch' : Batch) (loss : Loss) (w : World),
     evaluate_batch_adversarial batch stage st
     = ({| self := self st; world := w;
           log := (log st
                   ++ [Ev (Perturb a batch) (Ok (b1, adv_wavs));
                       Ev (ComputeForward (set_sig b1 (adv_wavs, snd (sig b1))) stage)
                          (Ok (b2, out));
                       Ev (ComputeObjectives
                             out (set_sig b2 (fst (sig batch), snd (sig b2))) stage true)
                          (Ok (batch', loss))])%list |},
        Ok (batch', detach_cpu loss)))
  /\ evaluate_batch_adversarial batch ATTACK st = (st, Raise AssertionError).
Proof.
  intros Hnr Hatt. split.
  - intros Hstage. exact (evaluate_adversarial_ok Hnr batch stage st a Hstage Hatt).
  - reflexivity.
Qed.

Lemma firstn_length_all {A} (l : list A) : List.firstn (List.length l) l = l.
Proof. apply List.firstn_all. Qed.

(** X19. The debug cutoff of the evaluation loops. In debug mode, when the
    step counter is below [debug_batches] and reaches it within the batches,
    the loop evaluates the first [debug_batches - step] batches and stops.
    In every other case it evaluates all batches: outside debug mode, and
    also in debug mode when the step counter has already reached
    [debug_batches] at the start or cannot reach it. *)
Theorem eval_loop_debug_cutoff
        (stage : Stage) (batches : list Batch) (avg_loss avg_adv_loss : Avg)
        (st : state) :
  (debug (self st) = true ->
   step (self st) < debug_batches (self st)
                    <= step (self st) + Z.of_nat (List.length batches) ->
   eval_loop stage batches avg_loss avg_adv_loss st
   = spec_eval_twice stage
       (List.firstn (Z.to_nat (debug_batches (self st) - step (self st))) batches)
       avg_loss avg_adv_loss st)
  /\ (debug (self st) = false
      \/ debug_batches (self st) <= step (self st)
      \/ step (self st) + Z.of_nat (List.length batches) < debug_batches (self st) ->
      eval_loop stage batches avg_loss avg_adv_loss st
      = spec_eval_twice stage batches avg_loss avg_adv_loss st).
Proof.
  split.
  - intros Hdebug [Hlt Hle]. rewrite eval_loop_cutoff. unfold processed.
    rewrite Hdebug.
    replace (step (self st) <? debug_batches (self st)) with true
      by (symmetry; apply Z.ltb_lt; lia).
    replace (debug_batches (self st) - step (self st)
             <=? Z.of_nat (List.length batches)) with true
      by (symmetry; apply Z.leb_le; lia).
    reflexivity.
  - intros Hcase. rewrite eval_loop_cutoff.
    replace (processed (self st) (List.length batches)) with (List.length batches).
    + now rewrite firstn_length_all.
    + unfold processed.
      destruct Hcase as [Hdebug | [Hge | Hfar]].
      * rewrite Hdebug. reflexivity.
      * replace (step (self st) <? debug_batches (self st)) with false
          by (symmetry; apply Z.ltb_ge; lia).
        destruct (debug (self st)); reflexivity.
      * replace (debug_batches (self st) - step (self st)
                 <=? Z.of_nat (List.length batches)) with false
          by (symmetry; apply Z.leb_gt; lia).
        destruct (debug (self st)), (step (self st) <? debug_batches (self st));
          reflexivity.
Qed.

End BrainMore.

Lemma forward_adversarial_routes_through_attacker_witness :
  @Brain.compute_forward_adversarial Demo.int_types Demo.int_framework
     (Demo.a_batch 10) VALID (Demo.a_state (Some (Some 5)) false)
  = ({| Brain.self := Demo.a_brain (Some (Some 5)) false;
        Brain.world := 2%nat;
        Brain.log :=
          [Brain.Ev (Brain.Perturb 5 (Demo.a_batch 10)) (Ok (Demo.a_batch 10, 15));
           Brain.Ev (Brain.ComputeForward (Demo.batch_of 15 1) VALID)
                    (Ok (Demo.batch_of 15 2, 15))] |},
     Ok (Demo.batch_of 10 2, 15)).
Proof.
  apply (proj2 (@forward_adversarial_routes_through_attacker
                  Demo.int_types Demo.int_framework
                  (Demo.a_batch 10) VALID (Demo.a_state (Some (Some 5)) false) 5
                  ltac:(discriminate) eq_refl)
               1%nat (Demo.a_batch 10) 15 2%nat (Demo.batch_of 15 2) 15);
    reflexivity.
Defined.

Lemma evaluate_adversarial_loss_on_restored_batch_witness :
  exists (b1 : Brain.Batch) (adv_wavs : Z) (b2 : Brain.Batch) (out : Z)
         (batch' : Brain.Batch) (loss : Z) (w : nat),
    @Brain.evaluate_batch_adversarial Demo.int_types Demo.int_framework
       (Demo.a_batch 10) TEST (Demo.a_state (Some (Some 5)) false)
    = ({| Brain.self := Demo.a_brain (Some (Some 5)) false; Brain.world := w;
          Brain.log :=
            ([] ++ [Brain.Ev (Brain.Perturb 5 (Demo.a_batch 10)) (Ok (b1, adv_wavs));
                    Brain.Ev (Brain.ComputeForward
                                (Brain.set_sig b1 (adv_wavs, snd (Brain.sig b1))) TEST)
                             (Ok (b2, out));
                    Brain.Ev (Brain.ComputeObjectives
                                out (Brain.set_sig b2 (10, snd (Brain.sig b2))) TEST true)
                             (Ok (batch', loss))])%list |},
       Ok (batch', loss)).
Proof.
  apply (proj1 (@evaluate_adversarial_loss_on_restored_batch
                  Demo.int_types Demo.int_framework
                  (Demo.a_batch 10) TEST (Demo.a_state (Some (Some 5)) false) 5
                  demo_never_raises eq_refl)).
  discriminate.
Defined.

Lemma eval_loop_debug_cutoff_witness :
  @Brain.eval_loop Demo.int_types Demo.int_framework TEST
     [Demo.a_batch 10; Demo.a_batch 20; Demo.a_batch 30] 0 0
     (Demo.a_state (Some (Some 5)) true)
  = @Brain.spec_eval_twice Demo.int_types Demo.int_framework TEST
      [Demo.a_batch 10; Demo.a_batch 20] 0 0
      (Demo.a_state (Some (Some 5)) true).
Proof.
  apply (proj1 (@eval_loop_debug_cutoff Demo.int_types Demo.int_framework TEST
                  [Demo.a_batch 10; Demo.a_batch 20; Demo.a_batch 30] 0 0
                  (Demo.a_state (Some (Some 5)) true)) eq_refl).
  cbn. lia.
Defined.

Section BrainSteps.
Context {T : Brain.Types} {fw : Brain.Framework}.
Import Brain.

Lemma bind_inv {S A B} (c : M S A) (k : A -> M S B) (s s' : S) (b : B) :
  bind c k s = (s', Ok b) ->
  exists a s1, c s = (s1, Ok a) /\ k a s1 = (s', Ok b).
Proof.
  unfold bind. destruct (c s) as [s1 [a|e]]; intros H; [| discriminate].
  exists a, s1. split; [reflexivity | exact H].
Qed.

Lemma same_settings_refl (b : brain) : same_settings b b.
Proof. repeat split. Qed.

Lemma same_settings_trans (b1 b2 b3 : brain) :
  same_settings b1 b2 -> same_settings b2 b3 -> same_settings b1 b3.
Proof.
  intros (H1 & H2 & H3 & H4) (K1 & K2 & K3 & K4).
  repeat split; congruence.
Qed.

Lemma same_settings_self (b1 b2 : brain) : b1 = b2 -> same_settings b1 b2.
Proof. intros ->. apply same_settings_refl. Qed.

Lemma same_settings_set_step (b : brain) (n : Z) : same_settings (set_step b n) b.
Proof. repeat split. Qed.

Lemma bind_settings {A B} (c : M state A) (k : A -> M state B) :
  (forall st, same_settings (self (fst (c st))) (self st)) ->
  (forall a st, same_settings (self (fst (k a st))) (self st)) ->
  forall st, same_settings (self (fst (bind c k st))) (self st).
Proof.
  intros Hc Hk st. unfold bind. specialize (Hc st).
  destruct (c st) as [st1 [a|e]]; cbn [fst] in *; [| exact Hc].
  exact (same_settings_trans _ _ _ (Hk a st1) Hc).
Qed.

Lemma setattr_step_settings (n : Z) (st : state) :
  same_settings (self (fst (setattr_step n st))) (self st).
Proof.
  rewrite setattr_step_run.
  destruct (attacker (self st)) as [[a|]|].
  - destruct (handle _ (SetattrAttacked a "step" n) (world st)) as [w [u|e]];
      cbn [fst self]; [apply same_settings_set_step | apply same_settings_refl].
  - apply same_settings_refl.
  - apply same_settings_set_step.
Qed.

Lemma eval_loop_settings (stage : Stage) (batches : list Batch)
      (avg_loss avg_adv_loss : Avg) (st : state) :
  same_settings (self (fst (eval_loop stage batches avg_loss avg_adv_loss st)))
                (self st).
Proof.
  revert avg_loss avg_adv_loss st.
  induction batches as [|batch rest IH]; intros avg_loss avg_adv_loss st.
  - apply same_settings_refl.
  - cbn [eval_loop].
    rewrite (bind_ok get_self _ st st (self st) eq_refl).
    generalize (step (self st) + 1). intros n. revert st.
    apply bind_settings; [intros s; apply setattr_step_settings |].
    intros _ s0. revert s0.
    apply bind_settings;
      [intros s; apply same_settings_self, do_self |].
    intros [b loss] s1. revert s1.
    apply bind_settings;
      [intros s; apply same_settings_self, update_average_self |].
    intros avg' s2. revert s2.
    apply bind_settings;
      [intros s; apply same_settings_self, evaluate_adversarial_self |].
    intros [b' adv_loss] s3. revert s3.
    apply bind_settings;
      [intros s; apply same_settings_self, update_average_self |].
    intros adv' s4. revert s4.
    apply bind_settings; [intros s; apply same_settings_refl |].
    intros me s5.
    destruct (debug me && (step me =? debug_batches me)).
    + apply same_settings_refl.
    + apply IH.
Qed.

Lemma do_result_self {R} (c : call R) (st st' : state) (r : result R) :
  do c st = (st', r) -> self st' = self st.
Proof. intros H. rewrite <- (do_self c st), H. reflexivity. Qed.

(** X20. When [evaluate] or the validation stage of [fit] returns, the
    step counter of the brain is 0 again, and the debug settings, the mixed
    precision flag and the attacker are what they were. *)
Theorem evaluation_resets_step :
  (forall (test_set : list Batch) (max_key min_key : option string)
          (st st' : state) (avg : Avg),
      evaluate test_set max_key min_key st = (st', Ok avg) ->
      step (self st') = 0 /\ same_settings (self st') (self st))
  /\ (forall (epoch : Z) (valid_set : list Batch) (st st' : state),
        fit_validation epoch valid_set st = (st', Ok tt) ->
        step (self st') = 0 /\ same_settings (self st') (self st)).
Proof.
  split.
  - intros test_set max_key min_key st st' avg H.
    unfold evaluate in H.
    apply bind_inv in H. destruct H as (u1 & s1 & H1 & H).
    apply bind_inv in H. destruct H as (u2 & s2 & H2 & H).
    apply bind_inv in H. destruct H as (u3 & s3 & H3 & H).
    apply bind_inv in H. destruct H as ([x y] & s4 & H4 & H).
    apply bind_inv in H. destruct H as (u5 & s5 & H5 & H).
    apply bind_inv in H. destruct H as (u6 & s6 & H6 & H).
    unfold ret in H. inversion H; subst st' avg; clear H.
    apply setattr_step_ok in H6. rewrite H6.
    split; [reflexivity |].
    apply (same_settings_trans _ (self s5)); [apply same_settings_set_step |].
    pose proof (do_result_self _ _ _ _ H1) as E1.
    pose proof (do_result_self _ _ _ _ H2) as E2.
    pose proof (do_result_self _ _ _ _ H3) as E3.
    pose proof (do_result_self _ _ _ _ H5) as E5.
    pose proof (eval_loop_settings TEST test_set zero zero s3) as E4.
    rewrite H4 in E4. cbn [fst] in E4.
    rewrite E5. rewrite <- E1, <- E2, <- E3. exact E4.
  - intros epoch valid_set st st' H.
    unfold fit_validation in H.
    apply bind_inv in H. destruct H as (u1 & s1 & H1 & H).
    apply bind_inv in H. destruct H as (u2 & s2 & H2 & H).
    apply bind_inv in H. destruct H as ([x y] & s3 & H3 & H).
    apply bind_inv in H. destruct H as (u4 & s4 & H4 & H).
    apply setattr_step_ok in H4.
    pose proof (do_result_self _ _ _ _ H) as E5.
    rewrite E5, H4. split; [reflexivity |].
    apply (same_settings_trans _ (self s3)); [apply same_settings_set_step |].
    pose proof (do_result_self _ _ _ _ H1) as E1.
    pose proof (do_result_self _ _ _ _ H2) as E2.
    pose proof (eval_loop_settings VALID valid_set zero zero s2) as E3.
    rewrite H3 in E3. cbn [fst] in E3.
    rewrite <- E1, <- E2. exact E3.
Qed.

End BrainSteps.

Section BrainTraining.
Context {T : Brain.Types} {fw : Brain.Framework}.
Import Brain.

Lemma bind_raises_without_update {A B} (c : M state A) (k : A -> M state B)
      (st : state) :
  raises_without_update c st -> raises_without_update (bind c k) st.
Proof.
  intros (st' & e & new & Hc & Hs & Hl & Hf).
  exists st', e, new. unfold bind. rewrite Hc. auto.
Qed.

Lemma forward_adversarial_no_attacker (batch : Batch) (stage : Stage) (st : state) :
  stage <> ATTACK ->
  (forall a, attacker (self st) <> Some (Some a)) ->
  raises_without_update (compute_forward_adversarial batch stage) st.
Proof.
  intros Hstage Hno. unfold raises_without_update.
  destruct (attacker (self st)) as [[a|]|] eqn:Hatt.
  - exfalso. exact (Hno a eq_refl).
  - rewrite (forward_adversarial_None batch stage st Hstage Hatt).
    destruct (handle _ (ComputeForward batch stage) (world st)) as [w1 [r|e]].
    + exists {| self := self st; world := w1;
                log := (log st ++ [Ev (ComputeForward batch stage) (Ok r)])%list |},
             (UnboundLocalError "adv_wavs"),
             [Ev (ComputeForward batch stage) (Ok r)].
      repeat split.
    + exists {| self := self st; world := w1;
                log := (log st ++ [Ev (ComputeForward batch stage) (Raise e)])%list |},
             e, [Ev (ComputeForward batch stage) (Raise e)].
      repeat split.
  - rewrite (forward_adversarial_missing batch stage st Hstage Hatt).
    exists st, (AttributeError "attacker"), [].
    rewrite List.app_nil_r. repeat split.
Qed.

Lemma with_autocast_raises_without_update {A} (body : M state A) (st : state) :
  (forall w lg, raises_without_update body {| self := self st; world := w; log := lg |}) ->
  raises_without_update (with_autocast body) st.
Proof.
  intros Hbody. unfold with_autocast, raises_without_update.
  unfold bind at 1. rewrite do_run.
  destruct (handle _ AutocastEnter (world st)) as [w1 [u|e]] eqn:E1; cbn [fst snd].
  - destruct (Hbody w1 (log st ++ [Ev AutocastEnter (Ok u)])%list)
      as (s2 & e & new & Hb & Hs & Hl & Hf).
    rewrite Hb. unfold bind. rewrite do_run.
    destruct (handle _ AutocastExit (world s2)) as [w3 [u3|e3]] eqn:E3; cbn [fst snd].
    + eexists _, e, ([Ev AutocastEnter (Ok u)] ++ new ++ [Ev AutocastExit (Ok u3)])%list.
      unfold raise. split; [reflexivity |]. cbn [self log]. rewrite Hl.
      cbn [self log] in *. split; [exact Hs |]. split.
      * rewrite <- !List.app_assoc. reflexivity.
      * rewrite !List.filter_app, Hf. reflexivity.
    + eexists _, e3, ([Ev AutocastEnter (Ok u)] ++ new ++ [Ev AutocastExit (Raise e3)])%list.
      split; [reflexivity |]. cbn [self log]. rewrite Hl.
      cbn [self log] in *. split; [exact Hs |]. split.
      * rewrite <- !List.app_assoc. reflexivity.
      * rewrite !List.filter_app, Hf. reflexivity.
  - eexists _, e, [Ev AutocastEnter (Raise e)].
    split; [reflexivity |]. repeat split.
Qed.

(** X21. A training step needs an attacker. When the brain has no attacker
    (the attribute is missing, or it is [None]), [fit_batch_adversarial]
    raises, with and without mixed precision, and it has run no backward
    pass and no optimizer or scaler step: the parameters are not updated. *)
Theorem training_step_needs_attacker (batch : Batch) (st : state) :
  (forall a, attacker (self st) <> Some (Some a)) ->
  exists (st' : state) (e : exn) (new : list event),
    fit_batch_adversarial batch st = (st', Raise e)
    /\ self st' = self st
    /\ log st' = (log st ++ new)%list
    /\ List.filter is_update new = [].
Proof.
  intros Hno. change (raises_without_update (fit_batch_adversarial batch) st).
  assert (Hstage : TRAIN <> ATTACK) by discriminate.
  unfold fit_batch_adversarial.
  unfold raises_without_update.
  rewrite (bind_ok get_self _ st st (self st) eq_refl).
  destruct (auto_mix_prec (self st)).
  - unfold bind at 1. rewrite do_run.
    destruct (handle _ ZeroGrad (world st)) as [w1 [u|e]] eqn:E1; cbn [fst snd].
    + match goal with
      | |- context [bind (with_autocast ?body) ?k ?s] =>
          destruct (bind_raises_without_update (with_autocast body) k s)
            as (s2 & e & new & Hb & Hs & Hl & Hf)
      end.
      { apply with_autocast_raises_without_update. intros w lg.
        apply bind_raises_without_update.
        apply forward_adversarial_no_attacker; [exact Hstage | exact Hno]. }
      exists s2, e, ([Ev ZeroGrad (Ok u)] ++ new)%list.
      split; [exact Hb |]. cbn [self log] in *.
      split; [exact Hs |]. split.
      * rewrite Hl, <- List.app_assoc. reflexivity.
      * rewrite List.filter_app, Hf. reflexivity.
    + eexists _, e, [Ev ZeroGrad (Raise e)].
      split; [reflexivity |]. repeat split.
  - apply bind_raises_without_update.
    apply forward_adversarial_no_attacker; [exact Hstage | exact Hno].
Qed.

End BrainTraining.

Lemma evaluation_resets_step_witness :
  Brain.step
    (Brain.self
       (fst (@Brain.evaluate Demo.int_types Demo.int_framework
               [Demo.a_batch 10; Demo.a_batch 20] None None
               (Demo.a_state (Some (Some 5)) false)))) = 0.
Proof.
  refine (proj1 (proj1 (@evaluation_resets_step Demo.int_types Demo.int_framework)
                   [Demo.a_batch 10; Demo.a_batch 20] None None
                   (Demo.a_state (Some (Some 5)) false) _ _ _)).
  vm_compute. reflexivity.
Defined.

Lemma training_step_needs_attacker_witness :
  exists st' e new,
    @Brain.fit_batch_adversarial Demo.int_types Demo.int_framework
      (Demo.a_batch 10) (Demo.a_state (Some None) false) = (st', Raise e)
    /\ Brain.self st' = Demo.a_brain (Some None) false
    /\ Brain.log st' = new
    /\ List.filter Brain.is_update new = [].
Proof.
  apply (@training_step_needs_attacker Demo.int_types Demo.int_framework
           (Demo.a_batch 10) (Demo.a_state (Some None) false)).
  intros a H. discriminate H.
Defined.
